(** * UPDOGO_ROBOT: capability resolution and worker supervision

    A shallow embedding of the control layer of [UPDOG_ROBOT.py]:
    the conditional import helper [_try_import] and the module-level
    binding of the [_cls] variables, the internal and dummy worker
    classes, the worker setup loop of [MainWindow] and its
    [closeEvent].

    Python values are modelled as follows.
    - [str] is [string]; a character is a code point below 256.
    - [Dict[str, T]] used as a map is [gmap string T]; the [workers]
      dictionary, whose iteration order is observable, is an
      association list.
    - Exceptions are explicit: a computation returns [Ok v] or
      [Raise e], and [try]/[except] is [try_except].
    - The module globals [MODULE_IMPORTS_OK] and [MISSING_MODULES] are
      threaded through as a state.
    - Qt signals and device calls are recorded in a trace, in program
      order.
    - Foreign code (the import machinery, constructors of imported
      classes, OpenCV, QThread) is an environment record of outcomes;
      OpenCV and Qt calls are taken not to raise unless the record
      says so.
    - Calls to [logger] in the worker classes are kept as [Log]
      effects; elsewhere they are left out. *)

From stdpp Require Import gmap strings list pretty.
From Stdlib Require Import ZArith Lia.

Open Scope Z_scope.

(** ** Python exceptions and the globals of the module *)

Module Py.

(** The exception classes that occur in the modelled code.  All of
    them derive from [Exception]; [ModuleNotFoundError] derives from
    [ImportError]. *)
Inductive exn : Type :=
| ImportError
| ModuleNotFoundError
| AttributeError
| KeyError
| TypeError
| ValueError
| RuntimeError.

Definition is_ImportError (e : exn) : bool :=
  match e with
  | ImportError | ModuleNotFoundError => true
  | _ => false
  end.

Definition is_TypeError (e : exn) : bool :=
  match e with
  | TypeError => true
  | _ => false
  end.

Inductive result (A : Type) : Type :=
| Ok (a : A)
| Raise (e : exn).
Arguments Ok {A} a.
Arguments Raise {A} e.

Definition is_ok {A} (r : result A) : bool :=
  match r with Ok _ => true | Raise _ => false end.

(** Sequencing and [try]/[except] for code that does not touch the
    globals. *)
Definition rbind {A B} (r : result A) (k : A -> result B) : result B :=
  match r with
  | Ok a => k a
  | Raise e => Raise e
  end.

Definition rtry {A} (body : result A) (handler : exn -> option (result A))
  : result A :=
  match body with
  | Ok a => Ok a
  | Raise e =>
      match handler e with
      | Some h => h
      | None => Raise e
      end
  end.

(** [MODULE_IMPORTS_OK] and [MISSING_MODULES] (lines 222-223). *)
Record Globals : Type := mkGlobals {
  MODULE_IMPORTS_OK : bool;
  MISSING_MODULES : list string
}.

Definition initial_globals : Globals :=
  {| MODULE_IMPORTS_OK := true; MISSING_MODULES := [] |}.

(** Computations over the globals that may raise.  The globals
    survive an exception, as in Python. *)
Definition M (A : Type) : Type := Globals -> result A * Globals.

Definition ret {A} (a : A) : M A := fun g => (Ok a, g).

Definition raise {A} (e : exn) : M A := fun g => (Raise e, g).

Definition bind {A B} (m : M A) (k : A -> M B) : M B :=
  fun g =>
    match m g with
    | (Ok a, g') => k a g'
    | (Raise e, g') => (Raise e, g')
    end.

Definition lift {A} (r : result A) : M A := fun g => (r, g).

(** [try: body except ...: handler].  [handler e] is [None] when no
    [except] clause matches [e]. *)
Definition try_except {A} (body : M A) (handler : exn -> option (M A)) : M A :=
  fun g =>
    match body g with
    | (Ok a, g') => (Ok a, g')
    | (Raise e, g') =>
        match handler e with
        | Some h => h g'
        | None => (Raise e, g')
        end
    end.

Definition get_missing : M (list string) :=
  fun g => (Ok (MISSING_MODULES g), g).

Definition append_missing (s : string) : M unit :=
  fun g => (Ok tt, {| MODULE_IMPORTS_OK := MODULE_IMPORTS_OK g;
                      MISSING_MODULES := MISSING_MODULES g ++ [s] |}).

Definition set_imports_ok (b : bool) : M unit :=
  fun g => (Ok tt, {| MODULE_IMPORTS_OK := b;
                      MISSING_MODULES := MISSING_MODULES g |}).

(** [if x not in MISSING_MODULES: MISSING_MODULES.append(entry)] *)
Definition append_missing_unless_listed (x entry : string) : M unit :=
  bind get_missing (fun l =>
    if bool_decide (x ∈ l) then ret tt else append_missing entry).

Module Notations.
Notation "x <- c1 ;; c2" := (bind c1 (fun x => c2))
  (at level 100, c1 at next level, right associativity).
Notation "c1 ;;; c2" := (bind c1 (fun _ => c2))
  (at level 100, right associativity).
Notation "'let!' x ':=' c1 'in' c2" := (rbind c1 (fun x => c2))
  (at level 100, x name, c1 at next level, right associativity).
Notation "'do!' c1 'in' c2" := (rbind c1 (fun _ => c2))
  (at level 100, c1 at next level, right associativity).
End Notations.

End Py.

Import Py Py.Notations.

(** ** The module resolver *)

Module Resolver.

(** A class object: what a [_cls] variable holds.  [cls_name] is its
    [__name__]; [cls_module] the module that defines it. *)
Record PyClass : Type := mkClass {
  cls_name : string;
  cls_module : string
}.

#[global] Instance PyClass_eq_dec : EqDecision PyClass.
Proof. solve_decision. Defined.

(** What [__import__(module_name, fromlist=...)] does: it returns
    the module, seen as the map of its attributes, or raises. *)
Inductive import_outcome : Type :=
| Loaded (attrs : gmap string PyClass)
| ImportFails (e : exn).

(** The state of the import path at start-up. *)
Definition Importer : Type := string -> import_outcome.

Definition py_import (imp : Importer) (module_name : string)
  : M (gmap string PyClass) :=
  match imp module_name with
  | Loaded attrs => ret attrs
  | ImportFails e => raise e
  end.

(** The [for item_name in items_to_import] loop of [_try_import]
    (lines 260-267), on the pair
    [(imported_items, all_items_found_in_module)]. *)
Fixpoint scan_items (module : gmap string PyClass) (items : list string)
    (acc : gmap string PyClass * bool) : gmap string PyClass * bool :=
  match items with
  | [] => acc
  | item_name :: rest =>
      match module !! item_name with
      | Some v => scan_items module rest (<[item_name := v]> (fst acc), snd acc)
      | None => scan_items module rest (fst acc, false)
      end
  end.

(** Truth value of a dictionary: non-empty. *)
Definition dict_truthy {V} (d : gmap string V) : bool :=
  bool_decide (d ≠ ∅).

Definition try_import_body (imp : Importer) (module_name : string)
    (items_to_import : list string) (file_hint : string)
  : M (option (gmap string PyClass) * bool) :=
  module <- py_import imp module_name ;;
  let '(imported_items, all_items_found_in_module) :=
    scan_items module items_to_import (∅, true) in
  (if negb all_items_found_in_module
   then append_missing_unless_listed file_hint
          (file_hint +:+ " (item missing within module)") ;;;
        set_imports_ok false
   else ret tt) ;;;
  ret (if all_items_found_in_module && dict_truthy imported_items
       then Some imported_items else None,
       all_items_found_in_module && dict_truthy imported_items).

(** [_try_import] (lines 227-290). *)
Definition _try_import (imp : Importer) (module_name : string)
    (items_to_import : list string) (file_hint : string)
  : M (option (gmap string PyClass) * bool) :=
  try_except (try_import_body imp module_name items_to_import file_hint)
    (fun e =>
       if is_ImportError e
       then Some (set_imports_ok false ;;;
                  append_missing_unless_listed file_hint file_hint ;;;
                  ret (None, false))
       else Some (set_imports_ok false ;;;
                  append_missing_unless_listed file_hint
                    (file_hint +:+ " (unexpected import error)") ;;;
                  ret (None, false))).

(** One entry of the module-level resolution block (lines 656-691):
    the variable bound, the module and member imported, the file
    hint, and the internal dummy class. *)
Record Capability : Type := mkCapability {
  cap_var : string;
  cap_module : string;
  cap_item : string;
  cap_hint : string;
  cap_dummy : PyClass
}.

Definition dummy (name : string) : PyClass :=
  {| cls_name := name; cls_module := "__main__" |}.

Definition EmotionWorker_Dummy := dummy "EmotionWorker_Dummy".
Definition RobotAppearanceWidget_Dummy := dummy "RobotAppearanceWidget_Dummy".
Definition TTSWorker_Dummy := dummy "TTSWorker_Dummy".
Definition VoiceListenerWorker_Dummy := dummy "VoiceListenerWorker_Dummy".
Definition NLPWorker_Dummy := dummy "NLPWorker_Dummy".
Definition RobotInfoModule_Dummy := dummy "RobotInfoModule_Dummy".
Definition GrammarSystem_Dummy := dummy "GrammarSystem_Dummy".
Definition MultiLangCorrectionModule_Dummy := dummy "MultiLangCorrectionModule_Dummy".

Definition cap_EmotionWorker : Capability :=
  mkCapability "EmotionWorker_cls" "emotion_engine" "EmotionWorker"
    "emotion_engine.py" EmotionWorker_Dummy.
Definition cap_RobotAppearanceWidget : Capability :=
  mkCapability "RobotAppearanceWidget_cls" "robot_appearance" "RobotAppearanceWidget"
    "robot_appearance.py" RobotAppearanceWidget_Dummy.
Definition cap_TTSWorker : Capability :=
  mkCapability "TTSWorker_cls" "voice_output_v2" "TTSWorker"
    "voice_output_v2.py" TTSWorker_Dummy.
Definition cap_VoiceListenerWorker : Capability :=
  mkCapability "VoiceListenerWorker_cls" "robot_audio_listener_v2" "VoiceListenerWorker"
    "robot_audio_listener_v2.py" VoiceListenerWorker_Dummy.
Definition cap_NLPWorker : Capability :=
  mkCapability "NLPWorker_cls" "nlp_worker_v2" "NLPWorker"
    "nlp_worker_v2.py" NLPWorker_Dummy.
Definition cap_RobotInfoModule : Capability :=
  mkCapability "RobotInfoModule_for_deps" "robot_info_module_v2" "RobotInfoModule"
    "robot_info_module_v2.py" RobotInfoModule_Dummy.
Definition cap_GrammarSystem : Capability :=
  mkCapability "GrammarSystem_for_deps" "grammar_system_v2" "GrammarSystem"
    "grammar_system_v2.py" GrammarSystem_Dummy.
Definition cap_MultiLangCorrector : Capability :=
  mkCapability "MultiLangCorrector_for_deps" "multi_language_correction_v2"
    "EnhancedMultilingualCorrector"
    "multi_language_correction_v2.py" MultiLangCorrectionModule_Dummy.

(** The capabilities, in the order the module resolves them. *)
Definition capability_registry : list Capability :=
  [ cap_EmotionWorker; cap_RobotAppearanceWidget; cap_TTSWorker;
    cap_VoiceListenerWorker; cap_NLPWorker; cap_RobotInfoModule;
    cap_GrammarSystem; cap_MultiLangCorrector ].

(** The entries [_try_import] may append to [MISSING_MODULES] for a
    capability. *)
Definition hint_entries (c : Capability) : list string :=
  [ cap_hint c;
    cap_hint c +:+ " (item missing within module)";
    cap_hint c +:+ " (unexpected import error)" ].

(** [d[key]]: raises [KeyError] when the key is absent. *)
Definition getitem {V} (d : gmap string V) (key : string) : M V :=
  match d !! key with
  | Some v => ret v
  | None => raise KeyError
  end.

(** [imported, _ = _try_import(m, [item], hint)] followed by
    [X_cls = imported[item] if imported else X_Dummy]. *)
Definition resolve (imp : Importer) (c : Capability) : M PyClass :=
  r <- _try_import imp (cap_module c) [cap_item c] (cap_hint c) ;;
  match fst r with
  | Some imported =>
      if dict_truthy imported then getitem imported (cap_item c)
      else ret (cap_dummy c)
  | None => ret (cap_dummy c)
  end.

(** The [_cls] and [_for_deps] variables of the module. *)
Record Classes : Type := mkClasses {
  EmotionWorker_cls : PyClass;
  RobotAppearanceWidget_cls : PyClass;
  TTSWorker_cls : PyClass;
  VoiceListenerWorker_cls : PyClass;
  NLPWorker_cls : PyClass;
  RobotInfoModule_for_deps : PyClass;
  GrammarSystem_for_deps : PyClass;
  MultiLangCorrector_for_deps : PyClass
}.

(** The resolution block of the module (lines 656-691), statement by
    statement. *)
Definition resolve_all (imp : Importer) : M Classes :=
  ee <- resolve imp cap_EmotionWorker ;;
  ra <- resolve imp cap_RobotAppearanceWidget ;;
  vo <- resolve imp cap_TTSWorker ;;
  ral <- resolve imp cap_VoiceListenerWorker ;;
  nlp <- resolve imp cap_NLPWorker ;;
  ri <- resolve imp cap_RobotInfoModule ;;
  gs <- resolve imp cap_GrammarSystem ;;
  mlc <- resolve imp cap_MultiLangCorrector ;;
  ret {| EmotionWorker_cls := ee;
         RobotAppearanceWidget_cls := ra;
         TTSWorker_cls := vo;
         VoiceListenerWorker_cls := ral;
         NLPWorker_cls := nlp;
         RobotInfoModule_for_deps := ri;
         GrammarSystem_for_deps := gs;
         MultiLangCorrector_for_deps := mlc |}.

(** The class a capability is expected to be bound to: the member
    of the loaded module when there is one, the dummy otherwise. *)
Definition expected_binding (imp : Importer) (c : Capability) : PyClass :=
  match imp (cap_module c) with
  | Loaded attrs =>
      match attrs !! cap_item c with
      | Some cls => cls
      | None => cap_dummy c
      end
  | ImportFails _ => cap_dummy c
  end.

End Resolver.

(** ** Signals, device calls and timers *)

Module Qt.

(** A camera frame.  The pixel operations are foreign; a frame keeps
    the identity of the grabbed image and the filters applied. *)
Record Frame : Type := mkFrame {
  frame_raw : nat;
  frame_filters : list string
}.

(** The signals of the worker classes (the [pyqtSignal] attributes),
    with their payloads. *)
Inductive signal : Type :=
| error (worker_name message : string)
| finished
| status_update (message : string) (timeout_ms : Z)
| frame_ready (frame : Frame)
| speech_started (text : string)
| speech_word_boundary (word : string) (location length : Z)
| speech_finished (text : string).

(** Calls on [cv2] and on the [cv2.VideoCapture] object. *)
Inductive cv_call : Type :=
| VideoCapture (index : Z)
| isOpened
| set_prop (prop : string) (value : Z)
| read
| release.

(** What a method does besides changing its object, in program
    order: it emits a signal, calls the capture device, sleeps, arms a
    single-shot timer whose callback emits a signal, or logs. *)
Inductive effect : Type :=
| Emit (s : signal)
| Cv (c : cv_call)
| msleep (ms : Z)
| singleShot (ms : Z) (callback : signal)
| Log (site : string).

Definition signals_of (tr : list effect) : list signal :=
  omap (fun e => match e with Emit s => Some s | _ => None end) tr.

Definition timers_of (tr : list effect) : list (Z * signal) :=
  omap (fun e => match e with singleShot ms s => Some (ms, s) | _ => None end) tr.

(** The event loop fires armed timers by increasing delay; timers with
    the same delay fire in the order they were armed. *)
Fixpoint insert_timer (t : Z * signal) (ts : list (Z * signal)) : list (Z * signal) :=
  match ts with
  | [] => [t]
  | u :: rest =>
      if fst t <? fst u then t :: u :: rest
      else u :: insert_timer t rest
  end.

Fixpoint fire_order (ts : list (Z * signal)) : list (Z * signal) :=
  match ts with
  | [] => []
  | t :: rest => insert_timer t (fire_order rest)
  end.

(** What an observer of the signals sees of one slot call once the
    event loop has run all its timers: the signals emitted during the
    call, then those of the timers. *)
Definition observed (tr : list effect) : list signal :=
  signals_of tr ++ map snd (fire_order (timers_of tr)).

(** The delays of a list of timers increase strictly. *)
Fixpoint ascending (ts : list (Z * signal)) : Prop :=
  match ts with
  | [] => True
  | t :: rest =>
      match rest with
      | [] => True
      | u :: _ => fst t < fst u
      end /\ ascending rest
  end.

End Qt.

Import Qt.

(** ** The worker classes *)

(** [BaseWorkerDummy] (lines 296-321). *)
Module BaseWorkerDummy.

Record obj : Type := mk {
  worker_name : string
}.

Definition __init__ (name : string) : obj := {| worker_name := name |}.

Definition log_dummy_call (self : obj) (method_name : string) : list effect :=
  [Log ("DUMMY CALL: " +:+ worker_name self +:+ "." +:+ method_name)].

Definition shutdown (self : obj) : obj * list effect :=
  (self, log_dummy_call self "shutdown" ++ [Emit finished]).

Definition stop (self : obj) : obj * list effect :=
  (self, log_dummy_call self "stop").

End BaseWorkerDummy.

(** [str.split()] without arguments: the maximal runs of
    non-whitespace characters. *)
Module PyStr.

Definition isspace (c : Ascii.ascii) : bool :=
  let n := Ascii.N_of_ascii c in
  ((9 <=? n) && (n <=? 13) || (28 <=? n) && (n <=? 32)
   || (n =? 133) || (n =? 160))%N.

Fixpoint split_from (s : string) (cur : option string) : list string :=
  match s with
  | EmptyString => match cur with Some w => [w] | None => [] end
  | String c rest =>
      if isspace c
      then match cur with
           | Some w => w :: split_from rest None
           | None => split_from rest None
           end
      else split_from rest (Some (default "" cur +:+ String c ""))
  end.

Definition split (s : string) : list string := split_from s None.

Definition len (s : string) : Z := Z.of_nat (String.length s).

End PyStr.

(** [TTSWorker_Dummy] (lines 493-553), a [BaseWorkerDummy]. *)
Module TTSWorker_Dummy.

Definition __init__ : BaseWorkerDummy.obj :=
  BaseWorkerDummy.__init__ "TTSWorkerDummy".

Definition delay_ms_per_word : Z := 200.

(** The [for i, word_val in enumerate(words)] loop of [speak], from
    index [i] and character position [char_pos]. *)
Fixpoint schedule_words (words : list string) (i char_pos : Z) : list effect :=
  match words with
  | [] => []
  | word_val :: rest =>
      let word_len := PyStr.len word_val in
      singleShot (i * delay_ms_per_word + delay_ms_per_word / 2)
                 (speech_word_boundary word_val char_pos word_len)
      :: schedule_words rest (i + 1) (char_pos + word_len + 1)
  end.

Definition speak (self : BaseWorkerDummy.obj) (text : string)
  : BaseWorkerDummy.obj * list effect :=
  let words := PyStr.split text in
  (self,
   BaseWorkerDummy.log_dummy_call self "speak"
   ++ [Emit (speech_started text)]
   ++ schedule_words words 0 0
   ++ [singleShot (Z.of_nat (length words) * delay_ms_per_word + delay_ms_per_word)
                  (speech_finished text)]).

(** The word-boundary signals [speak] arms, in the order of the
    words. *)
Fixpoint word_boundaries (words : list string) (char_pos : Z) : list signal :=
  match words with
  | [] => []
  | word_val :: rest =>
      speech_word_boundary word_val char_pos (PyStr.len word_val)
      :: word_boundaries rest (char_pos + PyStr.len word_val + 1)
  end.

Definition stop_speaking (self : BaseWorkerDummy.obj)
  : BaseWorkerDummy.obj * list effect :=
  (self,
   BaseWorkerDummy.log_dummy_call self "stop_speaking"
   ++ [Emit (speech_finished "(Dummy TTS Speech Interrupted)")]).

End TTSWorker_Dummy.

(** [Worker] (lines 712-754), the base of the internal workers. *)
Module Worker.

Record obj : Type := mk {
  worker_name : string;
  _is_running : bool
}.

Definition __init__ (worker_name : string) : obj :=
  {| worker_name := worker_name; _is_running := true |}.

Definition set_is_running (self : obj) (b : bool) : obj :=
  {| worker_name := worker_name self; _is_running := b |}.

Definition log_internal_worker_call (self : obj) (method_name : string)
  : list effect :=
  [Log ("INTERNAL WORKER CALL: " +:+ worker_name self +:+ "." +:+ method_name)].

Definition stop (self : obj) : obj * list effect :=
  (set_is_running self false,
   [Log ("Stopping internal worker '" +:+ worker_name self +:+ "'...")]).

Definition shutdown (self : obj) : obj * list effect :=
  let '(self', tr) := stop self in
  (self', log_internal_worker_call self "shutdown" ++ tr ++ [Emit finished]).

End Worker.

(** [CameraWorker] (lines 757-870), a [Worker]. *)
Module CameraWorker.

Definition DEFAULT_CAMERA_INDEX : Z := 0.
Definition DEFAULT_CAMERA_RESOLUTION : Z * Z := (640, 480).

(** [RAW_CAMERA_FILTERS] (lines 108-111). *)
Definition RAW_CAMERA_FILTERS : gmap string (option string) :=
  list_to_map
    [ ("None", None); ("Grayscale", Some "grayscale"); ("Blur", Some "blur");
      ("Edges", Some "canny"); ("Sepia", Some "sepia");
      ("Invert", Some "invert"); ("Cartoon", Some "cartoon") ].

Definition RAW_DEFAULT_CAMERA_FILTER : string := "None".

(** The [camera_settings] section of the configuration, as far as the
    constructor reads it. *)
Record Config : Type := mkConfig {
  cfg_camera_index : option Z;
  cfg_camera_resolution : option (Z * Z)
}.

(** A [cv2.VideoCapture] object: the index it was created for and
    what its [isOpened()] answers. *)
Record Capture : Type := mkCapture {
  cap_index : Z;
  cap_isOpened : bool
}.

Record obj : Type := mk {
  base : Worker.obj;
  config : Config;
  camera_index : Z;
  resolution : Z * Z;
  cap : option Capture;
  current_filter_key : option string;
  _filter_warning_logged : bool
}.

Definition worker_name (self : obj) : string := Worker.worker_name (base self).
Definition _is_running (self : obj) : bool := Worker._is_running (base self).

Definition __init__ (config : Config) : obj :=
  {| base := Worker.__init__ "CameraWorker";
     config := config;
     camera_index := default DEFAULT_CAMERA_INDEX (cfg_camera_index config);
     resolution := default DEFAULT_CAMERA_RESOLUTION (cfg_camera_resolution config);
     cap := None;
     current_filter_key := Some RAW_DEFAULT_CAMERA_FILTER;
     _filter_warning_logged := false |}.

Definition set_base (self : obj) (b : Worker.obj) : obj :=
  {| base := b; config := config self; camera_index := camera_index self;
     resolution := resolution self; cap := cap self;
     current_filter_key := current_filter_key self;
     _filter_warning_logged := _filter_warning_logged self |}.

Definition set_cap (self : obj) (c : option Capture) : obj :=
  {| base := base self; config := config self; camera_index := camera_index self;
     resolution := resolution self; cap := c;
     current_filter_key := current_filter_key self;
     _filter_warning_logged := _filter_warning_logged self |}.

Definition set_current_filter_key (self : obj) (k : option string) : obj :=
  {| base := base self; config := config self; camera_index := camera_index self;
     resolution := resolution self; cap := cap self;
     current_filter_key := k;
     _filter_warning_logged := _filter_warning_logged self |}.

Definition set_filter_warning_logged (self : obj) : obj :=
  {| base := base self; config := config self; camera_index := camera_index self;
     resolution := resolution self; cap := cap self;
     current_filter_key := current_filter_key self;
     _filter_warning_logged := true |}.

(** The inherited [stop]. *)
Definition stop (self : obj) : obj * list effect :=
  let '(b, tr) := Worker.stop (base self) in (set_base self b, tr).

(** [set_filter] (lines 780-788). *)
Definition set_filter (self : obj) (filter_key : string) : obj * list effect :=
  let call := Worker.log_internal_worker_call (base self) "set_filter" in
  if bool_decide (filter_key ∈ dom RAW_CAMERA_FILTERS)
  then (set_current_filter_key self (Some filter_key),
        call ++ [Log ("CameraWorker: Filter set to '" +:+ filter_key +:+ "'.")])
  else (self,
        call ++ [Log ("CameraWorker: Unknown filter key '" +:+ filter_key
                      +:+ "'. Filter not changed.")]).

(** What the process and the devices answer during one call of
    [run]: the module flags, and whether the capture opens. *)
Record Env : Type := mkEnv {
  CV2_AVAILABLE : bool;
  NUMPY_AVAILABLE : bool;
  open_succeeds : bool
}.

(** One turn of the capture loop: what [cap.read()] returns, whether
    the OpenCV filter call goes through, and whether [stop] is run on
    the worker by the other side before the loop condition is tested
    again. *)
Record Iteration : Type := mkIteration {
  read_ret : bool;
  read_frame : Frame;
  filter_ok : bool;
  stop_requested : bool
}.

(** [_apply_filter_to_frame] (lines 790-823).  A filter that raises
    inside OpenCV leaves the frame as it was. *)
Definition _apply_filter_to_frame (env : Env) (self : obj) (it : Iteration)
    (frame : Frame) : obj * Frame :=
  if negb (NUMPY_AVAILABLE env) || negb (CV2_AVAILABLE env)
  then (if _filter_warning_logged self then self
        else set_filter_warning_logged self, frame)
  else
    match current_filter_key self ≫= (fun k => RAW_CAMERA_FILTERS !! k) with
    | Some (Some filter_name) =>
        if filter_ok it
        then (self, {| frame_raw := frame_raw frame;
                       frame_filters := frame_filters frame ++ [filter_name] |})
        else (self, frame)
    | _ => (self, frame)
    end.

(** Truth value of [self.current_filter_key and
    self.current_filter_key != "None"]. *)
Definition filter_selected (self : obj) : bool :=
  match current_filter_key self with
  | Some k => negb (bool_decide (k = "")) && negb (bool_decide (k = "None"))
  | None => false
  end.

(** The [while self._is_running] loop (lines 849-863) over the turns
    given.  The boolean tells whether the loop was left; it is
    [false] when the turns run out while the worker keeps running. *)
Fixpoint capture_loop (env : Env) (self : obj) (turns : list Iteration)
  : list effect * obj * bool :=
  if negb (_is_running self) then ([], self, true)
  else
    match turns with
    | [] => ([], self, false)
    | it :: rest =>
        if negb (read_ret it)
        then ([Cv read; Log "CameraWorker: Failed to grab frame or stream ended."],
              set_base self (Worker.set_is_running (base self) false), true)
        else
          let '(self1, frame) :=
            if filter_selected self
            then _apply_filter_to_frame env self it (read_frame it)
            else (self, read_frame it) in
          let self2 := if stop_requested it then fst (stop self1) else self1 in
          let '(tr, self3, exited) := capture_loop env self2 rest in
          ([Cv read; Emit (frame_ready frame); msleep 30] ++ tr, self3, exited)
    end.

Inductive status : Type :=
| Returned
| Looping.

(** [run] (lines 825-870). *)
Definition run (env : Env) (self : obj) (turns : list Iteration)
  : list effect * obj * status :=
  let call := Worker.log_internal_worker_call (base self) "run (thread started)" in
  if negb (CV2_AVAILABLE env)
  then (call ++ [Emit (error (worker_name self)
                         "OpenCV (cv2) is not available. Camera cannot operate.");
                 Emit finished],
        self, Returned)
  else
    let self1 :=
      set_cap self (Some {| cap_index := camera_index self;
                            cap_isOpened := open_succeeds env |}) in
    let opening := call ++ [Log "CameraWorker attempting to open camera";
                            Cv (VideoCapture (camera_index self)); Cv isOpened] in
    if negb (open_succeeds env)
    then
      let err_msg := "Cannot open camera at index " +:+ pretty (camera_index self) +:+ "." in
      (opening ++ [Log err_msg; Emit (error (worker_name self) err_msg);
                   Emit finished],
       self1, Returned)
    else
      let self2 := set_base self1 (Worker.set_is_running (base self1) true) in
      let started :=
        opening ++ [Cv (set_prop "CAP_PROP_FRAME_WIDTH" (fst (resolution self)));
                    Cv (set_prop "CAP_PROP_FRAME_HEIGHT" (snd (resolution self)));
                    Log "CameraWorker started successfully";
                    Emit (status_update "Camera stream started." 2000)] in
      let '(tr, self3, exited) := capture_loop env self2 turns in
      if exited
      then
        let '(closing, self4) :=
          match cap self3 with
          | Some _ => ([Cv release], set_cap self3 None)
          | None => ([], self3)
          end in
        (started ++ tr ++ closing
         ++ [Log "CameraWorker run loop finished and camera released.";
             Emit (status_update "Camera stream stopped." 2000);
             Emit finished],
         self4, Returned)
      else (started ++ tr, self3, Looping).

Definition is_release (e : effect) : bool :=
  match e with Cv release => true | _ => false end.

Definition is_finished (e : effect) : bool :=
  match e with Emit finished => true | _ => false end.

Definition is_frame_ready (s : signal) : bool :=
  match s with frame_ready _ => true | _ => false end.

Definition is_error (s : signal) : bool :=
  match s with error _ _ => true | _ => false end.

(** An effect that is neither [release] nor [finished]. *)
Definition quiet (e : effect) : Prop :=
  is_finished e = false /\ is_release e = false.

(** The worker holds no capture that reported itself opened. *)
Definition no_open_capture (self : obj) : Prop :=
  match cap self with
  | Some c => cap_isOpened c = false
  | None => True
  end.

End CameraWorker.

(** ** The main window: worker set-up and shut-down *)

Module MainWindow.

Import Resolver.

(** The internal worker classes of the file. *)
Definition class_CameraWorker : PyClass :=
  {| cls_name := "CameraWorker"; cls_module := "__main__" |}.
Definition class_ImageSaveWorker : PyClass :=
  {| cls_name := "ImageSaveWorker"; cls_module := "__main__" |}.

(** The shape of a constructor call: how many positional arguments
    and which keyword arguments. *)
Record Call : Type := mkCall {
  n_positional : nat;
  keywords : list string
}.

(** A worker object as the supervisor sees it: its class, the
    attributes [hasattr] finds, and what [moveToThread] and
    [connect] on one of its signals do ([None]: no exception). *)
Record Instance : Type := mkInstance {
  inst_class : PyClass;
  inst_attrs : list string;
  inst_moveToThread : option exn;
  inst_connect : string -> option exn
}.

Definition hasattr (inst : Instance) (name : string) : bool :=
  bool_decide (name ∈ inst_attrs inst).

(** What set-up meets outside this file: the outcome of calling a
    class with arguments of a given shape, and of reading the
    speech-to-text settings out of the configuration. *)
Record Env : Type := mkEnv {
  construct : PyClass -> Call -> result Instance;
  stt_settings : result unit
}.

(** How steps 1 to 7 of the initialisation end (configuration,
    logging, settings, icons, theme, user interface): they raise
    before [self.settings] is assigned; raise after, before
    [_init_ui] has assigned any of the placeholders modelled; raise
    inside [_init_ui], which has by then assigned the appearance
    widget (line 1696) and the two sliders (lines 1841, 1858) or
    not; or complete and leave the appearance widget built by
    [_init_ui], if any, and both sliders. *)
Inductive early_outcome : Type :=
| EarlyRaisesBeforeSettings (e : exn)
| EarlyRaisesAfterSettings (e : exn)
| EarlyRaisesInUi (e : exn) (widget : option Instance) (rate_slider volume_slider : bool)
| EarlyOk (widget : option Instance).

Record QThread : Type := mkQThread {
  objectName : string;
  running : bool;
  quit_on_finished : bool;
  run_on_started : bool
}.

(** A value of the [workers] dictionary:
    [{"worker": ..., "thread": ...}]. *)
Record Handle : Type := mkHandle {
  worker : option Instance;
  thread : option QThread
}.

Definition null_handle : Handle := {| worker := None; thread := None |}.

(** A dictionary with string keys, in insertion order.  Assigning to
    a key already present keeps its position. *)
Fixpoint dict_set {V} (k : string) (v : V) (d : list (string * V))
  : list (string * V) :=
  match d with
  | [] => [(k, v)]
  | (k', v') :: rest =>
      if bool_decide (k = k') then (k, v) :: rest
      else (k', v') :: dict_set k v rest
  end.

Fixpoint dict_get {V} (k : string) (d : list (string * V)) : option V :=
  match d with
  | [] => None
  | (k', v') :: rest => if bool_decide (k = k') then Some v' else dict_get k rest
  end.

Record obj : Type := mk {
  workers : list (string * Handle);
  command_connections : list (string * string);
  settings : bool;
  robot_appearance_widget_instance : option Instance;
  initial_calls_scheduled : bool;
  init_error_shown : bool;
  rate_slider : bool;
  volume_slider : bool
}.

(** The attributes set by [__init__] (lines 1209-1272).  The two
    slider attributes tell whether the placeholder holds a [QSlider];
    [__init__] assigns [None] to both (lines 1261, 1263). *)
Definition __init__ : obj :=
  {| workers := [];
     command_connections := [];
     settings := false;
     robot_appearance_widget_instance := None;
     initial_calls_scheduled := false;
     init_error_shown := false;
     rate_slider := false;
     volume_slider := false |}.

(** The functions defined in the body of [class MainWindow], at the
    indentation of the class body. *)
Definition methods : list string :=
  [ "__init__"; "_perform_full_initialization"; "_load_config"; "_setup_logging";
    "_load_app_icons"; "_init_ui"; "_create_menu_bar"; "_create_chat_interface";
    "_create_robot_interface"; "_create_camera_interface"; "_create_control_panel";
    "_handle_theme_action_triggered"; "_handle_theme_combo_change_slot";
    "_apply_theme"; "_update_theme_menu_and_combo_selection"; "_update_chat_colors";
    "_update_chat_display_style"; "zoom_in_chat"; "zoom_out_chat"; "reset_chat_zoom";
    "_apply_chat_font_size"; "add_chat_message"; "_update_all_button_states";
    "_update_camera_button_text"; "_update_voice_output_button_text";
    "_update_voice_input_button_text"; "show_about_dialog_slot";
    "open_settings_dialog_slot"; "handle_settings_changed";
    "show_user_guide_dialog_slot"; "show_module_status_slot"; "_get_module_statuses";
    "_update_module_status_icon"; "save_chat_history_as_slot";
    "load_chat_history_slot"; "_initial_worker_calls_and_notifications";
    "_request_tts_voices"; "check_module_import_status_and_notify";
    "send_input_slot"; "_handle_slash_command"; "clear_chat_slot";
    "toggle_camera_slot"; "_handle_filter_combo_change_slot"; "capture_image_slot";
    "toggle_voice_output_slot"; "toggle_voice_input_slot"; "interrupt_tts_slot";
    "change_tts_voice_selection_slot"; "change_tts_rate_slot";
    "change_tts_volume_slot"; "handle_nlp_result"; "handle_emotion_update";
    "handle_speech_started"; "handle_speech_word_boundary"; "handle_speech_finished";
    "handle_available_voices"; "handle_recognized_voice";
    "handle_voice_listener_started_ui"; "handle_voice_listener_stopped_ui";
    "handle_vad_status_changed"; "handle_listening_error"; "update_camera_feed";
    "handle_image_saved"; "handle_worker_error"; "update_status"; "closeEvent" ].

(** The functions defined one level deeper, inside the body of a
    method (lines 2519 and 2524): local names of that method, not
    attributes of the class. *)
Definition nested_functions : list (string * string) :=
  [ ("check_module_import_status_and_notify", "_initial_worker_calls_and_notifications");
    ("check_module_import_status_and_notify", "_setup_workers_and_threads") ].

(** [self.<name>]: the attribute look-up on the window. *)
Definition getattr_method (name : string) : result unit :=
  if bool_decide (name ∈ methods) then Ok tt else Raise AttributeError.

(** ["Dummy" in WorkerClass.__name__] *)
Definition is_dummy_class (cls : PyClass) : bool :=
  match String.index 0 "Dummy" (cls_name cls) with
  | Some _ => true
  | None => false
  end.

Definition on_TypeError {A} (alt : result A) (e : exn) : option (result A) :=
  if is_TypeError e then Some alt else None.

(** [for i in range(n, 0, -1)]: call the class with the first [i]
    arguments until one call does not raise [TypeError]
    (lines 2584-2592). *)
Fixpoint instantiate_by_arity (env : Env) (cls : PyClass) (i : nat)
  : result (option Instance) :=
  match i with
  | O => Ok None
  | S j =>
      rtry (let! inst := construct env cls (mkCall (S j) []) in Ok (Some inst))
           (on_TypeError (instantiate_by_arity env cls j))
  end.

(** The instantiation branches of the set-up loop (lines 2550-2639). *)
Definition instantiate (env : Env) (classes : Classes) (worker_name : string)
    (WorkerClass : PyClass) : result (option Instance) :=
  if bool_decide (worker_name = "emotion") then
    if is_dummy_class WorkerClass
    then let! inst := construct env WorkerClass (mkCall 0 ["parent"]) in Ok (Some inst)
    else let! inst := rtry (construct env WorkerClass (mkCall 0 ["parent"]))
                           (on_TypeError (construct env WorkerClass (mkCall 0 []))) in
         Ok (Some inst)
  else if bool_decide (worker_name = "tts") then
    let! inst := construct env WorkerClass (mkCall 0 []) in Ok (Some inst)
  else if bool_decide (worker_name = "voice_listener") then
    if is_dummy_class WorkerClass
    then do! stt_settings env in
         let! inst := construct env WorkerClass
                        (mkCall 0 ["parent"; "language"; "mic_idx"; "energy";
                                   "pause"; "phrase_limit"]) in
         Ok (Some inst)
    else do! stt_settings env in
         let! found := instantiate_by_arity env WorkerClass 6 in
         match found with
         | Some inst => Ok (Some inst)
         | None =>
             let! inst := construct env WorkerClass (mkCall 0 []) in Ok (Some inst)
         end
  else if bool_decide (worker_name = "nlp") then
    if is_dummy_class WorkerClass
    then let! inst := construct env WorkerClass (mkCall 0 ["dependencies"; "parent"]) in
         Ok (Some inst)
    else
      let! grammar_system_instance :=
        rtry (construct env (GrammarSystem_for_deps classes) (mkCall 0 ["language_code"]))
             (fun _ => Some (construct env GrammarSystem_Dummy (mkCall 0 ["language_code"]))) in
      let! multi_lang_corrector :=
        construct env (MultiLangCorrector_for_deps classes) (mkCall 0 ["config"]) in
      let! inst := rtry (construct env WorkerClass (mkCall 1 []))
                        (on_TypeError (construct env WorkerClass (mkCall 1 ["parent"]))) in
      Ok (Some inst)
  else if bool_decide (worker_name = "camera") then
    let! inst := construct env WorkerClass (mkCall 1 ["parent"]) in Ok (Some inst)
  else if bool_decide (worker_name = "image_save") then
    let! inst := construct env WorkerClass (mkCall 0 ["parent"]) in Ok (Some inst)
  else
    let! inst := construct env WorkerClass (mkCall 0 ["parent"]) in Ok (Some inst).

(** [original_setups_data] (lines 2650-2657): the signals of each
    worker and the window slot each is connected to. *)
Definition original_setups_data : list (string * list (string * string)) :=
  [ ("emotion", [("emotion_detected", "handle_emotion_update");
                 ("error", "handle_worker_error")]);
    ("tts", [("speech_started", "handle_speech_started");
             ("speech_word_boundary", "handle_speech_word_boundary");
             ("speech_finished", "handle_speech_finished");
             ("available_voices_signal", "handle_available_voices");
             ("error", "handle_worker_error")]);
    ("voice_listener", [("text_recognized", "handle_recognized_voice");
                        ("listening_started_signal", "handle_voice_listener_started_ui");
                        ("listening_stopped_signal", "handle_voice_listener_stopped_ui");
                        ("vad_status_changed", "handle_vad_status_changed");
                        ("listening_error", "handle_listening_error");
                        ("error", "handle_worker_error")]);
    ("nlp", [("processing_complete", "handle_nlp_result");
             ("error", "handle_worker_error")]);
    ("camera", [("frame_ready", "update_camera_feed");
                ("error", "handle_worker_error")]);
    ("image_save", [("image_saved", "handle_image_saved");
                    ("error", "handle_worker_error")]) ].

Definition raise_if (o : option exn) : result unit :=
  match o with
  | Some e => Raise e
  | None => Ok tt
  end.

(** The [for signal_name, slot_method in ...] loop (lines 2660-2665). *)
Fixpoint connect_signals (inst : Instance) (signals : list (string * string))
  : result unit :=
  match signals with
  | [] => Ok tt
  | (signal_name, slot_name) :: rest =>
      do! (if hasattr inst signal_name && bool_decide (slot_name ∈ methods)
           then raise_if (inst_connect inst signal_name)
           else Ok tt) in
      connect_signals inst rest
  end.

(** The body of the [try] of the set-up loop (lines 2550-2674) for
    one worker: the handle recorded in [workers] when nothing raises. *)
Definition setup_body (env : Env) (classes : Classes) (worker_name : string)
    (WorkerClass : PyClass) : result Handle :=
  let! worker_instance := instantiate env classes worker_name WorkerClass in
  match worker_instance with
  | None => Raise ValueError
  | Some inst =>
      do! raise_if (inst_moveToThread inst) in
      do! (if hasattr inst "finished" then raise_if (inst_connect inst "finished")
           else Ok tt) in
      do! connect_signals inst (default [] (dict_get worker_name original_setups_data)) in
      Ok {| worker := Some inst;
            thread := Some {| objectName := worker_name +:+ "Thread";
                              running := negb (bool_decide (worker_name ∈ ["camera"]));
                              quit_on_finished := hasattr inst "finished";
                              run_on_started :=
                                bool_decide (worker_name = "camera") && hasattr inst "run" |} |}
  end.

(** [worker_setups] (lines 2535-2542). *)
Definition worker_setups (classes : Classes) : list (string * PyClass) :=
  [ ("emotion", EmotionWorker_cls classes);
    ("tts", TTSWorker_cls classes);
    ("voice_listener", VoiceListenerWorker_cls classes);
    ("nlp", NLPWorker_cls classes);
    ("camera", class_CameraWorker);
    ("image_save", class_ImageSaveWorker) ].

(** The [for setup in worker_setups] loop with its [try]/[except]
    (lines 2544-2681).  The refresh of the status icon in the handler
    is not modelled. *)
Fixpoint setup_loop (env : Env) (classes : Classes)
    (setups : list (string * PyClass)) (workers : list (string * Handle))
  : M (list (string * Handle)) :=
  match setups with
  | [] => ret workers
  | (worker_name, WorkerClass) :: rest =>
      workers' <-
        match setup_body env classes worker_name WorkerClass with
        | Ok h => ret (dict_set worker_name h workers)
        | Raise _ =>
            append_missing_unless_listed worker_name
              (worker_name +:+ " (setup_failed)") ;;;
            ret (dict_set worker_name null_handle workers)
        end ;;
      setup_loop env classes rest workers'
  end.

(** The connections from the window's signals to worker slots
    (lines 2684-2691). *)
Definition command_table : list (string * string * string) :=
  [ ("nlp", "start_nlp_processing", "process_user_input");
    ("emotion", "request_emotion_analysis", "analyze_text_emotion");
    ("tts", "stop_tts_signal", "stop_speaking");
    ("camera", "request_camera_filter_change", "set_filter") ].

(** The four [if ...: signal.connect(worker.slot)] statements.  A
    connection is made when the worker is there and has the slot;
    [connect] on a signal of the window with a bound method that
    [hasattr] found is taken to succeed. *)
Definition connect_commands (workers : list (string * Handle))
  : list (string * string) :=
  omap (fun '(name, sig, slot) =>
          match dict_get name workers ≫= worker with
          | Some inst => if hasattr inst slot then Some (sig, slot) else None
          | None => None
          end) command_table.

(** The function [_setup_workers_and_threads] (lines 2524-2693). *)
Definition _setup_workers_and_threads (env : Env) (classes : Classes) (self : obj)
  : M obj :=
  workers <- setup_loop env classes (worker_setups classes) [] ;;
  ret {| workers := workers;
         command_connections := connect_commands workers;
         settings := settings self;
         robot_appearance_widget_instance := robot_appearance_widget_instance self;
         initial_calls_scheduled := initial_calls_scheduled self;
         init_error_shown := init_error_shown self;
         rate_slider := rate_slider self;
         volume_slider := volume_slider self |}.

Definition with_settings (self : obj) (widget : option Instance) : obj :=
  {| workers := workers self;
     command_connections := command_connections self;
     settings := true;
     robot_appearance_widget_instance := widget;
     initial_calls_scheduled := initial_calls_scheduled self;
     init_error_shown := init_error_shown self;
     rate_slider := rate_slider self;
     volume_slider := volume_slider self |}.

Definition show_init_error (self : obj) : obj :=
  {| workers := workers self;
     command_connections := command_connections self;
     settings := settings self;
     robot_appearance_widget_instance := robot_appearance_widget_instance self;
     initial_calls_scheduled := initial_calls_scheduled self;
     init_error_shown := true;
     rate_slider := rate_slider self;
     volume_slider := volume_slider self |}.

Definition schedule_initial_calls (self : obj) : obj :=
  {| workers := workers self;
     command_connections := command_connections self;
     settings := settings self;
     robot_appearance_widget_instance := robot_appearance_widget_instance self;
     initial_calls_scheduled := true;
     init_error_shown := init_error_shown self;
     rate_slider := rate_slider self;
     volume_slider := volume_slider self |}.

(** The sliders assigned by [_create_control_panel] (lines 1841,
    1858). *)
Definition with_sliders (self : obj) (rate volume : bool) : obj :=
  {| workers := workers self;
     command_connections := command_connections self;
     settings := settings self;
     robot_appearance_widget_instance := robot_appearance_widget_instance self;
     initial_calls_scheduled := initial_calls_scheduled self;
     init_error_shown := init_error_shown self;
     rate_slider := rate;
     volume_slider := volume |}.

(** [_perform_full_initialization] (lines 1274-1350).  Step 8 looks
    the set-up method up on the window and calls it; step 9 schedules
    the initial worker calls; the [except Exception] handler shows
    the error box and returns. *)
Definition _perform_full_initialization (early : early_outcome) (env : Env)
    (classes : Classes) (self : obj) : M obj :=
  match early with
  | EarlyRaisesBeforeSettings _ => ret (show_init_error self)
  | EarlyRaisesAfterSettings _ =>
      ret (show_init_error (with_settings self (robot_appearance_widget_instance self)))
  | EarlyRaisesInUi _ widget rate volume =>
      ret (show_init_error (with_sliders (with_settings self widget) rate volume))
  | EarlyOk widget =>
      let self1 := with_sliders (with_settings self widget) true true in
      try_except
        (lift (getattr_method "_setup_workers_and_threads") ;;;
         self2 <- _setup_workers_and_threads env classes self1 ;;
         ret (schedule_initial_calls self2))
        (fun _ => Some (ret (show_init_error self1)))
  end.

(** What the threads answer when the window closes: whether
    [isRunning()] holds, and whether [wait(ms)] sees the thread
    finish within [ms] milliseconds. *)
Record ThreadEnv : Type := mkThreadEnv {
  isRunning : string -> bool;
  wait : string -> Z -> bool
}.

(** The calls [closeEvent] makes, in order. *)
Inductive close_action : Type :=
| call_stop_appearance_updates
| invokeMethod (worker_name method : string)
| thread_quit (thread_name : string)
| thread_wait (thread_name : string) (ms : Z)
| thread_terminate (thread_name : string)
| save_settings
| event_accept.

(** The request sent to one worker (lines 3227-3238). *)
Definition request_stop (worker_name : string) (h : Handle) : list close_action :=
  match worker h with
  | Some inst =>
      if hasattr inst "shutdown" then [invokeMethod worker_name "shutdown"]
      else if hasattr inst "stop" then [invokeMethod worker_name "stop"]
      else []
  | None => []
  end.

(** Quit, wait, terminate, wait (lines 3240-3253). *)
Definition stop_thread (tenv : ThreadEnv) (h : Handle) : list close_action :=
  match thread h with
  | Some t =>
      let n := objectName t in
      if isRunning tenv n
      then
        if negb (wait tenv n 2500)
        then [thread_quit n; thread_wait n 2500; thread_terminate n; thread_wait n 1000]
        else [thread_quit n; thread_wait n 2500]
      else []
  | None => []
  end.

(** The [for worker_name, worker_data in self.workers.items()] loop. *)
Fixpoint stop_workers (tenv : ThreadEnv) (workers : list (string * Handle))
  : list close_action :=
  match workers with
  | [] => []
  | (worker_name, worker_data) :: rest =>
      request_stop worker_name worker_data ++ stop_thread tenv worker_data
      ++ stop_workers tenv rest
  end.

(** The settings block (lines 3256-3276).  The [setValue] calls on
    [QSettings] are not listed; [save_settings] stands for the
    [sync] that ends the block.  [hasattr(self, 'rate_slider')] and
    [hasattr(self, 'volume_slider')] hold of every window, since
    [__init__] assigns both attributes, so [.value()] is called on
    them (lines 3269, 3270) and raises [AttributeError] on a
    placeholder that is still [None]. *)
Definition save_settings_block (self : obj) : list close_action * result unit :=
  if settings self
  then
    if negb (rate_slider self) then ([], Raise AttributeError)
    else if negb (volume_slider self) then ([], Raise AttributeError)
    else ([save_settings], Ok tt)
  else ([], Ok tt).

(** [closeEvent] (lines 3207-3279): the calls made, in order, and
    how the method ends.  An exception of
    [stop_appearance_updates] is caught (line 3218). *)
Definition closeEvent (tenv : ThreadEnv) (self : obj)
  : list close_action * result unit :=
  let stopping :=
    (match robot_appearance_widget_instance self with
     | Some w => if hasattr w "stop_appearance_updates"
                 then [call_stop_appearance_updates] else []
     | None => []
     end)
    ++ stop_workers tenv (workers self) in
  match save_settings_block self with
  | (saved, Ok _) => (stopping ++ saved ++ [event_accept], Ok tt)
  | (saved, Raise e) => (stopping ++ saved, Raise e)
  end.

(** The thread a call is made on. *)
Definition thread_of (a : close_action) : option string :=
  match a with
  | thread_quit n | thread_wait n _ | thread_terminate n => Some n
  | _ => None
  end.

(** [thread and thread.isRunning()] (line 3240). *)
Definition thread_running (tenv : ThreadEnv) (h : Handle) : bool :=
  match thread h with
  | Some t => isRunning tenv (objectName t)
  | None => false
  end.

(** The thread is running and does not finish within the first
    wait. *)
Definition times_out (tenv : ThreadEnv) (h : Handle) : bool :=
  match thread h with
  | Some t => isRunning tenv (objectName t) && negb (wait tenv (objectName t) 2500)
  | None => false
  end.

Definition is_wait (ms : Z) (a : close_action) : bool :=
  match a with
  | thread_wait _ ms' => bool_decide (ms = ms')
  | _ => false
  end.

Definition is_terminate (a : close_action) : bool :=
  match a with
  | thread_terminate _ => true
  | _ => false
  end.

(** The time the window may spend blocked in the waits of a run, in
    milliseconds. *)
Definition wait_budget (acts : list close_action) : Z :=
  foldr (fun a acc => match a with thread_wait _ ms => ms + acc | _ => acc end) 0 acts.

Fixpoint count_if {A} (p : A -> bool) (l : list A) : Z :=
  match l with
  | [] => 0
  | a :: rest => (if p a then 1 else 0) + count_if p rest
  end.

(** What the set-up loop records for a worker, given how the body of
    its [try] ends. *)
Definition handle_of (r : result Handle) : Handle :=
  match r with
  | Ok h => h
  | Raise _ => null_handle
  end.

Definition worker_names : list string :=
  ["emotion"; "tts"; "voice_listener"; "nlp"; "camera"; "image_save"].

(** The thread recorded for a worker is running. *)
Definition started_after_setup (workers : list (string * Handle)) (name : string)
  : Prop :=
  exists h t, dict_get name workers = Some h /\ thread h = Some t /\ running t = true.

End MainWindow.

(** ** Sample environments *)

Module Samples.

Import Resolver.

(** A module that loads with one of two requested members. *)
Definition partial_importer : Importer :=
  fun _ => Loaded {[ "TTSWorker" := mkClass "TTSWorker" "voice_output_v2" ]}.

(** A start-up where only the speech module is installed, and lacks
    nothing. *)
Definition tts_only_importer : Importer :=
  fun m => if bool_decide (m = "voice_output_v2")
           then Loaded {[ "TTSWorker" := mkClass "TTSWorker" "voice_output_v2" ]}
           else ImportFails ModuleNotFoundError.

(** No external module is installed. *)
Definition bare_importer : Importer :=
  fun _ => ImportFails ModuleNotFoundError.

(** OpenCV is installed but the camera does not open. *)
Definition camera_absent : CameraWorker.Env :=
  {| CameraWorker.CV2_AVAILABLE := true;
     CameraWorker.NUMPY_AVAILABLE := true;
     CameraWorker.open_succeeds := false |}.

(** OpenCV is installed and the camera opens. *)
Definition camera_present : CameraWorker.Env :=
  {| CameraWorker.CV2_AVAILABLE := true;
     CameraWorker.NUMPY_AVAILABLE := true;
     CameraWorker.open_succeeds := true |}.

Definition default_camera_config : CameraWorker.Config :=
  {| CameraWorker.cfg_camera_index := None;
     CameraWorker.cfg_camera_resolution := None |}.

(** Two frames are grabbed; [stop] arrives during the second turn. *)
Definition two_frames_then_stop : list CameraWorker.Iteration :=
  [ CameraWorker.mkIteration true (mkFrame 0 []) true false;
    CameraWorker.mkIteration true (mkFrame 1 []) true true ].

(** The classes bound when no external module is installed. *)
Definition dummy_classes : Classes :=
  {| EmotionWorker_cls := EmotionWorker_Dummy;
     RobotAppearanceWidget_cls := RobotAppearanceWidget_Dummy;
     TTSWorker_cls := TTSWorker_Dummy;
     VoiceListenerWorker_cls := VoiceListenerWorker_Dummy;
     NLPWorker_cls := NLPWorker_Dummy;
     RobotInfoModule_for_deps := RobotInfoModule_Dummy;
     GrammarSystem_for_deps := GrammarSystem_Dummy;
     MultiLangCorrector_for_deps := MultiLangCorrectionModule_Dummy |}.

Definition qobject_worker (cls : PyClass) : MainWindow.Instance :=
  {| MainWindow.inst_class := cls;
     MainWindow.inst_attrs :=
       ["finished"; "error"; "status_update"; "shutdown"; "stop"; "run";
        "frame_ready"; "set_filter"];
     MainWindow.inst_moveToThread := None;
     MainWindow.inst_connect := fun _ => None |}.

(** Every constructor succeeds except that of the emotion worker. *)
Definition emotion_broken : MainWindow.Env :=
  {| MainWindow.construct := fun cls _ =>
       if bool_decide (cls = EmotionWorker_Dummy) then Raise RuntimeError
       else Ok (qobject_worker cls);
     MainWindow.stt_settings := Ok tt |}.

(** Every thread is running and finishes within the first wait. *)
Definition graceful_threads : MainWindow.ThreadEnv :=
  {| MainWindow.isRunning := fun _ => true;
     MainWindow.wait := fun _ _ => true |}.

(** A class whose constructor takes exactly two positional
    arguments. *)
Definition two_argument_env : MainWindow.Env :=
  {| MainWindow.construct := fun cls call =>
       if bool_decide (MainWindow.n_positional call = 2%nat)
       then Ok (qobject_worker cls) else Raise TypeError;
     MainWindow.stt_settings := Ok tt |}.

(** An object of the dummy speech class: the signals and slots of
    [TTSWorker_Dummy] and its base class. *)
Definition tts_dummy_worker : MainWindow.Instance :=
  {| MainWindow.inst_class := TTSWorker_Dummy;
     MainWindow.inst_attrs :=
       ["error"; "finished"; "status_update"; "log_dummy_call"; "shutdown"; "stop";
        "speech_started"; "speech_word_boundary"; "speech_finished";
        "available_voices_signal"; "initialize_engine"; "speak"; "stop_speaking";
        "set_voice"; "set_rate"; "set_volume"];
     MainWindow.inst_moveToThread := None;
     MainWindow.inst_connect := fun _ => None |}.

(** A window after a complete start-up whose [workers] holds the
    dummy speech worker and a camera worker, each with its thread. *)
Definition window_with_two_workers : MainWindow.obj :=
  {| MainWindow.workers :=
       [ ("tts", {| MainWindow.worker := Some tts_dummy_worker;
                    MainWindow.thread :=
                      Some {| MainWindow.objectName := "ttsThread";
                              MainWindow.running := true;
                              MainWindow.quit_on_finished := true;
                              MainWindow.run_on_started := false |} |});
         ("camera", {| MainWindow.worker := Some (qobject_worker MainWindow.class_CameraWorker);
                       MainWindow.thread :=
                         Some {| MainWindow.objectName := "cameraThread";
                                 MainWindow.running := true;
                                 MainWindow.quit_on_finished := true;
                                 MainWindow.run_on_started := true |} |}) ];
     MainWindow.command_connections := [];
     MainWindow.settings := true;
     MainWindow.robot_appearance_widget_instance := None;
     MainWindow.initial_calls_scheduled := true;
     MainWindow.init_error_shown := false;
     MainWindow.rate_slider := true;
     MainWindow.volume_slider := true |}.


(** Every thread is running and none finishes within a wait. *)
Definition stubborn_threads : MainWindow.ThreadEnv :=
  {| MainWindow.isRunning := fun _ => true;
     MainWindow.wait := fun _ _ => false |}.

End Samples.

(** ** String methods used by the dummy classes and the slots *)

Module PyText.

(** [str.lower] on one character: the capital letters of ASCII and
    of Latin-1 move up by 32; the multiplication sign stays. *)
Definition lower_char (c : Ascii.ascii) : Ascii.ascii :=
  let n := Ascii.N_of_ascii c in
  if ((65 <=? n) && (n <=? 90)
      || (192 <=? n) && (n <=? 222) && negb (n =? 215))%N
  then Ascii.ascii_of_N (n + 32)
  else c.

Fixpoint lower (s : string) : string :=
  match s with
  | EmptyString => EmptyString
  | String c rest => String (lower_char c) (lower rest)
  end.

(** [needle in hay] *)
Definition contains (needle hay : string) : bool :=
  match String.index 0 needle hay with
  | Some _ => true
  | None => false
  end.

Fixpoint lstrip (s : string) : string :=
  match s with
  | EmptyString => EmptyString
  | String c rest => if PyStr.isspace c then lstrip rest else s
  end.

Fixpoint rstrip (s : string) : string :=
  match s with
  | EmptyString => EmptyString
  | String c rest =>
      match rstrip rest with
      | EmptyString => if PyStr.isspace c then EmptyString else String c EmptyString
      | rest' => String c rest'
      end
  end.

(** [s.strip()] *)
Definition strip (s : string) : string := rstrip (lstrip s).

(** [s[:n]] *)
Definition slice_to (n : nat) (s : string) : string := String.substring 0 n s.

(** [s.startswith(p)] *)
Definition startswith (p s : string) : bool := String.prefix p s.

(** [s.split(" ", 1)]: the text before the first space and, when
    there is a space, the text after it. *)
Fixpoint split_space_once (s : string) : string * option string :=
  match s with
  | EmptyString => (EmptyString, None)
  | String c rest =>
      if Ascii.eqb c (Ascii.ascii_of_N 32) then (EmptyString, Some rest)
      else let '(head, tail) := split_space_once rest in (String c head, tail)
  end.

(** [sep.join(l)] *)
Fixpoint join (sep : string) (l : list string) : string :=
  match l with
  | [] => ""
  | [w] => w
  | w :: rest => w +:+ sep +:+ join sep rest
  end.

(** Truth value of a string: non-empty. *)
Definition truthy (s : string) : bool := negb (bool_decide (s = "")).

End PyText.

(** [VoiceListenerWorker_Dummy] (lines 556-611), a [BaseWorkerDummy]. *)
Module VoiceListenerWorker_Dummy.

Record obj : Type := mk {
  base : BaseWorkerDummy.obj;
  _is_listening : bool;
  language : string
}.

(** The signals of the class; a confidence is given in hundredths. *)
Inductive signal : Type :=
| text_recognized (text : string) (confidence : Z)
| listening_started_signal
| listening_stopped_signal
| vad_status_changed (is_speaking : bool).

(** A method emits a signal, arms the single-shot timer of 2500 ms
    whose callback is [_simulate_recognition_if_active], or logs. *)
Inductive effect : Type :=
| Emit (s : signal)
| arm_recognition_timer (ms : Z)
| LogCall (method_name : string).

Definition __init__ (language : string) : obj :=
  {| base := BaseWorkerDummy.__init__ "VoiceListenerWorkerDummy";
     _is_listening := false;
     language := language |}.

Definition set_listening (self : obj) (b : bool) : obj :=
  {| base := base self; _is_listening := b; language := language self |}.

Definition initialize_microphone (self : obj) : obj * list effect :=
  (self, [LogCall "initialize_microphone"]).

Definition start_listening (self : obj) : obj * list effect :=
  if negb (_is_listening self)
  then (set_listening self true,
        [LogCall "start_listening"; Emit listening_started_signal;
         Emit (vad_status_changed true); arm_recognition_timer 2500])
  else (self, [LogCall "start_listening"]).

Definition _simulate_recognition_if_active (self : obj) : obj * list effect :=
  if _is_listening self
  then (self, [Emit (text_recognized "Dummy voice input: This is a test." 85);
               Emit (vad_status_changed false)])
  else (self, []).

Definition stop_listening (self : obj) : obj * list effect :=
  if _is_listening self
  then (set_listening self false,
        [LogCall "stop_listening"; Emit (vad_status_changed false);
         Emit listening_stopped_signal])
  else (self, []).

Definition set_language (self : obj) (lang : string) : obj * list effect :=
  ({| base := base self; _is_listening := _is_listening self; language := lang |},
   [LogCall "set_language"]).

(** What reaches the worker: a slot call, or the expiry of a timer
    armed earlier. *)
Inductive command : Type :=
| do_initialize_microphone
| do_start_listening
| do_stop_listening
| do_set_language (lang : string)
| timer_expires.

Definition step (self : obj) (c : command) : obj * list effect :=
  match c with
  | do_initialize_microphone => initialize_microphone self
  | do_start_listening => start_listening self
  | do_stop_listening => stop_listening self
  | do_set_language lang => set_language self lang
  | timer_expires => _simulate_recognition_if_active self
  end.

Fixpoint run (self : obj) (cs : list command) : obj * list effect :=
  match cs with
  | [] => (self, [])
  | c :: rest =>
      let '(self1, tr1) := step self c in
      let '(self2, tr2) := run self1 rest in
      (self2, tr1 ++ tr2)
  end.

Definition signals_of (tr : list effect) : list signal :=
  omap (fun e => match e with Emit s => Some s | _ => None end) tr.

(** The [listening_started_signal] and [listening_stopped_signal]
    of a signal list, as booleans ([true]: started). *)
Definition sessions (sigs : list signal) : list bool :=
  omap (fun s => match s with
                 | listening_started_signal => Some true
                 | listening_stopped_signal => Some false
                 | _ => None
                 end) sigs.

(** A list of booleans that alternates and starts with [first]. *)
Fixpoint alternates (first : bool) (l : list bool) : Prop :=
  match l with
  | [] => True
  | b :: rest => b = first /\ alternates (negb first) rest
  end.

End VoiceListenerWorker_Dummy.

(** [EmotionWorker_Dummy] (lines 419-441), a [BaseWorkerDummy]. *)
Module EmotionWorker_Dummy.

(** [emotion_detected(name, confidence)], the confidence in
    hundredths. *)
Inductive signal : Type :=
| emotion_detected (emotion_name : string) (confidence : Z).

Definition analyze_text_emotion (text : string) : list signal :=
  if PyText.contains "happy" (PyText.lower text)
     || PyText.contains "great" (PyText.lower text)
  then [emotion_detected "happy" 75]
  else if PyText.contains "sad" (PyText.lower text)
          || PyText.contains "bad" (PyText.lower text)
  then [emotion_detected "sad" 70]
  else [emotion_detected "neutral" 50].

End EmotionWorker_Dummy.

(** [RobotInfoModule_Dummy] (lines 323-361). *)
Module RobotInfoModule_Dummy.

Definition APP_NAME_CONST : string := "UPDOGO Robot".

Definition dev_full_name : string := "Umar Ibrahim (Dummy)".
Definition dev_id : string := "062".
Definition dev_title : string := "Boss".
Definition robot_name : string := APP_NAME_CONST +:+ " (Dummy)".
Definition faq_creator : string := "Created by " +:+ dev_full_name.
Definition faq_name : string := "My name is " +:+ robot_name.

Definition default_answer (query : string) : string :=
  "Dummy RobotInfo: I don't have specific information on '"
  +:+ PyText.strip (PyText.slice_to 30 query) +:+ "...'.".

(** [get_information]: the result is [Optional[str]] in the source. *)
Definition get_information (query : string) : option string :=
  let q_lower := PyText.lower query in
  if PyText.contains (PyText.lower dev_full_name) q_lower
     && PyText.contains dev_id q_lower
     || PyText.contains "boss" q_lower
  then Some ("Greetings, " +:+ dev_title +:+ "! (Dummy Info Response)")
  else if PyText.contains "creator" q_lower then Some faq_creator
  else if PyText.contains "who are you" q_lower || PyText.contains "name" q_lower
  then Some faq_name
  else Some (default_answer query).

End RobotInfoModule_Dummy.

(** [NLPWorker_Dummy] (lines 614-647), a [BaseWorkerDummy]. *)
Module NLPWorker_Dummy.

(** The dictionary carried by [processing_complete].  The two
    entries that are always [None] are left out. *)
Record response : Type := mkResponse {
  type : string;
  text_to_speak : string;
  display_details : list (string * string);
  original_input : string;
  timestamp : string
}.

Definition generic_reply (text : string) : string :=
  "NLP Dummy: I received '" +:+ PyText.strip (PyText.slice_to 50 text)
  +:+ "' and will provide a generic dummy reply.".

(** [process_user_input]; [now] is [datetime.datetime.now().isoformat()].
    The result is the list of [processing_complete] payloads emitted. *)
Definition process_user_input (now : string) (text : string) : list response :=
  let response_text := RobotInfoModule_Dummy.get_information text in
  let fallback :=
    match response_text with
    | None => true
    | Some r => negb (PyText.truthy r)
                || PyText.contains "don't have specific information on" r
    end in
  let final_text := if fallback then generic_reply text
                    else default "" response_text in
  [ {| type := if fallback then "fallback_info" else "info_response";
       text_to_speak := final_text;
       display_details := [("normal", final_text)];
       original_input := text;
       timestamp := now |} ].

End NLPWorker_Dummy.

(** ** The start-up report on the imports *)

Module ImportReport.

Import Resolver.

(** The entry the resolution of a capability leaves in
    [MISSING_MODULES] when the real class is not bound. *)
Definition failure_entry (imp : Importer) (c : Capability) : option string :=
  match imp (cap_module c) with
  | Loaded attrs =>
      match attrs !! cap_item c with
      | Some _ => None
      | None => Some (cap_hint c +:+ " (item missing within module)")
      end
  | ImportFails e =>
      Some (if is_ImportError e then cap_hint c
            else cap_hint c +:+ " (unexpected import error)")
  end.

Definition entry_list (o : option string) : list string :=
  match o with
  | Some e => [e]
  | None => []
  end.

(** The globals once the capabilities of [done] have been resolved,
    starting from the initial globals: one entry per capability that
    fell back, in order, and the flag cleared by any of them. *)
Definition report_state (imp : Importer) (done : list Capability) : Globals :=
  {| MODULE_IMPORTS_OK :=
       forallb (fun c => bool_decide (failure_entry imp c = None)) done;
     MISSING_MODULES := omap (failure_entry imp) done |}.

(** What [check_module_import_status_and_notify] (lines 2493-2513)
    shows on the status bar: the message and its duration. *)
Inductive notice : Type :=
| modules_failed (missing_modules_str : string) (duration : Z)
| some_optional_not_loaded (duration : Z)
| all_loaded (duration : Z).

Definition check_module_import_status_and_notify (g : Globals) : notice :=
  match MISSING_MODULES g with
  | _ :: _ => modules_failed (PyText.join ", " (MISSING_MODULES g)) 15000
  | [] =>
      if negb (MODULE_IMPORTS_OK g) then some_optional_not_loaded 10000
      else all_loaded 5000
  end.

End ImportReport.

(** ** Invariants of the camera worker *)

Module CameraInvariant.

Import CameraWorker.

(** The current filter key is a key of [RAW_CAMERA_FILTERS]. *)
Definition valid_filter_key (self : obj) : Prop :=
  exists k, current_filter_key self = Some k /\ k ∈ dom RAW_CAMERA_FILTERS.

Definition is_read (e : effect) : bool :=
  match e with Cv read => true | _ => false end.

(** The frame was grabbed in one of the turns, by a read that
    succeeded. *)
Definition grabbed_in (turns : list Iteration) (f : Frame) : Prop :=
  exists it, it ∈ turns /\ read_ret it = true
             /\ frame_raw f = frame_raw (read_frame it).

End CameraInvariant.

(** [ImageSaveWorker] (lines 873-953), a [Worker]. *)
Module ImageSaveWorker.

(** What is handed to [save_image]: a [QPixmap], a [QImage], a NumPy
    array with its shape, or an object of another type, with the
    text [type()] prints for it. *)
Inductive frame_object : Type :=
| QPixmap
| QImage
| ndarray (shape : list Z)
| other (type_repr : string).

(** The module flags and the outcome of the calls into Qt, OpenCV and
    Pillow: the value returned, or the exception raised. *)
Record Env : Type := mkEnv {
  PIL_AVAILABLE : bool;
  CV2_AVAILABLE : bool;
  NUMPY_AVAILABLE : bool;
  qt_save : result bool;
  imwrite : result bool;
  fromarray_first : result unit;
  fromarray_again : result unit;
  pil_save : result unit;
  describe : exn -> string
}.

Inductive signal : Type :=
| error (worker_name message : string)
| image_saved (filename : string)
| status_update (message : string) (timeout_ms : Z).

Inductive effect : Type :=
| Emit (s : signal)
| call_qt_save (filename : string)
| call_imwrite (filename : string)
| call_fromarray
| call_pil_save (filename : string).

Definition signals_of (tr : list effect) : list signal :=
  omap (fun e => match e with Emit s => Some s | _ => None end) tr.

Definition is_call (e : effect) : bool :=
  match e with Emit _ => false | _ => true end.

(** [os.path.basename] on a POSIX path: what follows the last
    slash. *)
Fixpoint basename (p : string) : string :=
  match p with
  | EmptyString => EmptyString
  | String c rest =>
      if PyText.contains "/" rest then basename rest
      else if Ascii.eqb c (Ascii.ascii_of_N 47) then rest
      else p
  end.

(** The text of a tuple of integers. *)
Definition tuple_repr (shape : list Z) : string :=
  match shape with
  | [] => "()"
  | [a] => "(" +:+ pretty a +:+ ",)"
  | _ => "(" +:+ PyText.join ", " (map pretty shape) +:+ ")"
  end.

(** The body of the [try] of [save_image]: the calls made and the
    signals emitted so far, and how the body ends: it returns early
    after an error signal ([Ok false]), reaches the signals after
    the branches ([Ok true]), or raises. *)
Definition save_body (env : Env) (worker_name : string) (frame : frame_object)
    (filename : string) : list effect * result bool :=
  match frame with
  | QPixmap | QImage =>
      ([call_qt_save filename],
       match qt_save env with Ok _ => Ok true | Raise e => Raise e end)
  | ndarray shape =>
      if negb (NUMPY_AVAILABLE env)
      then ([Emit (error worker_name
                     "Unsupported frame type for saving: <class 'numpy.ndarray'>.")],
            Ok false)
      else if CV2_AVAILABLE env
      then ([call_imwrite filename],
            match imwrite env with Ok _ => Ok true | Raise e => Raise e end)
      else if PIL_AVAILABLE env
      then
        let converted :=
          match shape with
          | [_; _; 3] =>
              Some (match fromarray_first env with
                    | Ok _ => ([call_fromarray], Ok tt)
                    | Raise _ => ([call_fromarray; call_fromarray],
                                  fromarray_again env)
                    end)
          | [_; _] => Some ([call_fromarray], fromarray_first env)
          | _ => None
          end in
        match converted with
        | None =>
            ([Emit (error worker_name
                      ("Unsupported NumPy array format for Pillow: dimensions "
                       +:+ pretty (Z.of_nat (length shape)) +:+ ", shape "
                       +:+ tuple_repr shape))],
             Ok false)
        | Some (calls, Raise e) => (calls, Raise e)
        | Some (calls, Ok _) =>
            (calls ++ [call_pil_save filename],
             match pil_save env with Ok _ => Ok true | Raise e => Raise e end)
        end
      else ([Emit (error worker_name "No library available to save NumPy array.")],
            Ok false)
  | other type_repr =>
      ([Emit (error worker_name
                ("Unsupported frame type for saving: " +:+ type_repr +:+ "."))],
       Ok false)
  end.

(** [save_image] (lines 885-953). *)
Definition save_image (env : Env) (self : Worker.obj) (frame : frame_object)
    (filename : string) : list effect :=
  if negb (PIL_AVAILABLE env) && negb (CV2_AVAILABLE env)
  then [Emit (error (Worker.worker_name self)
                "Neither Pillow (PIL) nor OpenCV is available for saving images.")]
  else
    let '(tr, outcome) := save_body env (Worker.worker_name self) frame filename in
    match outcome with
    | Ok true =>
        tr ++ [Emit (image_saved filename);
               Emit (status_update ("Saved: " +:+ basename filename) 3000)]
    | Ok false => tr
    | Raise e =>
        tr ++ [Emit (error (Worker.worker_name self)
                       ("Error saving image to '" +:+ filename +:+ "': "
                        +:+ describe env e))]
    end.

Definition __init__ : Worker.obj := Worker.__init__ "ImageSaveWorker".

End ImageSaveWorker.

(** ** The slots of the main window that drive the workers *)

Module Slots.

Import Resolver MainWindow.

(** The attributes of the window the slots read and write. *)
Record ui : Type := mkUi {
  camera_on : bool;
  voice_input_on : bool;
  voice_output_enabled : bool;
  current_camera_filter_key : string
}.

(** What a slot does besides changing these attributes.
    [QCoreApplication.translate] is taken to return its source
    text. *)
Inductive action : Type :=
| add_chat_message (sender : string) (message_parts : list (string * string))
| update_status (message : string) (duration : Z)
| emit_start_nlp_processing (text : string)
| emit_request_emotion_analysis (text : string)
| invoke (worker_name method : string) (argument : option string)
| call_set_filter (filter_key : string)
| thread_start (thread_name : string)
| set_camera_label (text : string)
| set_capture_enabled (enabled : bool)
| apply_theme (theme_name : string)
| clear_chat
| clear_input.

Definition set_camera_on (u : ui) (b : bool) : ui :=
  {| camera_on := b; voice_input_on := voice_input_on u;
     voice_output_enabled := voice_output_enabled u;
     current_camera_filter_key := current_camera_filter_key u |}.

Definition set_voice_input_on (u : ui) (b : bool) : ui :=
  {| camera_on := camera_on u; voice_input_on := b;
     voice_output_enabled := voice_output_enabled u;
     current_camera_filter_key := current_camera_filter_key u |}.

(** [handle_worker_error] (lines 3183-3198). *)
Definition handle_worker_error (u : ui) (worker_name error_message : string)
  : ui * list action :=
  let shown :=
    [ add_chat_message "System"
        [("error", "Error in " +:+ worker_name +:+ ": " +:+ error_message)];
      update_status ("Error in " +:+ worker_name +:+ ": "
                     +:+ PyText.slice_to 60 error_message +:+ "...") 7000 ] in
  if bool_decide (PyText.lower worker_name = "camera")
  then (set_camera_on u false,
        shown ++ [set_camera_label "(Camera Error - See Log)"])
  else if PyText.contains "listener" (PyText.lower worker_name)
  then (set_voice_input_on u false, shown)
  else (u, shown).

(** [toggle_camera_slot] (lines 2774-2810). *)
Definition toggle_camera_slot (tenv : ThreadEnv) (workers : list (string * Handle))
    (u : ui) (checked : bool) : ui * list action :=
  let u1 := set_camera_on u checked in
  let '(u2, acts) :=
    match dict_get "camera" workers with
    | Some {| worker := Some _; thread := Some cam_thread |} =>
        if camera_on u1
        then (u1,
              if negb (isRunning tenv (objectName cam_thread))
              then [call_set_filter (current_camera_filter_key u1);
                    thread_start (objectName cam_thread)]
              else [])
        else (u1,
              (if isRunning tenv (objectName cam_thread)
               then [invoke "camera" "stop" None] else [])
              ++ [set_camera_label "(Camera is Off)"])
    | _ => (set_camera_on u1 false, [])
    end in
  (u2, acts ++ [set_capture_enabled (camera_on u2)]).

(** [toggle_voice_input_slot] (lines 2871-2885). *)
Definition toggle_voice_input_slot (workers : list (string * Handle))
    (u : ui) (checked : bool) : ui * list action :=
  let u1 := set_voice_input_on u checked in
  match dict_get "voice_listener" workers ≫= worker with
  | Some _ =>
      (u1, [invoke "voice_listener"
              (if voice_input_on u1 then "start_listening" else "stop_listening")
              None])
  | None => (set_voice_input_on u1 false, [])
  end.

(** [clear_chat_slot] (lines 2766-2771). *)
Definition clear_chat_slot : list action :=
  [clear_chat; add_chat_message "System" [("info", "Chat cleared.")]].

Definition help_msg : string :=
  "Available commands:" +:+ String (Ascii.ascii_of_N 10)
  ("/clear - Clear chat display." +:+ String (Ascii.ascii_of_N 10)
  ("/theme [theme_name] - Change theme (e.g., /theme Cyberpunk Neon)."
   +:+ String (Ascii.ascii_of_N 10) "/help - Show this help message.")).

(** [_handle_slash_command] (lines 2732-2763). *)
Definition _handle_slash_command (theme_combo_keys : list string)
    (command_text : string) : list action :=
  let parts := PyText.split_space_once (PyText.lower command_text) in
  let command := fst parts in
  let args_str := default "" (snd parts) in
  if bool_decide (command = "/clear") then clear_chat_slot
  else if bool_decide (command = "/help")
  then [add_chat_message "System" [("info", help_msg)]]
  else if bool_decide (command = "/theme")
  then
    if PyText.truthy args_str && bool_decide (args_str ∈ theme_combo_keys)
    then [apply_theme args_str;
          add_chat_message "System" [("info", "Theme changed to: " +:+ args_str)]]
    else if PyText.truthy args_str
    then [add_chat_message "System"
            [("error", "Unknown theme: " +:+ args_str +:+ ". Available: "
                       +:+ PyText.join ", " theme_combo_keys)]]
    else [add_chat_message "System"
            [("info", "Usage: /theme [theme_name]. Available: "
                      +:+ PyText.join ", " theme_combo_keys)]]
  else [add_chat_message "System" [("error", "Unknown command: " +:+ command)]].

(** [send_input_slot] (lines 2707-2730), on the text of the input
    field, the user interface being built. *)
Definition send_input_slot (theme_combo_keys : list string) (field_text : string)
  : list action :=
  let user_text := PyText.strip field_text in
  if negb (PyText.truthy user_text) then []
  else
    [add_chat_message "User" [("normal", user_text)]]
    ++ (if PyText.startswith "/" user_text
        then _handle_slash_command theme_combo_keys user_text
        else [emit_start_nlp_processing user_text;
              emit_request_emotion_analysis user_text])
    ++ [clear_input].

(** [handle_recognized_voice] (lines 3067-3080). *)
Definition handle_recognized_voice (text : string) : list action :=
  if negb (PyText.truthy (PyText.strip text)) then []
  else [add_chat_message "User" [("normal", "(Voice Input) " +:+ text)];
        emit_start_nlp_processing text;
        emit_request_emotion_analysis text].

(** [handle_nlp_result] (lines 2943-2972) on a dictionary of the
    dummy language worker, which has no
    [determined_emotion_for_response]. *)
Definition handle_nlp_result (workers : list (string * Handle)) (u : ui)
    (response_dict : NLPWorker_Dummy.response) : list action :=
  [add_chat_message RobotInfoModule_Dummy.APP_NAME_CONST
     (NLPWorker_Dummy.display_details response_dict)]
  ++ (if voice_output_enabled u
         && PyText.truthy (NLPWorker_Dummy.text_to_speak response_dict)
      then match dict_get "tts" workers ≫= worker with
           | Some inst =>
               if hasattr inst "speak"
               then [invoke "tts" "speak"
                       (Some (NLPWorker_Dummy.text_to_speak response_dict))]
               else []
           | None => []
           end
      else []).

(** The keys of [THEMES_CSS] (lines 123-143), which
    [_create_control_panel] copies into [theme_combo_keys]. *)
Definition THEMES_CSS_keys : list string :=
  [ "Default"; "Cyberpunk Neon"; "Sunset Glow"; "Azure Dreams"; "Emerald Twilight";
    "Crimson Nightfall"; "Golden Amethyst"; "Mystic Forest"; "Classic Dark";
    "Minty Fresh"; "Ocean Blue"; "Ubuntu Ambiance"; "Forest Green"; "Royal Purple";
    "Warm Orange"; "Charcoal Gray"; "Ruby Red"; "Sapphire Blue"; "Volcanic Ash" ].

Definition is_apply_theme (a : action) : bool :=
  match a with apply_theme _ => true | _ => false end.

Definition is_nlp_request (a : action) : bool :=
  match a with
  | emit_start_nlp_processing _ | emit_request_emotion_analysis _ => true
  | _ => false
  end.

Definition is_thread_start (a : action) : bool :=
  match a with thread_start _ => true | _ => false end.

Definition is_invoke (a : action) : bool :=
  match a with invoke _ _ _ => true | _ => false end.

End Slots.

(** * Properties *)

(** ** The module resolver *)

Section ResolverFacts.

Import Resolver.

Lemma scan_items_flag module items acc :
  snd (scan_items module items acc) = true -> snd acc = true.
Proof.
  revert acc. induction items as [|i items IH]; intros acc H; [done|].
  simpl in H. destruct (module !! i); apply IH in H; done.
Qed.

Lemma scan_items_missing module items acc item :
  item ∈ items -> module !! item = None ->
  snd (scan_items module items acc) = false.
Proof.
  revert acc. induction items as [|i items IH]; intros acc Hin Hnone.
  - by apply elem_of_nil in Hin.
  - apply elem_of_cons in Hin as [->|Hin]; simpl.
    + rewrite Hnone.
      destruct (snd (scan_items module items (acc.1, false))) eqn:E; [|done].
      by apply scan_items_flag in E.
    + destruct (module !! i); by apply IH.
Qed.

(** Once an item is in the accumulator with the module's value, the
    rest of the loop keeps it so. *)
Lemma scan_items_keeps module items acc k :
  fst acc !! k = module !! k ->
  fst (scan_items module items acc) !! k = module !! k.
Proof.
  revert acc. induction items as [|i items IH]; intros acc H; [done|].
  simpl. destruct (module !! i) as [v|] eqn:E; apply IH; simpl; [|done].
  destruct (decide (i = k)) as [->|Hne].
  - by rewrite lookup_insert_eq.
  - by rewrite lookup_insert_ne.
Qed.

Lemma scan_items_found module items acc item :
  snd (scan_items module items acc) = true -> item ∈ items ->
  exists cls, module !! item = Some cls
              /\ fst (scan_items module items acc) !! item = Some cls.
Proof.
  revert acc. induction items as [|i items IH]; intros acc Hflag Hin.
  - by apply elem_of_nil in Hin.
  - simpl in *. destruct (module !! i) as [v|] eqn:E.
    + destruct (decide (item = i)) as [->|Hne].
      * exists v. split; [done|].
        rewrite scan_items_keeps; [done|]. simpl. by rewrite lookup_insert_eq.
      * apply elem_of_cons in Hin as [?|Hin]; [done|]. by apply IH.
    + apply scan_items_flag in Hflag. done.
Qed.

Lemma append_missing_unless_listed_spec x entry g :
  append_missing_unless_listed x entry g =
  (Ok tt, {| MODULE_IMPORTS_OK := MODULE_IMPORTS_OK g;
             MISSING_MODULES :=
               if bool_decide (x ∈ MISSING_MODULES g) then MISSING_MODULES g
               else MISSING_MODULES g ++ [entry] |}).
Proof.
  unfold append_missing_unless_listed, bind, get_missing, ret, append_missing.
  destruct g as [ok l]; simpl. by destruct (bool_decide (x ∈ l)).
Qed.

Lemma prefix_append (s t : string) : String.prefix s (s +:+ t) = true.
Proof.
  induction s as [|c s IH]; simpl.
  - by destruct t.
  - destruct (Ascii.ascii_dec c c); [apply IH|done].
Qed.

Lemma prefix_refl (s : string) : String.prefix s s = true.
Proof.
  induction s as [|c s IH]; simpl; [done|].
  destruct (Ascii.ascii_dec c c); [apply IH|done].
Qed.

End ResolverFacts.

Section ResolverClaims.

Import Resolver Samples.

(** What [_try_import] returns and leaves in the globals when the
    module loads but lacks one of the requested members. *)
Lemma try_import_partial imp module_name items file_hint g attrs item :
  imp module_name = Loaded attrs -> item ∈ items -> attrs !! item = None ->
  _try_import imp module_name items file_hint g =
  (Ok (None, false),
   {| MODULE_IMPORTS_OK := false;
      MISSING_MODULES :=
        if bool_decide (file_hint ∈ MISSING_MODULES g) then MISSING_MODULES g
        else MISSING_MODULES g ++ [file_hint +:+ " (item missing within module)"] |}).
Proof.
  intros Himp Hin Hnone.
  unfold _try_import, try_except, try_import_body, py_import.
  rewrite Himp. unfold bind at 1. unfold ret at 1.
  pose proof (scan_items_missing attrs items (∅, true) item Hin Hnone) as Hflag.
  destruct (scan_items attrs items (∅, true)) as [imported flag].
  simpl in Hflag. subst flag. simpl.
  unfold bind. rewrite append_missing_unless_listed_spec.
  unfold set_imports_ok, ret. simpl. done.
Qed.

(** When [_try_import] hands back a dictionary, the module loaded and
    every requested member is in it with the module's value. *)
Lemma try_import_accepts imp module_name items file_hint g d b g' :
  _try_import imp module_name items file_hint g = (Ok (Some d, b), g') ->
  b = true /\ g' = g
  /\ exists attrs, imp module_name = Loaded attrs
       /\ forall item, item ∈ items ->
            exists cls, attrs !! item = Some cls /\ d !! item = Some cls.
Proof.
  unfold _try_import, try_except, try_import_body, py_import.
  destruct (imp module_name) as [attrs|e] eqn:Himp.
  - unfold bind at 1. unfold ret at 1.
    pose proof (scan_items_found attrs items (∅, true)) as Hfound.
    destruct (scan_items attrs items (∅, true)) as [imported flag].
    simpl in Hfound. destruct flag; simpl.
    + unfold bind, ret. simpl.
      destruct (dict_truthy imported) eqn:Ht; intros H; [|done].
      injection H as <- <- <-. do 2 (split; [done|]).
      exists attrs. split; [done|]. intros item Hin. by apply Hfound.
    + unfold bind. rewrite append_missing_unless_listed_spec.
      unfold set_imports_ok, ret. simpl. done.
  - unfold raise. simpl.
    destruct (is_ImportError e); unfold bind, set_imports_ok;
      rewrite append_missing_unless_listed_spec; unfold ret; done.
Qed.

(** C7. [_try_import] accepts the real implementation only when every
    requested member is on the loaded module.  If the module loads
    and a requested member is absent, the call returns [(None, False)]
    whatever else was found, clears [MODULE_IMPORTS_OK], and leaves
    the file hint on record in [MISSING_MODULES]: the list is
    unchanged when it already holds the hint, and otherwise gains the
    entry "<hint> (item missing within module)".  Conversely a
    returned dictionary means that the module loaded and holds every
    requested member. *)
Theorem try_import_all_or_nothing imp module_name items file_hint g attrs item :
  imp module_name = Loaded attrs -> item ∈ items -> attrs !! item = None ->
  let out := _try_import imp module_name items file_hint g in
  fst out = Ok (None, false)
  /\ MODULE_IMPORTS_OK (snd out) = false
  /\ MISSING_MODULES (snd out) =
       (if bool_decide (file_hint ∈ MISSING_MODULES g) then MISSING_MODULES g
        else MISSING_MODULES g ++ [file_hint +:+ " (item missing within module)"])
  /\ (exists entry, entry ∈ MISSING_MODULES (snd out)
                    /\ String.prefix file_hint entry = true)
  /\ (forall imp' items' g0 d b g1,
        _try_import imp' module_name items' file_hint g0 = (Ok (Some d, b), g1) ->
        b = true /\ exists attrs', imp' module_name = Loaded attrs'
          /\ forall i, i ∈ items' ->
               exists cls, attrs' !! i = Some cls /\ d !! i = Some cls).
Proof.
  intros Himp Hin Hnone out. subst out.
  rewrite (try_import_partial _ _ _ _ _ _ _ Himp Hin Hnone). simpl.
  do 3 (split; [done|]). split.
  - destruct (bool_decide (file_hint ∈ MISSING_MODULES g)) eqn:E.
    + exists file_hint. split; [by apply bool_decide_eq_true in E|apply prefix_refl].
    + exists (file_hint +:+ " (item missing within module)"). split.
      * apply elem_of_app. right. apply list_elem_of_singleton. done.
      * apply prefix_append.
  - intros imp' items' g0 d b g1 H.
    apply try_import_accepts in H as (-> & _ & attrs' & ? & ?). eauto.
Qed.

Lemma try_import_all_or_nothing_witness :
  fst (_try_import partial_importer "voice_output_v2" ["TTSWorker"; "TTSVoice"]
         "voice_output_v2.py" initial_globals) = Ok (None, false)
  /\ MISSING_MODULES
       (snd (_try_import partial_importer "voice_output_v2" ["TTSWorker"; "TTSVoice"]
               "voice_output_v2.py" initial_globals))
     = ["voice_output_v2.py (item missing within module)"].
Proof.
  pose proof (try_import_all_or_nothing partial_importer "voice_output_v2"
                ["TTSWorker"; "TTSVoice"] "voice_output_v2.py" initial_globals
                {[ "TTSWorker" := mkClass "TTSWorker" "voice_output_v2" ]} "TTSVoice"
                eq_refl ltac:(set_solver) ltac:(vm_compute; reflexivity))
    as (H1 & _ & H3 & _).
  split; [exact H1|]. rewrite H3. reflexivity.
Defined.

(** The binding of one capability: [resolve] returns, and returns
    the member of the loaded module when there is one and the dummy
    in every other case. *)
Lemma resolve_total imp c g :
  exists g', resolve imp c g = (Ok (expected_binding imp c), g').
Proof.
  unfold resolve, expected_binding, _try_import, try_except, try_import_body, py_import.
  destruct (imp (cap_module c)) as [attrs|e].
  - unfold bind at 2. unfold ret at 1. simpl.
    destruct (attrs !! cap_item c) as [cls|] eqn:E; simpl.
    + unfold bind, ret. simpl.
      assert (Ht : dict_truthy (<[cap_item c := cls]> (∅ : gmap string PyClass)) = true).
      { apply bool_decide_eq_true. apply insert_non_empty. }
      rewrite Ht. simpl. rewrite Ht. unfold getitem.
      rewrite lookup_insert_eq. eauto.
    + unfold bind. rewrite append_missing_unless_listed_spec.
      unfold set_imports_ok, ret. simpl. eauto.
  - unfold bind at 1. unfold raise. simpl.
    destruct (is_ImportError e); unfold bind, set_imports_ok;
      rewrite append_missing_unless_listed_spec; unfold ret; simpl; eauto.
Qed.

(** C2. For every capability of the registry and every outcome of the
    import (module missing, member missing, any other exception, or
    success), the resolution step returns without raising and binds
    the capability's variable to the real imported class when the
    module loaded and has the member, and to the dummy class
    otherwise.  No other outcome exists. *)
Theorem resolve_real_or_dummy imp c g :
  c ∈ capability_registry ->
  exists g', resolve imp c g = (Ok (expected_binding imp c), g')
    /\ ((exists attrs, imp (cap_module c) = Loaded attrs
                       /\ attrs !! cap_item c = Some (expected_binding imp c))
        \/ ((forall attrs, imp (cap_module c) = Loaded attrs ->
                           attrs !! cap_item c = None)
            /\ expected_binding imp c = cap_dummy c)).
Proof.
  intros _. destruct (resolve_total imp c g) as [g' H].
  exists g'. split; [done|].
  unfold expected_binding.
  destruct (imp (cap_module c)) as [attrs|e].
  - destruct (attrs !! cap_item c) as [cls|] eqn:E.
    + left. eauto.
    + right. split; [|done]. intros ? [= <-]. done.
  - right. split; [|done]. intros ? [=].
Qed.

Lemma resolve_real_or_dummy_witness :
  fst (resolve tts_only_importer cap_TTSWorker initial_globals)
    = Ok (mkClass "TTSWorker" "voice_output_v2")
  /\ fst (resolve tts_only_importer cap_NLPWorker initial_globals)
    = Ok NLPWorker_Dummy.
Proof.
  split.
  - destruct (resolve_real_or_dummy tts_only_importer cap_TTSWorker initial_globals
                ltac:(set_solver)) as (g' & H & _).
    rewrite H. reflexivity.
  - destruct (resolve_real_or_dummy tts_only_importer cap_NLPWorker initial_globals
                ltac:(set_solver)) as (g' & H & _).
    rewrite H. reflexivity.
Defined.

(** The whole resolution block returns, with every variable bound as
    expected. *)
Lemma resolve_all_total imp g :
  exists g', resolve_all imp g =
    (Ok {| EmotionWorker_cls := expected_binding imp cap_EmotionWorker;
           RobotAppearanceWidget_cls := expected_binding imp cap_RobotAppearanceWidget;
           TTSWorker_cls := expected_binding imp cap_TTSWorker;
           VoiceListenerWorker_cls := expected_binding imp cap_VoiceListenerWorker;
           NLPWorker_cls := expected_binding imp cap_NLPWorker;
           RobotInfoModule_for_deps := expected_binding imp cap_RobotInfoModule;
           GrammarSystem_for_deps := expected_binding imp cap_GrammarSystem;
           MultiLangCorrector_for_deps := expected_binding imp cap_MultiLangCorrector |},
     g').
Proof.
  unfold resolve_all.
  repeat match goal with
  | |- exists g', bind (resolve imp ?c) _ ?g0 = _ =>
      let g1 := fresh "g" in let H := fresh "H" in
      destruct (resolve_total imp c g0) as [g1 H];
      unfold bind at 1; rewrite H
  end.
  unfold ret. eauto.
Qed.

End ResolverClaims.

(** ** The worker classes *)

Section StopClaims.

(** C9. [stop] is idempotent on the internal [Worker] base and on
    [BaseWorkerDummy]: a second call leaves the worker as the first
    did, the running flag of a [Worker] is false after one call, and
    no call emits a signal.  The [CameraWorker] inherits it. *)
Theorem stop_idempotent :
  (forall w : Worker.obj,
      fst (Worker.stop (fst (Worker.stop w))) = fst (Worker.stop w)
      /\ Worker._is_running (fst (Worker.stop w)) = false
      /\ Worker.worker_name (fst (Worker.stop w)) = Worker.worker_name w
      /\ signals_of (snd (Worker.stop w)) = []
      /\ timers_of (snd (Worker.stop w)) = [])
  /\ (forall d : BaseWorkerDummy.obj,
      fst (BaseWorkerDummy.stop (fst (BaseWorkerDummy.stop d)))
        = fst (BaseWorkerDummy.stop d)
      /\ fst (BaseWorkerDummy.stop d) = d
      /\ signals_of (snd (BaseWorkerDummy.stop d)) = []
      /\ timers_of (snd (BaseWorkerDummy.stop d)) = [])
  /\ (forall c : CameraWorker.obj,
      fst (CameraWorker.stop (fst (CameraWorker.stop c))) = fst (CameraWorker.stop c)
      /\ CameraWorker._is_running (fst (CameraWorker.stop c)) = false
      /\ signals_of (snd (CameraWorker.stop c)) = []).
Proof.
  split; [|split].
  - intros [name r]. done.
  - intros [name]. done.
  - intros [[name r] cfg idx res cap key warned]. done.
Qed.

End StopClaims.

Section FilterClaims.

Import CameraWorker.

Lemma RAW_CAMERA_FILTERS_keys (k : string) :
  k ∈ dom RAW_CAMERA_FILTERS <->
  k ∈ ["None"; "Grayscale"; "Blur"; "Edges"; "Sepia"; "Invert"; "Cartoon"].
Proof.
  unfold RAW_CAMERA_FILTERS. rewrite dom_list_to_map_L.
  rewrite elem_of_list_to_set. simpl. done.
Qed.

(** C10. For a string that is no key of [RAW_CAMERA_FILTERS],
    [set_filter] leaves every field of the worker as it was, the
    current filter key included, and emits nothing; for a key of the
    table it sets the current filter key to that key and changes no
    other field. *)
Theorem set_filter_frame (self : obj) (filter_key : string) :
  (filter_key ∉ ["None"; "Grayscale"; "Blur"; "Edges"; "Sepia"; "Invert"; "Cartoon"] ->
     fst (set_filter self filter_key) = self)
  /\ (filter_key ∈ ["None"; "Grayscale"; "Blur"; "Edges"; "Sepia"; "Invert"; "Cartoon"] ->
     current_filter_key (fst (set_filter self filter_key)) = Some filter_key
     /\ base (fst (set_filter self filter_key)) = base self
     /\ config (fst (set_filter self filter_key)) = config self
     /\ camera_index (fst (set_filter self filter_key)) = camera_index self
     /\ resolution (fst (set_filter self filter_key)) = resolution self
     /\ cap (fst (set_filter self filter_key)) = cap self
     /\ _filter_warning_logged (fst (set_filter self filter_key))
        = _filter_warning_logged self)
  /\ signals_of (snd (set_filter self filter_key)) = [].
Proof.
  unfold set_filter.
  destruct (bool_decide (filter_key ∈ dom RAW_CAMERA_FILTERS)) eqn:E.
  - apply bool_decide_eq_true in E. apply RAW_CAMERA_FILTERS_keys in E.
    split; [intros H; contradiction|]. split; [|done]. intros _. done.
  - apply bool_decide_eq_false in E. rewrite RAW_CAMERA_FILTERS_keys in E.
    split; [done|]. split; [intros H; contradiction|done].
Qed.

Lemma set_filter_frame_witness :
  fst (set_filter (__init__ Samples.default_camera_config) "Rainbow")
    = __init__ Samples.default_camera_config
  /\ current_filter_key (fst (set_filter (__init__ Samples.default_camera_config) "Sepia"))
    = Some "Sepia".
Proof.
  split.
  - apply (set_filter_frame (__init__ Samples.default_camera_config) "Rainbow").
    apply (bool_decide_unpack _). vm_compute. exact I.
  - apply (set_filter_frame (__init__ Samples.default_camera_config) "Sepia").
    set_solver.
Defined.

End FilterClaims.

Section SpeakClaims.

Import TTSWorker_Dummy.

Lemma signals_of_app tr1 tr2 :
  signals_of (tr1 ++ tr2) = signals_of tr1 ++ signals_of tr2.
Proof. apply omap_app. Qed.

Lemma timers_of_app tr1 tr2 :
  timers_of (tr1 ++ tr2) = timers_of tr1 ++ timers_of tr2.
Proof. apply omap_app. Qed.

Lemma schedule_words_signals words i char_pos :
  signals_of (schedule_words words i char_pos) = [].
Proof.
  revert i char_pos. induction words as [|w words IH]; intros i p; [done|].
  simpl. apply IH.
Qed.

Lemma schedule_words_timers words i char_pos :
  map snd (timers_of (schedule_words words i char_pos))
  = word_boundaries words char_pos.
Proof.
  revert i char_pos. induction words as [|w words IH]; intros i p; [done|].
  simpl. f_equal. apply IH.
Qed.

(** The timers of the words, followed by any timer set late enough,
    are armed in the order in which they fire. *)
Lemma schedule_words_ascending words i char_pos late s :
  (i + Z.of_nat (length words)) * delay_ms_per_word + delay_ms_per_word <= late ->
  ascending (timers_of (schedule_words words i char_pos) ++ [(late, s)]).
Proof.
  unfold delay_ms_per_word.
  revert i char_pos. induction words as [|w words IH]; intros i p Hlate.
  - simpl. done.
  - change (timers_of (schedule_words (w :: words) i p) ++ [(late, s)])
      with ((i * 200 + 200 / 2, speech_word_boundary w p (PyStr.len w))
            :: (timers_of (schedule_words words (i + 1) (p + PyStr.len w + 1))
                ++ [(late, s)])).
    change (200 / 2) with 100.
    assert (Hrest : (i + 1 + Z.of_nat (length words)) * 200 + 200 <= late).
    { simpl length in Hlate. lia. }
    split; [|by apply IH].
    destruct words as [|w' words'].
    + simpl. lia.
    + simpl. unfold delay_ms_per_word. change (200 / 2) with 100. lia.
Qed.

Lemma fire_order_ascending ts : ascending ts -> fire_order ts = ts.
Proof.
  induction ts as [|t ts IH]; [done|].
  intros [Hhead Hrest]. simpl. rewrite (IH Hrest).
  destruct ts as [|u ts']; [done|].
  simpl. apply Z.ltb_lt in Hhead. by rewrite Hhead.
Qed.

(** C8. [speak] on the dummy speech worker emits [speech_started]
    with the text at once and arms the [speech_finished] timer, with
    the same text, later than every word-boundary timer: what is
    observed is [speech_started text], then one [speech_word_boundary]
    per word, then [speech_finished text], and nothing else. *)
Theorem speak_started_then_finished (self : BaseWorkerDummy.obj) (text : string) :
  text <> "" ->
  observed (snd (speak self text))
  = speech_started text
    :: word_boundaries (PyStr.split text) 0 ++ [speech_finished text]
  /\ signals_of (snd (speak self text)) = [speech_started text]
  /\ ascending (timers_of (snd (speak self text)))
  /\ last (timers_of (snd (speak self text)))
     = Some (Z.of_nat (length (PyStr.split text)) * 200 + 200, speech_finished text)
  /\ fst (speak self text) = self.
Proof.
  intros _.
  assert (Hsig : signals_of (snd (speak self text)) = [speech_started text]).
  { unfold speak. cbn [snd]. rewrite !signals_of_app, schedule_words_signals. done. }
  assert (Htim : timers_of (snd (speak self text))
                 = timers_of (schedule_words (PyStr.split text) 0 0)
                   ++ [(Z.of_nat (length (PyStr.split text)) * 200 + 200,
                        speech_finished text)]).
  { unfold speak. cbn [snd]. rewrite !timers_of_app. done. }
  assert (Hasc : ascending (timers_of (snd (speak self text)))).
  { rewrite Htim. apply schedule_words_ascending. unfold delay_ms_per_word. lia. }
  split; [|split; [done|split; [done|split]]].
  - unfold observed. rewrite Hsig, (fire_order_ascending _ Hasc), Htim.
    rewrite map_app, schedule_words_timers. done.
  - rewrite Htim. apply last_snoc.
  - done.
Qed.

Lemma speak_started_then_finished_witness :
  observed (snd (speak __init__ "hello robot"))
  = [ speech_started "hello robot";
      speech_word_boundary "hello" 0 5;
      speech_word_boundary "robot" 6 5;
      speech_finished "hello robot" ].
Proof.
  destruct (speak_started_then_finished __init__ "hello robot"
              ltac:(discriminate)) as [H _].
  rewrite H. reflexivity.
Defined.

End SpeakClaims.

Section CameraRunClaims.

Import CameraWorker.

Lemma stop_cap self : cap (fst (stop self)) = cap self.
Proof. by destruct self as [[name r] cfg idx res c key warned]. Qed.

Lemma apply_filter_cap env self it frame :
  cap (fst (_apply_filter_to_frame env self it frame)) = cap self.
Proof.
  unfold _apply_filter_to_frame.
  destruct (negb (NUMPY_AVAILABLE env) || negb (CV2_AVAILABLE env)).
  - by destruct (_filter_warning_logged self).
  - destruct (current_filter_key self ≫= _) as [[f|]|]; [|done..].
    by destruct (filter_ok it).
Qed.

Lemma capture_loop_cons env self it rest :
  capture_loop env self (it :: rest) =
  if negb (_is_running self) then ([], self, true)
  else if negb (read_ret it)
  then ([Cv read; Log "CameraWorker: Failed to grab frame or stream ended."],
        set_base self (Worker.set_is_running (base self) false), true)
  else
    let '(self1, frame) :=
      if filter_selected self
      then _apply_filter_to_frame env self it (read_frame it)
      else (self, read_frame it) in
    let self2 := if stop_requested it then fst (stop self1) else self1 in
    let '(tr, self3, exited) := capture_loop env self2 rest in
    ([Cv read; Emit (frame_ready frame); msleep 30] ++ tr, self3, exited).
Proof. reflexivity. Qed.

(** The capture loop neither releases the capture nor emits
    [finished], and leaves [self.cap] alone. *)
Lemma capture_loop_quiet env turns : forall self,
  Forall quiet (fst (fst (capture_loop env self turns)))
  /\ cap (snd (fst (capture_loop env self turns))) = cap self.
Proof.
  induction turns as [|it turns IH]; intros self.
  - simpl. destruct (negb (_is_running self)); simpl; split; done.
  - rewrite capture_loop_cons.
    destruct (negb (_is_running self)); [simpl; split; done|].
    destruct (negb (read_ret it)).
    + simpl. split; [|done]. repeat constructor.
    + destruct (if filter_selected self
                then _apply_filter_to_frame env self it (read_frame it)
                else (self, read_frame it)) as [self1 frame] eqn:E1.
      assert (Hcap1 : cap self1 = cap self).
      { destruct (filter_selected self).
        - rewrite <- (apply_filter_cap env self it (read_frame it)). by rewrite E1.
        - by injection E1 as <- _. }
      cbv zeta.
      assert (Hcap2 : cap (if stop_requested it then fst (stop self1) else self1)
                      = cap self).
      { destruct (stop_requested it); [rewrite stop_cap|]; done. }
      destruct (IH (if stop_requested it then fst (stop self1) else self1))
        as [Hq Hc].
      destruct (capture_loop env
                  (if stop_requested it then fst (stop self1) else self1) turns)
        as [[tr self3] exited].
      cbn [fst snd] in *. split; [|congruence].
      cbn [app]. repeat (constructor; [split; done|]). done.
Qed.

Lemma quiet_no_finished tr : Forall quiet tr -> existsb is_finished tr = false.
Proof.
  induction 1 as [|e tr [Hf _] _ IH]; [done|]. simpl. by rewrite Hf, IH.
Qed.

Lemma quiet_no_release tr : Forall quiet tr -> existsb is_release tr = false.
Proof.
  induction 1 as [|e tr [_ Hr] _ IH]; [done|]. simpl. by rewrite Hr, IH.
Qed.

(** C6. When the camera cannot be opened, because OpenCV is missing
    or because the capture at the configured index does not open,
    [run] returns and its signals are exactly one [error], carrying
    the worker's name and a message, followed by [finished]; no
    [frame_ready] is emitted.  The name of a worker built by the
    constructor is "CameraWorker". *)
Theorem run_open_failure (env : Env) (self : obj) (turns : list Iteration) :
  CV2_AVAILABLE env = false \/ open_succeeds env = false ->
  signals_of (fst (fst (run env self turns)))
  = [ error (worker_name self)
        (if CV2_AVAILABLE env
         then "Cannot open camera at index " +:+ pretty (camera_index self) +:+ "."
         else "OpenCV (cv2) is not available. Camera cannot operate.");
      finished ]
  /\ snd (run env self turns) = Returned
  /\ existsb is_frame_ready (signals_of (fst (fst (run env self turns)))) = false
  /\ (forall cfg, worker_name (__init__ cfg) = "CameraWorker").
Proof.
  intros H. unfold run.
  destruct (CV2_AVAILABLE env) eqn:Hcv; simpl.
  - destruct H as [H|H]; [done|]. rewrite H. simpl. done.
  - done.
Qed.

Lemma run_open_failure_witness :
  signals_of (fst (fst (run Samples.camera_absent
                          (__init__ Samples.default_camera_config)
                          Samples.two_frames_then_stop)))
  = [ error "CameraWorker" "Cannot open camera at index 0."; finished ].
Proof.
  destruct (run_open_failure Samples.camera_absent
              (__init__ Samples.default_camera_config)
              Samples.two_frames_then_stop
              (or_intror eq_refl)) as [H _].
  rewrite H. reflexivity.
Defined.

(** C5. The worker never emits [finished] while it holds an opened
    capture: for a worker that holds none when [run] is called,
    [finished] is the last effect of every run that returns and is
    emitted once, no capture that reports itself opened is held at
    that point, and a run that is still looping has not emitted
    [finished].  A run that opened the device, and left the loop on
    a stop request or on a failed read, calls [release] on the
    capture, once, and clears [self.cap] before it emits
    [finished].  On the error exits there is no opened device to
    release and [release] is not called: with OpenCV unavailable no
    capture is created and [self.cap] is not touched, and when the
    device does not open, [self.cap] holds the capture object that
    reports itself not opened. *)
Theorem run_release_before_finished (env : Env) (self : obj) (turns : list Iteration) :
  no_open_capture self ->
  match snd (run env self turns) with
  | Looping =>
      existsb is_finished (fst (fst (run env self turns))) = false
  | Returned =>
      exists pre,
        fst (fst (run env self turns)) = pre ++ [Emit finished]
        /\ existsb is_finished pre = false
        /\ no_open_capture (snd (fst (run env self turns)))
        /\ if CV2_AVAILABLE env && open_succeeds env
           then cap (snd (fst (run env self turns))) = None
                /\ exists before,
                     pre = before
                           ++ [Cv release;
                               Log "CameraWorker run loop finished and camera released.";
                               Emit (status_update "Camera stream stopped." 2000)]
                     /\ existsb is_release before = false
           else existsb is_release pre = false
                /\ cap (snd (fst (run env self turns)))
                   = (if CV2_AVAILABLE env
                      then Some {| cap_index := camera_index self;
                                   cap_isOpened := false |}
                      else cap self)
  end.
Proof.
  intros Hself. unfold run.
  destruct (CV2_AVAILABLE env) eqn:Hcv; simpl negb; cbv iota.
  2:{ cbn [fst snd andb]. eexists [_; _]. split; [reflexivity|]. done. }
  destruct (open_succeeds env) eqn:Hop; simpl negb; cbv iota.
  2:{ cbn [fst snd andb]. eexists [_; _; _; _; _; _].
      split; [reflexivity|]. done. }
  set (self2 := set_base _ _).
  destruct (capture_loop_quiet env turns self2) as [Hq Hc].
  destruct (capture_loop env self2 turns) as [[tr self3] exited].
  cbn [fst snd] in Hq, Hc.
  assert (Hcap3 : cap self3 = Some {| cap_index := camera_index self;
                                      cap_isOpened := true |}).
  { rewrite Hc. subst self2. done. }
  pose proof (quiet_no_finished _ Hq) as Hnf.
  pose proof (quiet_no_release _ Hq) as Hnr.
  destruct exited.
  - rewrite Hcap3. cbn [fst snd andb].
    set (started := _ ++ [Cv (set_prop _ _); _; _; _]).
    exists (started ++ tr
            ++ [Cv release;
                Log "CameraWorker run loop finished and camera released.";
                Emit (status_update "Camera stream stopped." 2000)]).
    split; [by rewrite <- !app_assoc|].
    split.
    { rewrite !existsb_app, Hnf. done. }
    split; [done|]. split; [done|].
    exists (started ++ tr). split; [by rewrite <- !app_assoc|].
    rewrite !existsb_app, Hnr. done.
  - cbn [fst snd]. rewrite !existsb_app, Hnf. done.
Qed.

Lemma run_release_before_finished_witness :
  exists before,
    fst (fst (run Samples.camera_present (__init__ Samples.default_camera_config)
                Samples.two_frames_then_stop))
    = before ++ [Cv release;
                 Log "CameraWorker run loop finished and camera released.";
                 Emit (status_update "Camera stream stopped." 2000);
                 Emit finished]
    /\ existsb is_release before = false.
Proof.
  pose proof (run_release_before_finished Samples.camera_present
                (__init__ Samples.default_camera_config)
                Samples.two_frames_then_stop I) as H.
  change (snd (run Samples.camera_present (__init__ Samples.default_camera_config)
                 Samples.two_frames_then_stop)) with Returned in H.
  destruct H as (pre & Htr & _ & _ & H).
  change (CameraWorker.CV2_AVAILABLE Samples.camera_present
          && open_succeeds Samples.camera_present) with true in H.
  cbv iota in H. destruct H as (_ & before & Hpre & Hrel).
  exists before. split; [|exact Hrel].
  rewrite Htr, Hpre. rewrite <- !app_assoc. reflexivity.
Defined.

End CameraRunClaims.

(** ** The main window *)

Section CloseClaims.

Import Resolver MainWindow.

Lemma count_if_app {A} (p : A -> bool) (l1 l2 : list A) :
  count_if p (l1 ++ l2) = count_if p l1 + count_if p l2.
Proof. induction l1 as [|a l1 IH]; simpl; [done|]. rewrite IH. lia. Qed.

Lemma count_if_nonneg {A} (p : A -> bool) (l : list A) : 0 <= count_if p l.
Proof. induction l as [|a l IH]; simpl; [done|]. destruct (p a); lia. Qed.

Lemma wait_budget_app acts1 acts2 :
  wait_budget (acts1 ++ acts2) = wait_budget acts1 + wait_budget acts2.
Proof.
  induction acts1 as [|a acts1 IH]; simpl; [done|].
  fold (wait_budget (acts1 ++ acts2)). fold (wait_budget acts1).
  rewrite IH. destruct a; lia.
Qed.

(** The three ways the thread of one worker is dealt with. *)
Lemma stop_thread_cases tenv h :
  stop_thread tenv h = []
  \/ (exists n, stop_thread tenv h = [thread_quit n; thread_wait n 2500])
  \/ (exists n, stop_thread tenv h
                = [thread_quit n; thread_wait n 2500;
                   thread_terminate n; thread_wait n 1000]).
Proof.
  unfold stop_thread. destruct (thread h) as [t|]; [|by left].
  destruct (isRunning tenv (objectName t)); [|by left].
  destruct (wait tenv (objectName t) 2500); simpl; eauto.
Qed.

Lemma request_stop_no_wait name h :
  count_if (is_wait 2500) (request_stop name h) = 0
  /\ count_if (is_wait 1000) (request_stop name h) = 0
  /\ count_if is_terminate (request_stop name h) = 0
  /\ wait_budget (request_stop name h) = 0.
Proof.
  unfold request_stop. destruct (worker h) as [inst|]; [|done].
  destruct (hasattr inst "shutdown"); [done|].
  destruct (hasattr inst "stop"); done.
Qed.


Lemma stop_workers_bounded tenv workers :
  let acts := stop_workers tenv workers in
  let N := Z.of_nat (length workers) in
  count_if (is_wait 2500) acts <= N
  /\ count_if is_terminate acts <= N
  /\ count_if (is_wait 1000) acts = count_if is_terminate acts
  /\ wait_budget acts <= N * 3500.
Proof.
  induction workers as [|[name h] workers IH]; [simpl; lia|].
  cbn zeta in *. cbn [stop_workers].
  rewrite !count_if_app, !wait_budget_app.
  destruct (request_stop_no_wait name h) as (-> & -> & -> & ->).
  rewrite length_cons, Nat2Z.inj_succ.
  destruct (stop_thread_cases tenv h) as [->|[[n ->]|[n ->]]]; simpl; lia.
Qed.

(** The loop waits once on every running thread and terminates
    exactly those that did not finish within that wait. *)
Lemma stop_workers_counts tenv workers :
  let acts := stop_workers tenv workers in
  count_if (is_wait 2500) acts
  = count_if (fun nh => thread_running tenv (snd nh)) workers
  /\ count_if is_terminate acts
     = count_if (fun nh => times_out tenv (snd nh)) workers
  /\ wait_budget acts
     = 2500 * count_if (is_wait 2500) acts + 1000 * count_if is_terminate acts.
Proof.
  induction workers as [|[name h] workers IH]; [done|].
  cbn zeta in *. cbn [stop_workers count_if snd].
  rewrite !count_if_app, !wait_budget_app.
  destruct (request_stop_no_wait name h) as (-> & _ & -> & ->).
  destruct IH as (-> & -> & ->).
  unfold stop_thread, thread_running, times_out.
  destruct (thread h) as [t|]; [|simpl; lia].
  destruct (isRunning tenv (objectName t)); [|simpl; lia].
  destruct (wait tenv (objectName t) 2500); simpl; lia.
Qed.



Lemma no_thread_counts (l : list close_action) :
  Forall (fun a => thread_of a = None) l ->
  (forall ms, count_if (is_wait ms) l = 0)
  /\ count_if is_terminate l = 0 /\ wait_budget l = 0.
Proof.
  induction 1 as [|a l Ha _ (IH1 & IH2 & IH3)]; [done|].
  split; [intros ms; specialize (IH1 ms)|split];
    destruct a; try discriminate Ha; simpl; first [exact IH1|exact IH2|exact IH3|lia].
Qed.

(** What [closeEvent] does is the loop over the workers, between
    calls that touch no thread. *)
Lemma closeEvent_shape tenv self :
  exists pre post,
    fst (closeEvent tenv self) = pre ++ stop_workers tenv (workers self) ++ post
    /\ Forall (fun a => thread_of a = None) pre
    /\ Forall (fun a => thread_of a = None) post.
Proof.
  unfold closeEvent, save_settings_block.
  exists (match robot_appearance_widget_instance self with
          | Some w => if hasattr w "stop_appearance_updates"
                      then [call_stop_appearance_updates] else []
          | None => []
          end).
  assert (Hpre : Forall (fun a => thread_of a = None)
                   (match robot_appearance_widget_instance self with
                    | Some w => if hasattr w "stop_appearance_updates"
                                then [call_stop_appearance_updates] else []
                    | None => []
                    end)).
  { destruct (robot_appearance_widget_instance self) as [w|]; [|done].
    destruct (hasattr w _); by repeat constructor. }
  destruct (settings self); [destruct (rate_slider self); [destruct (volume_slider self)|]|];
    cbn [negb fst].
  - exists [save_settings; event_accept]. rewrite <- !app_assoc.
    split; [done|]. split; [done|by repeat constructor].
  - exists []. rewrite !app_nil_r. split; [done|]. split; [done|constructor].
  - exists []. rewrite !app_nil_r. split; [done|]. split; [done|constructor].
  - exists [event_accept]. rewrite <- !app_assoc.
    split; [done|]. split; [done|by repeat constructor].
Qed.

Lemma closeEvent_counts tenv self :
  (forall ms, count_if (is_wait ms) (fst (closeEvent tenv self))
              = count_if (is_wait ms) (stop_workers tenv (workers self)))
  /\ count_if is_terminate (fst (closeEvent tenv self))
     = count_if is_terminate (stop_workers tenv (workers self))
  /\ wait_budget (fst (closeEvent tenv self))
     = wait_budget (stop_workers tenv (workers self)).
Proof.
  destruct (closeEvent_shape tenv self) as (pre & post & -> & Hpre & Hpost).
  destruct (no_thread_counts _ Hpre) as (P1 & P2 & P3).
  destruct (no_thread_counts _ Hpost) as (Q1 & Q2 & Q3).
  split; [intros ms|split];
    rewrite ?count_if_app, ?wait_budget_app, ?P1, ?P2, ?P3, ?Q1, ?Q2, ?Q3; lia.
Qed.


Lemma count_if_le_length {A} (p : A -> bool) (l : list A) :
  count_if p l <= Z.of_nat (length l).
Proof.
  induction l as [|a l IH]; [done|].
  cbn [count_if]. rewrite length_cons, Nat2Z.inj_succ. destruct (p a); lia.
Qed.



(** On a window whose initialisation raised after [self.settings]
    was assigned and before the sliders were built, [closeEvent]
    stops the workers and then raises at line 3269: the settings are
    not synced and the event is not accepted by the method. *)
Lemma closeEvent_after_failed_start (e : exn) (env : Env) (classes : Classes)
    (g : Globals) (tenv : ThreadEnv) :
  exists self',
    _perform_full_initialization (EarlyRaisesAfterSettings e) env classes __init__ g
    = (Ok self', g)
    /\ closeEvent tenv self' = ([], Raise AttributeError).
Proof. eexists. split; reflexivity. Qed.

(** When every worker ignores the request and no thread finishes
    within a wait, each of the N workers costs both waits and a
    termination, and the loop still ends. *)
Lemma closeEvent_stubborn (workers : list (string * Handle)) :
  Forall (fun nh => is_Some (thread (snd nh))) workers ->
  count_if is_terminate (stop_workers Samples.stubborn_threads workers)
  = Z.of_nat (length workers)
  /\ wait_budget (stop_workers Samples.stubborn_threads workers)
     = Z.of_nat (length workers) * 3500.
Proof.
  induction 1 as [|[name h] workers [t Ht] _ IH]; [done|].
  cbn [stop_workers]. rewrite !count_if_app, !wait_budget_app.
  destruct (request_stop_no_wait name h) as (_ & _ & -> & ->).
  rewrite length_cons, Nat2Z.inj_succ.
  simpl in Ht. unfold stop_thread. rewrite Ht. simpl. lia.
Qed.

End CloseClaims.

Section SetupClaims.

Import Resolver MainWindow.

Lemma dict_get_set_eq {V} (k : string) (v : V) d :
  dict_get k (dict_set k v d) = Some v.
Proof.
  induction d as [|[k' v'] d IH]; simpl.
  - by rewrite bool_decide_eq_true_2.
  - destruct (bool_decide (k = k')) eqn:E; simpl.
    + by rewrite bool_decide_eq_true_2.
    + by rewrite E.
Qed.

Lemma dict_get_set_ne {V} (k k' : string) (v : V) d :
  k <> k' -> dict_get k' (dict_set k v d) = dict_get k' d.
Proof.
  intros Hne. induction d as [|[k0 v0] d IH]; simpl.
  - rewrite bool_decide_eq_false_2; [done|]. congruence.
  - destruct (bool_decide (k = k0)) eqn:E; simpl.
    + apply bool_decide_eq_true in E. subst k0.
      rewrite !bool_decide_eq_false_2; [done|congruence..].
    + by rewrite IH.
Qed.

(** One turn of the loop: the handle recorded and the entry that may
    be appended to [MISSING_MODULES]. *)
Lemma setup_loop_cons env classes name cls rest ws g :
  setup_loop env classes ((name, cls) :: rest) ws g =
  setup_loop env classes rest
    (dict_set name (handle_of (setup_body env classes name cls)) ws)
    (if is_ok (setup_body env classes name cls) then g
     else {| MODULE_IMPORTS_OK := MODULE_IMPORTS_OK g;
             MISSING_MODULES :=
               if bool_decide (name ∈ MISSING_MODULES g) then MISSING_MODULES g
               else MISSING_MODULES g ++ [name +:+ " (setup_failed)"] |}).
Proof.
  cbn [setup_loop]. unfold bind at 1.
  destruct (setup_body env classes name cls) as [h|e]; simpl.
  - done.
  - unfold bind. rewrite append_missing_unless_listed_spec. done.
Qed.

(** The loop ends without raising, whatever each body does.  Every
    worker of the list gets the handle of its own body, the other
    keys are untouched, and [MISSING_MODULES] only grows, by entries
    of the form "<name> (setup_failed)". *)
Lemma setup_loop_spec env classes setups :
  NoDup (map fst setups) ->
  forall ws g, exists ws' extra,
    setup_loop env classes setups ws g
    = (Ok ws', {| MODULE_IMPORTS_OK := MODULE_IMPORTS_OK g;
                  MISSING_MODULES := MISSING_MODULES g ++ extra |})
    /\ (forall name cls, (name, cls) ∈ setups ->
          dict_get name ws' = Some (handle_of (setup_body env classes name cls)))
    /\ (forall name, name ∉ map fst setups -> dict_get name ws' = dict_get name ws)
    /\ Forall (fun e => exists n, n ∈ map fst setups /\ e = n +:+ " (setup_failed)") extra
    /\ (forall name cls, (name, cls) ∈ setups ->
          is_ok (setup_body env classes name cls) = false ->
          name ∈ MISSING_MODULES g ++ extra
          \/ (name +:+ " (setup_failed)") ∈ extra).
Proof.
  induction setups as [|[name cls] setups IH]; intros Hnd ws g.
  - exists ws, []. simpl. rewrite app_nil_r. destruct g. unfold ret.
    repeat split; try done; intros ? ? H; by apply elem_of_nil in H.
  - simpl in Hnd. apply NoDup_cons in Hnd as [Hfresh Hnd].
    rewrite setup_loop_cons.
    set (h := handle_of (setup_body env classes name cls)).
    set (g1 := if is_ok (setup_body env classes name cls) then g else _).
    destruct (IH Hnd (dict_set name h ws) g1) as (ws' & extra & Heq & Hin & Hout & Hform & Hmiss).
    assert (Hg1 : exists first,
               MISSING_MODULES g1 = MISSING_MODULES g ++ first
               /\ MODULE_IMPORTS_OK g1 = MODULE_IMPORTS_OK g
               /\ Forall (fun e => e = name +:+ " (setup_failed)") first
               /\ (is_ok (setup_body env classes name cls) = false ->
                   name ∈ MISSING_MODULES g \/ (name +:+ " (setup_failed)") ∈ first)).
    { subst g1. destruct (is_ok (setup_body env classes name cls)).
      - exists []. rewrite app_nil_r. repeat split; done.
      - simpl. destruct (bool_decide (name ∈ MISSING_MODULES g)) eqn:E.
        + exists []. rewrite app_nil_r. repeat split; try done.
          intros _. left. by apply bool_decide_eq_true in E.
        + exists [name +:+ " (setup_failed)"]. repeat split; try done.
          * by repeat constructor.
          * intros _. right. by apply list_elem_of_singleton. }
    destruct Hg1 as (first & Hm1 & Hok1 & Hfirst & Hname).
    exists ws', (first ++ extra). rewrite Heq, Hm1, Hok1, app_assoc.
    split; [done|]. split; [|split; [|split]].
    + intros n c Hnc. apply elem_of_cons in Hnc as [[= -> ->]|Hnc].
      * rewrite Hout; [apply dict_get_set_eq|done].
      * by apply Hin.
    + intros n Hn. simpl in Hn. apply not_elem_of_cons in Hn as [Hne Hn].
      rewrite (Hout _ Hn). apply dict_get_set_ne. congruence.
    + apply Forall_app. split.
      * eapply Forall_impl; [exact Hfirst|]. intros e ->. exists name.
        split; [simpl; apply elem_of_cons; by left|done].
      * eapply Forall_impl; [exact Hform|]. intros e (n & Hn & ->). exists n.
        split; [simpl; apply elem_of_cons; by right|done].
    + intros n c Hnc Hfail. apply elem_of_cons in Hnc as [[= -> ->]|Hnc].
      * destruct (Hname Hfail) as [H|H].
        -- left. apply elem_of_app. left. apply elem_of_app. by left.
        -- right. apply elem_of_app. by left.
      * destruct (Hmiss _ _ Hnc Hfail) as [H|H].
        -- left. rewrite Hm1 in H. done.
        -- right. apply elem_of_app. by right.
Qed.

Lemma worker_setups_names classes :
  map fst (worker_setups classes) = worker_names.
Proof. reflexivity. Qed.

(** No worker name is itself of the form "<name> (setup_failed)". *)
Lemma worker_name_not_failed_entry name n :
  name ∈ worker_names -> n ∈ worker_names -> name <> n +:+ " (setup_failed)".
Proof.
  unfold worker_names. intros Hname Hn.
  repeat (apply elem_of_cons in Hname as [->|Hname]);
    try (by apply elem_of_nil in Hname);
    repeat (apply elem_of_cons in Hn as [->|Hn]);
    try (by apply elem_of_nil in Hn); discriminate.
Qed.

(** A body that ends without raising has built the worker and its
    thread, and the thread is started unless the worker is the
    camera. *)
Lemma setup_body_ok env classes name cls h :
  setup_body env classes name cls = Ok h ->
  exists inst t, worker h = Some inst /\ thread h = Some t
    /\ objectName t = name +:+ "Thread"
    /\ running t = negb (bool_decide (name = "camera")).
Proof.
  unfold setup_body.
  destruct (instantiate env classes name cls) as [[inst|]|e]; simpl; [|done..].
  destruct (raise_if (inst_moveToThread inst)); simpl; [|done].
  destruct (if hasattr inst "finished" then _ else _); simpl; [|done].
  destruct (connect_signals inst _); simpl; [|done].
  intros [= <-]. eexists _, _. repeat split.
  cbn [running]. f_equal. apply bool_decide_ext. by rewrite list_elem_of_singleton.
Qed.

(** C3, as stated, fails for the camera: its set-up succeeds while
    the emotion worker's raises, and its thread is not started. *)
Lemma setup_leaves_camera_thread_idle :
  is_ok (setup_body Samples.emotion_broken Samples.dummy_classes
           "emotion" EmotionWorker_Dummy) = false
  /\ is_ok (setup_body Samples.emotion_broken Samples.dummy_classes
              "camera" class_CameraWorker) = true
  /\ exists self' g',
       _setup_workers_and_threads Samples.emotion_broken Samples.dummy_classes
         __init__ initial_globals = (Ok self', g')
       /\ ~ started_after_setup (workers self') "camera".
Proof.
  split; [reflexivity|]. split; [reflexivity|].
  eexists _, _. split; [reflexivity|].
  intros (h & t & Hh & Ht & Hrun).
  vm_compute in Hh. injection Hh as <-.
  vm_compute in Ht. injection Ht as <-.
  discriminate Hrun.
Qed.

(** C3, amended.  The set-up loop ends for every outcome of the six
    bodies.  A worker whose construction or wiring raises is recorded
    with no worker and no thread, and "<name> (setup_failed)" is on
    [MISSING_MODULES] afterwards; each other worker is recorded with
    the instance and the thread its own body built, and that thread
    is started, except for the camera, whose thread is created and
    wired but left to be started when the camera is switched on. *)
Theorem setup_failure_is_isolated (env : Env) (classes : Classes) (self : obj)
    (g : Globals) :
  Forall (fun n => n ∉ MISSING_MODULES g) worker_names ->
  exists self' g',
    _setup_workers_and_threads env classes self g = (Ok self', g')
    /\ forall name cls, (name, cls) ∈ worker_setups classes ->
         match setup_body env classes name cls with
         | Raise _ =>
             dict_get name (workers self') = Some null_handle
             /\ (name +:+ " (setup_failed)") ∈ MISSING_MODULES g'
         | Ok h =>
             dict_get name (workers self') = Some h
             /\ exists inst t, worker h = Some inst /\ thread h = Some t
                  /\ running t = negb (bool_decide (name = "camera"))
         end.
Proof.
  intros Hfresh. unfold _setup_workers_and_threads.
  assert (Hnd : NoDup (map fst (worker_setups classes))).
  { rewrite worker_setups_names. apply (bool_decide_unpack _). vm_compute. exact I. }
  destruct (setup_loop_spec env classes (worker_setups classes) Hnd [] g)
    as (ws' & extra & Heq & Hin & _ & Hform & Hmiss).
  unfold bind. rewrite Heq. unfold ret. eexists _, _. split; [reflexivity|].
  cbn [workers MISSING_MODULES]. intros name cls Hnc.
  pose proof (Hin _ _ Hnc) as Hget. pose proof (Hmiss _ _ Hnc) as Hfail.
  assert (Hname : name ∈ worker_names).
  { rewrite <- (worker_setups_names classes). apply list_elem_of_fmap.
    exists (name, cls). done. }
  destruct (setup_body env classes name cls) as [h|e] eqn:Hbody.
  - split; [done|]. destruct (setup_body_ok _ _ _ _ _ Hbody) as (inst & t & ? & ? & _ & ?).
    eauto.
  - split; [done|]. apply elem_of_app. right.
    destruct (Hfail eq_refl) as [H|H]; [|done]. exfalso.
    apply elem_of_app in H as [H|H].
    + rewrite Forall_forall in Hfresh. by apply (Hfresh name).
    + rewrite Forall_forall in Hform. destruct (Hform _ H) as (n & Hn & Hform').
      rewrite worker_setups_names in Hn.
      by apply (worker_name_not_failed_entry name n).
Qed.

Lemma setup_failure_is_isolated_witness :
  exists self' g',
    _setup_workers_and_threads Samples.emotion_broken Samples.dummy_classes __init__
      (snd (resolve_all Samples.bare_importer initial_globals)) = (Ok self', g')
    /\ dict_get "emotion" (workers self') = Some null_handle
    /\ "emotion (setup_failed)" ∈ MISSING_MODULES g'
    /\ started_after_setup (workers self') "tts".
Proof.
  destruct (setup_failure_is_isolated Samples.emotion_broken Samples.dummy_classes
              __init__ (snd (resolve_all Samples.bare_importer initial_globals)))
    as (self' & g' & Heq & H).
  { apply (bool_decide_unpack _). vm_compute. exact I. }
  exists self', g'. split; [exact Heq|].
  pose proof (H "emotion" EmotionWorker_Dummy
                ltac:(apply elem_of_cons; left; reflexivity)) as He.
  pose proof (H "tts" TTSWorker_Dummy
                ltac:(apply elem_of_cons; right; apply elem_of_cons; left; reflexivity))
    as Ht.
  change (setup_body Samples.emotion_broken Samples.dummy_classes "emotion"
            EmotionWorker_Dummy) with (@Raise Handle RuntimeError) in He.
  destruct He as [He1 He2]. split; [exact He1|]. split; [exact He2|].
  destruct (setup_body Samples.emotion_broken Samples.dummy_classes "tts"
              TTSWorker_Dummy) as [h|e] eqn:Hb; [|discriminate Hb].
  destruct Ht as (Hget & inst & t & Hw & Hth & Hrun).
  exists h, t. split; [exact Hget|]. split; [exact Hth|]. exact Hrun.
Defined.

(** C1 does not hold of the code.  [_setup_workers_and_threads] is
    defined inside the body of [check_module_import_status_and_notify]
    and is no attribute of the window, so the call in step 8 of
    [_perform_full_initialization] raises [AttributeError]; the
    handler shows the error box and the window keeps the [workers] it
    had, the empty dictionary of [__init__].  No worker and no thread
    is created for any of the six capabilities. *)
Theorem startup_sets_up_no_workers (early : early_outcome) (env : Env)
    (classes : Classes) (g : Globals) :
  getattr_method "_setup_workers_and_threads" = Raise AttributeError
  /\ ("check_module_import_status_and_notify", "_setup_workers_and_threads")
       ∈ nested_functions
  /\ exists self',
       _perform_full_initialization early env classes __init__ g = (Ok self', g)
       /\ workers self' = []
       /\ command_connections self' = []
       /\ initial_calls_scheduled self' = false
       /\ init_error_shown self' = true
       /\ Forall (fun name => dict_get name (workers self') = None) worker_names.
Proof.
  assert (Hget : getattr_method "_setup_workers_and_threads" = Raise AttributeError).
  { vm_compute. reflexivity. }
  split; [exact Hget|]. split.
  { apply elem_of_cons. right. apply elem_of_cons. by left. }
  unfold _perform_full_initialization.
  destruct early as [e|e|e widget rate volume|widget].
  - eexists. split; [reflexivity|]. repeat split; by repeat constructor.
  - eexists. split; [reflexivity|]. repeat split; by repeat constructor.
  - eexists. split; [reflexivity|]. repeat split; by repeat constructor.
  - unfold try_except, bind, lift. rewrite Hget. unfold ret.
    eexists. split; [reflexivity|]. repeat split; by repeat constructor.
Qed.

(** Had the function been called, it would have recorded all six
    capabilities. *)
Lemma setup_records_every_capability env classes self g :
  exists self' g',
    _setup_workers_and_threads env classes self g = (Ok self', g')
    /\ forall name, name ∈ worker_names -> is_Some (dict_get name (workers self')).
Proof.
  unfold _setup_workers_and_threads.
  assert (Hnd : NoDup (map fst (worker_setups classes))).
  { rewrite worker_setups_names. apply (bool_decide_unpack _). vm_compute. exact I. }
  destruct (setup_loop_spec env classes (worker_setups classes) Hnd [] g)
    as (ws' & extra & Heq & Hin & _).
  unfold bind. rewrite Heq. unfold ret. eexists _, _. split; [reflexivity|].
  cbn [workers]. intros name Hname.
  rewrite <- (worker_setups_names classes) in Hname.
  apply list_elem_of_fmap in Hname as ([n cls] & -> & Hnc).
  cbn [fst]. rewrite (Hin _ _ Hnc). eauto.
Qed.

(** [MISSING_MODULES] after the resolution of one capability: what
    was there, then at most one entry built on the file hint. *)
Lemma resolve_missing imp c g :
  exists extra,
    MISSING_MODULES (snd (resolve imp c g)) = MISSING_MODULES g ++ extra
    /\ Forall (fun e => e ∈ hint_entries c) extra.
Proof.
  assert (Hstep : forall x entry : string,
             entry ∈ hint_entries c ->
             exists extra,
               (if bool_decide (x ∈ MISSING_MODULES g) then MISSING_MODULES g
                else MISSING_MODULES g ++ [entry]) = MISSING_MODULES g ++ extra
               /\ Forall (fun e => e ∈ hint_entries c) extra).
  { intros x entry Hentry. destruct (bool_decide _).
    - exists []. rewrite app_nil_r. split; [done|apply Forall_nil_2].
    - exists [entry]. split; [done|]. apply Forall_singleton. exact Hentry. }
  unfold resolve, _try_import, try_except, try_import_body, py_import.
  destruct (imp (cap_module c)) as [attrs|e].
  - unfold bind at 2. unfold ret at 1. simpl.
    destruct (attrs !! cap_item c) as [cls|] eqn:E; simpl.
    + unfold bind, ret. simpl.
      assert (Ht : dict_truthy (<[cap_item c := cls]> (∅ : gmap string PyClass)) = true).
      { apply bool_decide_eq_true. apply insert_non_empty. }
      rewrite Ht. simpl. rewrite Ht. unfold getitem, ret.
      rewrite lookup_insert_eq. exists []. rewrite app_nil_r.
      split; [done|apply Forall_nil_2].
    + unfold bind. rewrite append_missing_unless_listed_spec.
      unfold set_imports_ok, ret. simpl.
      destruct (Hstep (cap_hint c) (cap_hint c +:+ " (item missing within module)"))
        as (extra & ? & ?); [|eauto].
      unfold hint_entries. apply elem_of_cons. right. apply elem_of_cons. by left.
  - unfold bind at 1. unfold raise. simpl.
    destruct (is_ImportError e); unfold bind, set_imports_ok;
      rewrite append_missing_unless_listed_spec; unfold ret; simpl.
    + destruct (Hstep (cap_hint c) (cap_hint c)) as (extra & ? & ?); [|eauto].
      unfold hint_entries. apply elem_of_cons. by left.
    + destruct (Hstep (cap_hint c) (cap_hint c +:+ " (unexpected import error)"))
        as (extra & ? & ?); [|eauto].
      unfold hint_entries. do 2 (apply elem_of_cons; right).
      apply elem_of_cons. by left.
Qed.

Lemma resolve_all_missing imp g :
  Forall (fun e => e ∈ mbind hint_entries capability_registry) (MISSING_MODULES g) ->
  Forall (fun e => e ∈ mbind hint_entries capability_registry)
         (MISSING_MODULES (snd (resolve_all imp g))).
Proof.
  intros H0. unfold resolve_all.
  repeat match goal with
  | H : Forall _ (MISSING_MODULES ?g) |- context [bind (resolve imp ?c) _ ?g] =>
      let g1 := fresh "g" in let Hr := fresh "Hr" in
      let extra := fresh "extra" in let Hm := fresh "Hm" in let Hf := fresh "Hf" in
      destruct (resolve_missing imp c g) as (extra & Hm & Hf);
      destruct (resolve_total imp c g) as [g1 Hr];
      unfold bind at 1; rewrite Hr; rewrite Hr in Hm; cbn [snd] in Hm;
      assert (Forall (fun e => e ∈ mbind hint_entries capability_registry)
                     (MISSING_MODULES g1))
        by (rewrite Hm; apply Forall_app; split; [exact H|];
            eapply Forall_impl; [exact Hf|];
            intros e He; apply list_elem_of_bind; exists c;
            split; [exact He|unfold capability_registry; repeat constructor]);
      clear H Hm Hf Hr extra
  end.
  unfold ret. cbn [snd]. done.
Qed.

(** After the resolution block, started from the initial globals,
    [MISSING_MODULES] holds entries built on the eight file hints
    only; in particular it holds no worker name. *)
Lemma resolved_globals_list_no_worker imp :
  Forall (fun n => n ∉ MISSING_MODULES (snd (resolve_all imp initial_globals)))
         worker_names.
Proof.
  pose proof (resolve_all_missing imp initial_globals (Forall_nil_2 _)) as Hall.
  apply Forall_forall. intros n Hn Hin.
  rewrite Forall_forall in Hall. specialize (Hall n Hin).
  clear Hin. revert n Hn Hall.
  apply (proj1 (Forall_forall
                  (fun n => n ∉ mbind hint_entries capability_registry) worker_names)).
  apply (bool_decide_unpack _). vm_compute. exact I.
Qed.

End SetupClaims.

(** ** The dummy workers *)

Section VoiceListenerFacts.

Import VoiceListenerWorker_Dummy.

Lemma listener_signals_app tr1 tr2 :
  signals_of (tr1 ++ tr2) = signals_of tr1 ++ signals_of tr2.
Proof. apply omap_app. Qed.

Lemma listener_sessions_app l1 l2 :
  sessions (l1 ++ l2) = sessions l1 ++ sessions l2.
Proof. apply omap_app. Qed.

(** One command opens a session, closes one, or does neither,
    according to how it moves the listening flag. *)
Lemma listener_step_sessions self c :
  sessions (signals_of (snd (step self c)))
  = if bool_decide (_is_listening (fst (step self c)) = _is_listening self) then []
    else [_is_listening (fst (step self c))].
Proof.
  destruct self as [b l lang], c; simpl;
    unfold start_listening, stop_listening, _simulate_recognition_if_active;
    simpl; destruct l; reflexivity.
Qed.

(** X1. The dummy listener never reports two starts or two stops in a
    row: in the signals of any sequence of slot calls and timer
    expiries, [listening_started_signal] and
    [listening_stopped_signal] alternate, the first being a start
    when the worker was idle, and the flag [_is_listening] at the end
    tells which came last. *)
Theorem listener_sessions_alternate (cs : list command) (self : obj) :
  alternates (negb (_is_listening self))
             (sessions (signals_of (snd (run self cs))))
  /\ _is_listening (fst (run self cs))
     = default (_is_listening self)
               (last (sessions (signals_of (snd (run self cs))))).
Proof.
  revert self. induction cs as [|c cs IH]; intros self; [done|].
  cbn [run]. pose proof (listener_step_sessions self c) as Hs.
  destruct (step self c) as [self1 tr1]. cbn [fst snd] in Hs.
  destruct (IH self1) as [Halt Hlast].
  destruct (run self1 cs) as [self2 tr2]. cbn [fst snd] in *.
  rewrite listener_signals_app, listener_sessions_app, Hs.
  destruct (bool_decide (_is_listening self1 = _is_listening self)) eqn:E.
  - apply bool_decide_eq_true in E. rewrite <- E. done.
  - apply bool_decide_eq_false in E. cbn [app alternates]. split.
    + split; [by destruct (_is_listening self1), (_is_listening self)|].
      replace (negb (negb (_is_listening self))) with (negb (_is_listening self1));
        [done|]. by destruct (_is_listening self1), (_is_listening self).
    + rewrite Hlast. destruct (sessions (signals_of tr2)) as [|b l]; [done|].
      rewrite last_cons_cons.
      destruct (proj2 (last_is_Some (b :: l)) ltac:(done)) as [x ->]. done.
Qed.

Lemma listener_run_app self cs1 cs2 :
  run self (cs1 ++ cs2)
  = (fst (run (fst (run self cs1)) cs2),
     snd (run self cs1) ++ snd (run (fst (run self cs1)) cs2)).
Proof.
  revert self. induction cs1 as [|c cs1 IH]; intros self.
  - simpl. by destruct (run self cs2).
  - cbn [app run]. destruct (step self c) as [self1 tr1]. rewrite IH.
    destruct (run self1 cs1) as [self2 tr2]. cbn [fst snd].
    by rewrite app_assoc.
Qed.

(** X2. Stopping cancels the simulated recognition: whatever was done
    before, a timer that expires after [stop_listening], before any
    new start, emits nothing, and so do a second stop and a start
    repeated while listening. *)
Theorem listener_stop_silences_timer (cs : list command) (self : obj) :
  let stopped := fst (run self (cs ++ [do_stop_listening])) in
  _is_listening stopped = false
  /\ snd (_simulate_recognition_if_active stopped) = []
  /\ stop_listening stopped = (stopped, [])
  /\ signals_of (snd (start_listening (fst (start_listening stopped)))) = []
  /\ fst (start_listening (fst (start_listening stopped)))
     = fst (start_listening stopped).
Proof.
  cbn zeta. rewrite listener_run_app. cbn [fst].
  set (s := fst (run self cs)).
  assert (H : _is_listening (fst (run s [do_stop_listening])) = false).
  { simpl. unfold stop_listening. by destruct (_is_listening s) eqn:E. }
  set (t := fst (run s [do_stop_listening])) in *.
  split; [done|].
  unfold _simulate_recognition_if_active, stop_listening, start_listening.
  rewrite H. simpl. done.
Qed.

End VoiceListenerFacts.

Section TextFacts.

Lemma lower_char_idempotent c :
  PyText.lower_char (PyText.lower_char c) = PyText.lower_char c.
Proof.
  destruct c as [[] [] [] [] [] [] [] []]; vm_compute; reflexivity.
Qed.

Lemma lower_idempotent s : PyText.lower (PyText.lower s) = PyText.lower s.
Proof.
  induction s as [|c s IH]; [done|]. simpl. by rewrite lower_char_idempotent, IH.
Qed.

(** X3. The dummy emotion analysis ignores case: it emits exactly one
    [emotion_detected], and the same one for a text and for its
    lower-cased form. *)
Theorem emotion_ignores_case (text : string) :
  EmotionWorker_Dummy.analyze_text_emotion (PyText.lower text)
  = EmotionWorker_Dummy.analyze_text_emotion text
  /\ length (EmotionWorker_Dummy.analyze_text_emotion text) = 1%nat.
Proof.
  unfold EmotionWorker_Dummy.analyze_text_emotion.
  rewrite lower_idempotent. split; [done|].
  repeat match goal with |- context [if ?b then _ else _] => destruct b end; done.
Qed.

End TextFacts.

Section InfoFacts.

Import RobotInfoModule_Dummy NLPWorker_Dummy.

Lemma default_answer_marked query :
  PyText.contains "don't have specific information on" (default_answer query) = true.
Proof. unfold default_answer. vm_compute. reflexivity. Qed.

Lemma default_answer_nonempty query : default_answer query <> "".
Proof. unfold default_answer. simpl. discriminate. Qed.

Lemma get_information_some (query : string) :
  exists answer, get_information query = Some answer /\ answer <> "".
Proof.
  unfold get_information.
  repeat match goal with |- context [if ?b then _ else _] => destruct b end;
    eexists; (split; [reflexivity|]);
    first [apply default_answer_nonempty | discriminate].
Qed.

(** X4. [get_information] always answers, and never with the empty
    string: the [None] its signature allows does not occur. *)
Theorem get_information_answers (query : string) :
  exists answer, get_information query = Some answer /\ answer <> "".
Proof. exact (get_information_some query). Qed.

(** X5. The dummy language worker emits exactly one [processing_complete]
    per input.  It passes on what the dummy information module knows,
    as [info_response]; the module's own "I don't have specific
    information" answer is never passed on but replaced by the
    generic reply, as [fallback_info].  The text to speak is never
    empty, is what is displayed, and the input is echoed unchanged. *)
Theorem nlp_dummy_reply (now text : string) :
  exists r,
    process_user_input now text = [r]
    /\ original_input r = text
    /\ timestamp r = now
    /\ display_details r = [("normal", text_to_speak r)]
    /\ text_to_speak r <> ""
    /\ ((type r = "info_response"
         /\ get_information text = Some (text_to_speak r)
         /\ text_to_speak r <> default_answer text)
        \/ (type r = "fallback_info"
            /\ get_information text = Some (default_answer text)
            /\ text_to_speak r = generic_reply text)).
Proof.
  assert (Hne : forall a b : string,
             PyText.contains "don't have specific information on" a = false ->
             PyText.contains "don't have specific information on" b = true -> a <> b).
  { intros a b Ha Hb ->. congruence. }
  assert (Hknown : forall answer : string,
             answer <> "" ->
             PyText.contains "don't have specific information on" answer = false ->
             get_information text = Some answer ->
             exists r,
               process_user_input now text = [r]
               /\ original_input r = text /\ timestamp r = now
               /\ display_details r = [("normal", text_to_speak r)]
               /\ text_to_speak r <> ""
               /\ ((type r = "info_response"
                    /\ get_information text = Some (text_to_speak r)
                    /\ text_to_speak r <> default_answer text)
                   \/ (type r = "fallback_info"
                       /\ get_information text = Some (default_answer text)
                       /\ text_to_speak r = generic_reply text))).
  { intros answer Hnonempty Hplain Hget. unfold process_user_input.
    rewrite Hget, Hplain. unfold PyText.truthy.
    rewrite bool_decide_eq_false_2 by done. cbn [negb orb default].
    eexists. split; [reflexivity|]. cbn [original_input timestamp display_details
                                          text_to_speak type].
    do 3 (split; [reflexivity|]). split; [done|]. left.
    do 2 (split; [reflexivity|]). apply Hne; [done|apply default_answer_marked]. }
  destruct (get_information_some text) as (answer & Hget & Hnonempty).
  destruct (PyText.contains "don't have specific information on" answer) eqn:Hmark.
  - assert (Hdef : answer = default_answer text).
    { revert Hget Hmark. unfold get_information.
      repeat match goal with |- context [if ?b then _ else _] => destruct b end;
        intros [= <-]; try reflexivity; vm_compute; discriminate. }
    subst answer. unfold process_user_input. rewrite Hget, Hmark, orb_true_r.
    eexists. split; [reflexivity|]. cbn [original_input timestamp display_details
                                          text_to_speak type].
    do 3 (split; [reflexivity|]). split; [discriminate|]. right. done.
  - by apply (Hknown answer).
Qed.

End InfoFacts.

Section SpeakFacts.

Import TTSWorker_Dummy.

Lemma string_app_cons (x : Ascii.ascii) (a b : string) :
  String x a +:+ b = String x (a +:+ b).
Proof. reflexivity. Qed.

Lemma string_app_assoc (a b c : string) : (a +:+ b) +:+ c = a +:+ (b +:+ c).
Proof.
  induction a as [|x a IH]; [done|]. rewrite !string_app_cons. by rewrite IH.
Qed.

Lemma string_app_empty_r (a : string) : a +:+ "" = a.
Proof. induction a as [|x a IH]; [done|]. rewrite string_app_cons. by rewrite IH. Qed.

Lemma substring_skip (pre s : string) (n : nat) :
  String.substring (String.length pre) n (pre +:+ s) = String.substring 0 n s.
Proof.
  induction pre as [|x pre IH]; [done|]. rewrite string_app_cons. simpl. apply IH.
Qed.

Lemma substring_take (w t : string) :
  String.substring 0 (String.length w) (w +:+ t) = w.
Proof.
  induction w as [|x w IH].
  - simpl. by destruct t.
  - rewrite string_app_cons. simpl. by rewrite IH.
Qed.

Lemma string_length_app (a b : string) :
  String.length (a +:+ b) = (String.length a + String.length b)%nat.
Proof.
  induction a as [|x a IH]; [done|]. rewrite string_app_cons. simpl. by rewrite IH.
Qed.

(** Every word-boundary timer of the loop of [speak] carries a word,
    its length, and the position the word has in the words joined by
    single spaces, [pre] being what was joined so far. *)
Lemma schedule_words_located words : forall i char_pos pre d w q l,
  Z.of_nat (String.length pre) = char_pos ->
  singleShot d (speech_word_boundary w q l) ∈ schedule_words words i char_pos ->
  l = PyStr.len w
  /\ 0 <= q
  /\ String.substring (Z.to_nat q) (String.length w) (pre +:+ PyText.join " " words) = w.
Proof.
  induction words as [|w0 words IH]; intros i p pre d w q l Hpre Hin.
  - by apply elem_of_nil in Hin.
  - cbn [schedule_words] in Hin. apply elem_of_cons in Hin as [Heq|Hin].
    + injection Heq as _ -> -> ->. split; [done|]. split; [lia|].
      rewrite <- Hpre, Nat2Z.id.
      destruct words as [|w1 words]; cbn [PyText.join].
      * rewrite substring_skip. rewrite <- (string_app_empty_r w0) at 2.
        apply substring_take.
      * rewrite substring_skip. apply substring_take.
    + destruct words as [|w1 words]; [by apply elem_of_nil in Hin|].
      change (PyText.join " " (w0 :: w1 :: words))
        with (w0 +:+ " " +:+ PyText.join " " (w1 :: words)).
      rewrite <- !string_app_assoc. rewrite (string_app_assoc pre w0 " ").
      apply (IH (i + 1) (p + PyStr.len w0 + 1) (pre +:+ (w0 +:+ " ")) d); [|exact Hin].
      rewrite !string_length_app. unfold PyStr.len. simpl. lia.
Qed.

(** X6. The positions [speak] reports with [speech_word_boundary] are
    positions in the words of the text joined by single spaces: the
    reported word is found there with the reported length. *)
Theorem speak_word_positions (self : BaseWorkerDummy.obj) (text : string)
    (d : Z) (w : string) (q l : Z) :
  singleShot d (speech_word_boundary w q l) ∈ snd (speak self text) ->
  l = PyStr.len w
  /\ 0 <= q
  /\ String.substring (Z.to_nat q) (String.length w)
       (PyText.join " " (PyStr.split text)) = w.
Proof.
  unfold speak. cbn [snd]. intros Hin.
  apply elem_of_app in Hin as [Hin|Hin].
  { unfold BaseWorkerDummy.log_dummy_call in Hin.
    apply list_elem_of_singleton in Hin. discriminate Hin. }
  apply elem_of_app in Hin as [Hin|Hin].
  { apply list_elem_of_singleton in Hin. discriminate Hin. }
  apply elem_of_app in Hin as [Hin|Hin].
  - apply (schedule_words_located (PyStr.split text) 0 0 "" d w q l eq_refl Hin).
  - apply list_elem_of_singleton in Hin. discriminate Hin.
Qed.

Lemma speak_word_positions_witness :
  String.substring 6 5 (PyText.join " " (PyStr.split "hello   robot")) = "robot".
Proof.
  refine (proj2 (proj2 (speak_word_positions __init__ "hello   robot" 300 "robot" 6 5 _))).
  vm_compute. do 3 apply list_elem_of_further. apply list_elem_of_here.
Defined.

(** X7. [stop_speaking] does not cancel the timers of a [speak] in
    progress: interrupting a speech at once reports
    [speech_finished] with the interruption marker, and the word
    boundaries and the [speech_finished] of the interrupted text are
    still delivered afterwards. *)
Theorem stop_speaking_does_not_cancel (self : BaseWorkerDummy.obj) (text : string) :
  observed (snd (speak self text) ++ snd (stop_speaking self))
  = speech_started text
    :: speech_finished "(Dummy TTS Speech Interrupted)"
    :: word_boundaries (PyStr.split text) 0 ++ [speech_finished text].
Proof.
  set (late := (Z.of_nat (length (PyStr.split text)) * delay_ms_per_word
                + delay_ms_per_word, speech_finished text)).
  assert (Hsig : signals_of (snd (speak self text) ++ snd (stop_speaking self))
                 = [speech_started text;
                    speech_finished "(Dummy TTS Speech Interrupted)"]).
  { unfold speak, stop_speaking. cbn [snd].
    rewrite !signals_of_app, schedule_words_signals. done. }
  assert (Htim : timers_of (snd (speak self text) ++ snd (stop_speaking self))
                 = timers_of (schedule_words (PyStr.split text) 0 0) ++ [late]).
  { unfold speak, stop_speaking. cbn [snd]. rewrite !timers_of_app.
    cbn [timers_of omap BaseWorkerDummy.log_dummy_call app].
    change (omap _ [Log _]) with (@nil (Z * signal)).
    change (omap _ [Emit _]) with (@nil (Z * signal)).
    change (omap _ [singleShot _ _]) with [late].
    by rewrite !app_nil_r. }
  unfold observed. rewrite Hsig, Htim, fire_order_ascending.
  - rewrite map_app, schedule_words_timers. done.
  - apply schedule_words_ascending. unfold delay_ms_per_word. lia.
Qed.

End SpeakFacts.

(** ** More on the module resolver *)

Section ImportFacts.

Import Resolver ImportReport.

Lemma string_app_longer (s t : string) : t <> "" -> s <> s +:+ t.
Proof.
  intros Ht H. apply (f_equal String.length) in H.
  rewrite string_length_app in H. destruct t; [done|]. simpl in H. lia.
Qed.

(** X8. A module that cannot be imported is listed once, however often
    the import is tried: a second [_try_import] that fails with
    [ImportError] returns [(None, False)] again and leaves the
    globals as the first call left them. *)
Theorem try_import_error_listed_once imp module_name items file_hint g e :
  imp module_name = ImportFails e -> is_ImportError e = true ->
  let once := _try_import imp module_name items file_hint g in
  let twice := _try_import imp module_name items file_hint (snd once) in
  fst once = Ok (None, false)
  /\ twice = once
  /\ file_hint ∈ MISSING_MODULES (snd once)
  /\ (file_hint ∉ MISSING_MODULES g ->
      MISSING_MODULES (snd once) = MISSING_MODULES g ++ [file_hint]).
Proof.
  intros Himp He. cbn zeta.
  assert (Hcall : forall g0,
             _try_import imp module_name items file_hint g0
             = (Ok (None, false),
                {| MODULE_IMPORTS_OK := false;
                   MISSING_MODULES :=
                     if bool_decide (file_hint ∈ MISSING_MODULES g0)
                     then MISSING_MODULES g0
                     else MISSING_MODULES g0 ++ [file_hint] |})).
  { intros g0. unfold _try_import, try_except, try_import_body, py_import.
    rewrite Himp. unfold bind at 1. unfold raise. rewrite He.
    unfold bind, set_imports_ok. rewrite append_missing_unless_listed_spec. done. }
  rewrite !Hcall. cbn [fst snd MISSING_MODULES].
  assert (Hin : file_hint ∈ (if bool_decide (file_hint ∈ MISSING_MODULES g)
                             then MISSING_MODULES g
                             else MISSING_MODULES g ++ [file_hint])).
  { destruct (bool_decide (file_hint ∈ MISSING_MODULES g)) eqn:E.
    - by apply bool_decide_eq_true in E.
    - apply elem_of_app. right. by apply list_elem_of_singleton. }
  split; [done|]. split; [|split; [done|]].
  - by rewrite (bool_decide_eq_true_2 _ Hin).
  - intros Hfresh. by rewrite (bool_decide_eq_false_2 _ Hfresh).
Qed.

Lemma try_import_error_listed_once_witness :
  MISSING_MODULES
    (snd (_try_import Samples.bare_importer "nlp_worker_v2" ["NLPWorker"]
            "nlp_worker_v2.py"
            (snd (_try_import Samples.bare_importer "nlp_worker_v2" ["NLPWorker"]
                    "nlp_worker_v2.py" initial_globals))))
  = ["nlp_worker_v2.py"].
Proof.
  destruct (try_import_error_listed_once Samples.bare_importer "nlp_worker_v2"
              ["NLPWorker"] "nlp_worker_v2.py" initial_globals ModuleNotFoundError
              eq_refl eq_refl) as (_ & H2 & _ & _).
  rewrite H2. reflexivity.
Defined.

(** X9. A module that loads without a requested member is listed again
    at every try: the guard looks for the bare file hint while the
    entry appended is the annotated one, so two calls leave two equal
    entries. *)
Theorem try_import_partial_listed_twice imp module_name items file_hint g attrs item :
  imp module_name = Loaded attrs -> item ∈ items -> attrs !! item = None ->
  file_hint ∉ MISSING_MODULES g ->
  let once := _try_import imp module_name items file_hint g in
  let twice := _try_import imp module_name items file_hint (snd once) in
  MISSING_MODULES (snd twice)
  = MISSING_MODULES g
    ++ [file_hint +:+ " (item missing within module)";
        file_hint +:+ " (item missing within module)"].
Proof.
  intros Himp Hin Hnone Hfresh. cbn zeta.
  rewrite !(try_import_partial _ _ _ _ _ _ _ Himp Hin Hnone). cbn [snd MISSING_MODULES].
  rewrite (bool_decide_eq_false_2 _ Hfresh).
  rewrite bool_decide_eq_false_2.
  - by rewrite <- app_assoc.
  - intros H. apply elem_of_app in H as [H|H]; [done|].
    apply list_elem_of_singleton in H. by apply string_app_longer in H.
Qed.

Lemma try_import_partial_listed_twice_witness :
  MISSING_MODULES
    (snd (_try_import Samples.partial_importer "voice_output_v2" ["TTSWorker"; "TTSVoice"]
            "voice_output_v2.py"
            (snd (_try_import Samples.partial_importer "voice_output_v2"
                    ["TTSWorker"; "TTSVoice"] "voice_output_v2.py" initial_globals))))
  = ["voice_output_v2.py (item missing within module)";
     "voice_output_v2.py (item missing within module)"].
Proof.
  apply (try_import_partial_listed_twice Samples.partial_importer "voice_output_v2"
           ["TTSWorker"; "TTSVoice"] "voice_output_v2.py" initial_globals
           {[ "TTSWorker" := mkClass "TTSWorker" "voice_output_v2" ]} "TTSVoice").
  - reflexivity.
  - do 1 apply list_elem_of_further. apply list_elem_of_here.
  - vm_compute. reflexivity.
  - apply not_elem_of_nil.
Defined.

Lemma scan_items_all_found module items : forall acc,
  snd acc = true ->
  (forall i, i ∈ items -> is_Some (module !! i)) ->
  snd (scan_items module items acc) = true
  /\ forall k, fst (scan_items module items acc) !! k
               = if bool_decide (k ∈ items) then module !! k else fst acc !! k.
Proof.
  induction items as [|i items IH]; intros acc Hacc Hall.
  - split; [done|]. intros k. rewrite bool_decide_eq_false_2; [done|apply not_elem_of_nil].
  - destruct (Hall i) as [v Hv]; [apply list_elem_of_here|].
    cbn [scan_items]. rewrite Hv.
    destruct (IH (<[i := v]> (fst acc), snd acc)) as [Hflag Hget]; [done| |].
    { intros j Hj. apply Hall. by apply list_elem_of_further. }
    split; [done|]. intros k. rewrite Hget. cbn [fst].
    destruct (decide (k = i)) as [->|Hne].
    + rewrite (bool_decide_eq_true_2 (i ∈ i :: items)) by apply list_elem_of_here.
      destruct (bool_decide (i ∈ items)); [done|]. by rewrite lookup_insert_eq.
    + rewrite lookup_insert_ne by done.
      rewrite (bool_decide_ext (k ∈ i :: items) (k ∈ items)); [done|].
      rewrite elem_of_cons. split; [|by right]. intros [?|?]; done.
Qed.

(** X10. [_try_import] hands back the real members exactly when the module
    loads, at least one member is requested and every requested
    member is there: the dictionary then maps each requested name to
    the module's value and nothing else, and the globals are not
    touched.  With an empty request it reports failure although the
    module loaded, and records nothing. *)
Theorem try_import_success imp module_name items file_hint g attrs :
  imp module_name = Loaded attrs ->
  (forall i, i ∈ items -> is_Some (attrs !! i)) ->
  match items with
  | [] => _try_import imp module_name items file_hint g = (Ok (None, false), g)
  | _ :: _ =>
      exists d, _try_import imp module_name items file_hint g = (Ok (Some d, true), g)
        /\ forall k, d !! k = if bool_decide (k ∈ items) then attrs !! k else None
  end.
Proof.
  intros Himp Hall.
  unfold _try_import, try_except, try_import_body, py_import. rewrite Himp.
  unfold bind, ret. cbv beta iota.
  destruct items as [|i items].
  - cbn [scan_items negb andb]. unfold dict_truthy.
    rewrite bool_decide_eq_false_2 by (intros H; by apply H). by destruct g.
  - pose proof (scan_items_all_found attrs (i :: items) (∅, true) eq_refl Hall)
      as [Hflag Hget].
    destruct (scan_items attrs (i :: items) (∅, true)) as [imported flag].
    cbn [fst snd] in *. subst flag. cbn [negb andb].
    assert (Ht : dict_truthy imported = true).
    { apply bool_decide_eq_true. intros ->.
      specialize (Hget i). rewrite lookup_empty in Hget.
      rewrite bool_decide_eq_true_2 in Hget by apply list_elem_of_here.
      destruct (Hall i) as [v Hv]; [apply list_elem_of_here|]. congruence. }
    rewrite Ht. destruct g. exists imported. split; [done|].
    intros k. rewrite Hget. by destruct (bool_decide _).
Qed.

Lemma try_import_success_witness :
  exists d,
    _try_import Samples.tts_only_importer "voice_output_v2" ["TTSWorker"]
      "voice_output_v2.py" initial_globals = (Ok (Some d, true), initial_globals)
    /\ d !! "TTSWorker" = Some (mkClass "TTSWorker" "voice_output_v2").
Proof.
  destruct (try_import_success Samples.tts_only_importer "voice_output_v2" ["TTSWorker"]
              "voice_output_v2.py" initial_globals
              {[ "TTSWorker" := mkClass "TTSWorker" "voice_output_v2" ]} eq_refl)
    as (d & Hd & Hk).
  { intros i Hi. apply list_elem_of_singleton in Hi. subst i.
    exists (mkClass "TTSWorker" "voice_output_v2"). reflexivity. }
  exists d. split; [exact Hd|]. rewrite Hk. reflexivity.
Defined.

End ImportFacts.

Section ReportFacts.

Import Resolver ImportReport.

Lemma resolve_state imp c g :
  cap_hint c ∉ MISSING_MODULES g ->
  resolve imp c g
  = (Ok (expected_binding imp c),
     {| MODULE_IMPORTS_OK :=
          MODULE_IMPORTS_OK g && bool_decide (failure_entry imp c = None);
        MISSING_MODULES := MISSING_MODULES g ++ entry_list (failure_entry imp c) |}).
Proof.
  intros Hfresh.
  unfold resolve, expected_binding, failure_entry, _try_import, try_except,
    try_import_body, py_import.
  destruct (imp (cap_module c)) as [attrs|e].
  - unfold bind at 2. unfold ret at 1. simpl.
    destruct (attrs !! cap_item c) as [cls|] eqn:E; simpl.
    + unfold bind, ret. simpl.
      assert (Ht : dict_truthy (<[cap_item c := cls]> (∅ : gmap string PyClass)) = true).
      { apply bool_decide_eq_true. apply insert_non_empty. }
      rewrite Ht. simpl. rewrite Ht. unfold getitem, ret.
      rewrite lookup_insert_eq. destruct g as [ok l]. simpl.
      by rewrite andb_true_r, app_nil_r.
    + unfold bind. rewrite append_missing_unless_listed_spec.
      unfold set_imports_ok, ret. simpl.
      by rewrite (bool_decide_eq_false_2 _ Hfresh), andb_false_r.
  - unfold bind at 1. unfold raise. simpl.
    destruct (is_ImportError e); unfold bind, set_imports_ok;
      rewrite append_missing_unless_listed_spec; unfold ret; simpl;
      by rewrite (bool_decide_eq_false_2 _ Hfresh), andb_false_r.
Qed.

Lemma failure_entry_hint imp c e :
  failure_entry imp c = Some e -> e ∈ hint_entries c.
Proof.
  unfold failure_entry, hint_entries.
  destruct (imp (cap_module c)) as [attrs|x].
  - destruct (attrs !! cap_item c); intros [= <-].
    apply list_elem_of_further, list_elem_of_here.
  - destruct (is_ImportError x); intros [= <-].
    + apply list_elem_of_here.
    + do 2 apply list_elem_of_further. apply list_elem_of_here.
Qed.

(** One more capability resolved. *)
Lemma resolve_report_step imp done c :
  Forall (fun c' => cap_hint c ∉ hint_entries c') done ->
  resolve imp c (report_state imp done)
  = (Ok (expected_binding imp c), report_state imp (done ++ [c])).
Proof.
  intros Hfresh. rewrite resolve_state.
  - unfold report_state. cbn [MODULE_IMPORTS_OK MISSING_MODULES].
    rewrite forallb_app, omap_app. cbn [forallb omap].
    rewrite andb_true_r. unfold entry_list.
    change (list_omap Capability string (failure_entry imp) [c])
      with (match failure_entry imp c with Some e => [e] | None => [] end).
    done.
  - unfold report_state. cbn [MISSING_MODULES]. intros Hin.
    apply list_elem_of_omap in Hin as (c' & Hc' & He).
    rewrite Forall_forall in Hfresh. apply (Hfresh c' Hc').
    by apply failure_entry_hint in He.
Qed.

(** X11. After the resolution block of the module, [MISSING_MODULES]
    holds exactly one entry for each capability that fell back to
    its dummy, in the order of the block, and [MODULE_IMPORTS_OK] is
    true exactly when the list is empty.  So the start-up check
    shows either the list of failed modules or "all loaded"; its
    middle branch, for a cleared flag with an empty list, is never
    taken. *)
Theorem module_resolution_report (imp : Importer) :
  let g := snd (resolve_all imp initial_globals) in
  MISSING_MODULES g = omap (failure_entry imp) capability_registry
  /\ MODULE_IMPORTS_OK g = bool_decide (MISSING_MODULES g = [])
  /\ check_module_import_status_and_notify g
     = (if MODULE_IMPORTS_OK g then all_loaded 5000
        else modules_failed (PyText.join ", " (MISSING_MODULES g)) 15000).
Proof.
  assert (Hfinal : snd (resolve_all imp initial_globals)
                   = report_state imp capability_registry).
  { unfold resolve_all. change initial_globals with (report_state imp []).
    repeat match goal with
    | |- context [bind (resolve imp ?c) _ (report_state imp ?done)] =>
        unfold bind at 1;
        rewrite (resolve_report_step imp done c)
          by (apply (bool_decide_unpack _); vm_compute; exact I);
        cbn [app]
    end.
    reflexivity. }
  cbn zeta. rewrite Hfinal. unfold report_state.
  cbn [MISSING_MODULES MODULE_IMPORTS_OK].
  assert (Hflag : forall l,
             forallb (fun c => bool_decide (failure_entry imp c = None)) l
             = bool_decide (omap (failure_entry imp) l = [])).
  { induction l as [|c l IH]; [done|]. cbn [forallb].
    change (omap (failure_entry imp) (c :: l))
      with (match failure_entry imp c with
            | Some e => e :: omap (failure_entry imp) l
            | None => omap (failure_entry imp) l
            end).
    destruct (failure_entry imp c).
    - by rewrite !bool_decide_eq_false_2.
    - by rewrite bool_decide_eq_true_2. }
  split; [done|]. split; [apply Hflag|].
  unfold check_module_import_status_and_notify. cbn [MISSING_MODULES MODULE_IMPORTS_OK].
  rewrite Hflag.
  destruct (omap (failure_entry imp) capability_registry); done.
Qed.

End ReportFacts.

(** ** More on the camera worker *)

Section CameraFacts.

Import CameraWorker CameraInvariant.

(** X12. [run] forgets a [stop] that came before it: it sets the running
    flag again before the loop (line 845), so when the device opens
    a worker stopped beforehand runs exactly as one that was not. *)
Theorem run_overrides_earlier_stop (env : Env) (self : obj) (turns : list Iteration) :
  CV2_AVAILABLE env = true -> open_succeeds env = true ->
  run env (fst (stop self)) turns = run env self turns
  /\ _is_running (fst (stop self)) = false.
Proof.
  intros Hcv Hop. split; [|by destruct self as [[n r] ? ? ? ? ? ?]].
  unfold run. rewrite Hcv, Hop. cbn [negb].
  by destruct self as [[n r] ? ? ? ? ? ?].
Qed.

Lemma run_overrides_earlier_stop_witness :
  run Samples.camera_present
      (fst (stop (__init__ Samples.default_camera_config)))
      Samples.two_frames_then_stop
  = run Samples.camera_present (__init__ Samples.default_camera_config)
        Samples.two_frames_then_stop.
Proof.
  apply (run_overrides_earlier_stop Samples.camera_present
           (__init__ Samples.default_camera_config) Samples.two_frames_then_stop);
    reflexivity.
Defined.

Lemma apply_filter_raw env self it frame :
  frame_raw (snd (_apply_filter_to_frame env self it frame)) = frame_raw frame.
Proof.
  unfold _apply_filter_to_frame.
  destruct (negb (NUMPY_AVAILABLE env) || negb (CV2_AVAILABLE env)); [done|].
  destruct (current_filter_key self ≫= _) as [[f|]|]; [|done..].
  by destruct (filter_ok it).
Qed.

Lemma apply_filter_key env self it frame :
  current_filter_key (fst (_apply_filter_to_frame env self it frame))
  = current_filter_key self.
Proof.
  unfold _apply_filter_to_frame.
  destruct (negb (NUMPY_AVAILABLE env) || negb (CV2_AVAILABLE env)).
  - by destruct (_filter_warning_logged self).
  - destruct (current_filter_key self ≫= _) as [[f|]|]; [|done..].
    by destruct (filter_ok it).
Qed.

Lemma stop_key self : current_filter_key (fst (stop self)) = current_filter_key self.
Proof. by destruct self as [[n r] ? ? ? ? ? ?]. Qed.

(** What the capture loop emits: [frame_ready] signals only, each
    carrying an image that a successful read returned; and it is
    left only with the running flag cleared. *)
Lemma capture_loop_frames env turns : forall self,
  exists frames,
    signals_of (fst (fst (capture_loop env self turns))) = map frame_ready frames
    /\ Forall (grabbed_in turns) frames
    /\ (length frames <= length turns)%nat
    /\ (snd (capture_loop env self turns) = true ->
        _is_running (snd (fst (capture_loop env self turns))) = false)
    /\ current_filter_key (snd (fst (capture_loop env self turns)))
       = current_filter_key self.
Proof.
  induction turns as [|it turns IH]; intros self.
  - exists []. simpl. destruct (_is_running self) eqn:E; simpl;
      (split; [done|]; split; [done|]; split; [done|]; split; [|done]);
      [done|intros _; exact E].
  - rewrite capture_loop_cons.
    destruct (_is_running self) eqn:Erun; cbn [negb].
    2:{ exists []. cbn [fst snd].
        split; [done|]. split; [done|]. split; [simpl; lia|]. done. }
    destruct (read_ret it) eqn:Eread; cbn [negb].
    2:{ exists []. cbn [fst snd].
        split; [done|]. split; [done|]. split; [simpl; lia|].
        split; [|done]. by destruct self as [[n r] ? ? ? ? ? ?]. }
    destruct (if filter_selected self
              then _apply_filter_to_frame env self it (read_frame it)
              else (self, read_frame it)) as [self1 frame] eqn:E1.
    assert (Hraw : frame_raw frame = frame_raw (read_frame it)).
    { destruct (filter_selected self).
      - rewrite <- (apply_filter_raw env self it (read_frame it)). by rewrite E1.
      - by injection E1 as _ <-. }
    assert (Hkey1 : current_filter_key self1 = current_filter_key self).
    { destruct (filter_selected self).
      - rewrite <- (apply_filter_key env self it (read_frame it)). by rewrite E1.
      - by injection E1 as <- _. }
    cbv zeta.
    assert (Hkey2 : current_filter_key
                      (if stop_requested it then fst (stop self1) else self1)
                    = current_filter_key self).
    { destruct (stop_requested it); [rewrite stop_key|]; done. }
    destruct (IH (if stop_requested it then fst (stop self1) else self1))
      as (frames & Hsig & Hgrab & Hlen & Hexit & Hkey).
    destruct (capture_loop env
                (if stop_requested it then fst (stop self1) else self1) turns)
      as [[tr self3] exited].
    cbn [fst snd] in *. exists (frame :: frames).
    split; [cbn [app]; simpl; by rewrite <- Hsig|].
    split.
    { constructor.
      - exists it. split; [apply list_elem_of_here|done].
      - eapply Forall_impl; [exact Hgrab|].
        intros f (it' & Hin & ? & ?). exists it'.
        split; [by apply list_elem_of_further|done]. }
    split; [simpl; lia|]. split; [done|congruence].
Qed.

(** X13. Once the camera has opened, what [run] emits is "Camera stream
    started.", then only [frame_ready] signals, each carrying an
    image that a successful read returned, at most one per turn,
    and, when the loop is left, "Camera stream stopped." and
    [finished]; no [error] is emitted.  The worker then has its
    running flag cleared and holds no capture. *)
Theorem run_stream_shape (env : Env) (self : obj) (turns : list Iteration) :
  CV2_AVAILABLE env = true -> open_succeeds env = true ->
  exists frames,
    signals_of (fst (fst (run env self turns)))
    = status_update "Camera stream started." 2000
      :: map frame_ready frames
      ++ match snd (run env self turns) with
         | Returned => [status_update "Camera stream stopped." 2000; finished]
         | Looping => []
         end
    /\ Forall (grabbed_in turns) frames
    /\ (length frames <= length turns)%nat
    /\ (snd (run env self turns) = Returned ->
        _is_running (snd (fst (run env self turns))) = false
        /\ cap (snd (fst (run env self turns))) = None).
Proof.
  intros Hcv Hop. unfold run. rewrite Hcv, Hop. cbn [negb].
  set (self2 := set_base _ _).
  destruct (capture_loop_frames env turns self2) as (frames & Hsig & Hgrab & Hlen & Hexit & _).
  destruct (capture_loop_quiet env turns self2) as [_ Hcap].
  destruct (capture_loop env self2 turns) as [[tr self3] exited].
  cbn [fst snd] in *. exists frames.
  assert (Hcap3 : cap self3 = Some {| cap_index := camera_index self;
                                      cap_isOpened := true |}).
  { rewrite Hcap. subst self2. done. }
  destruct exited.
  - rewrite Hcap3. cbn [fst snd].
    split.
    { rewrite !signals_of_app, Hsig.
      generalize (map frame_ready frames). intros l. reflexivity. }
    split; [done|]. split; [done|]. intros _. split; [|done].
    specialize (Hexit eq_refl). by destruct self3 as [[n r] ? ? ? ? ? ?].
  - cbn [fst snd]. split.
    { rewrite !signals_of_app, Hsig.
      generalize (map frame_ready frames). intros l. simpl. by rewrite app_nil_r. }
    split; [done|]. split; [done|]. intros [=].
Qed.

Lemma run_stream_shape_witness :
  exists frames,
    signals_of (fst (fst (run Samples.camera_present
                            (__init__ Samples.default_camera_config)
                            Samples.two_frames_then_stop)))
    = status_update "Camera stream started." 2000
      :: map frame_ready frames
      ++ [status_update "Camera stream stopped." 2000; finished]
    /\ (length frames <= 2)%nat.
Proof.
  destruct (run_stream_shape Samples.camera_present
              (__init__ Samples.default_camera_config)
              Samples.two_frames_then_stop eq_refl eq_refl)
    as (frames & H & _ & Hlen & _).
  exists frames. split; [exact H|exact Hlen].
Defined.

(** X14. The current filter key of a camera worker is always a key of
    [RAW_CAMERA_FILTERS]: it is one after construction, and
    [set_filter] with any argument, [stop] and [run] keep it one.  So
    the look-up in [_apply_filter_to_frame] never misses. *)
Theorem filter_key_stays_valid (env : Env) (self : obj) (filter_key : string)
    (turns : list Iteration) :
  valid_filter_key self ->
  valid_filter_key (fst (set_filter self filter_key))
  /\ valid_filter_key (fst (stop self))
  /\ valid_filter_key (snd (fst (run env self turns)))
  /\ (forall cfg, valid_filter_key (__init__ cfg))
  /\ (exists name,
        current_filter_key self ≫= (fun k => RAW_CAMERA_FILTERS !! k) = Some name).
Proof.
  intros (k & Hk & Hdom). split; [|split; [|split; [|split]]].
  - unfold set_filter.
    destruct (bool_decide (filter_key ∈ dom RAW_CAMERA_FILTERS)) eqn:E.
    + exists filter_key. split; [done|]. by apply bool_decide_eq_true in E.
    + by exists k.
  - exists k. by rewrite stop_key.
  - exists k. split; [|done]. rewrite <- Hk. unfold run.
    destruct (CV2_AVAILABLE env); cbn [negb]; [|done].
    destruct (open_succeeds env); cbn [negb]; [|done].
    set (self2 := set_base _ _).
    destruct (capture_loop_frames env turns self2) as (frames & _ & _ & _ & _ & Hkey).
    destruct (capture_loop env self2 turns) as [[tr self3] exited].
    cbn [fst snd] in *. destruct exited; cbn [fst snd]; [|done].
    by destruct (cap self3).
  - intros cfg. exists "None". split; [done|].
    apply (bool_decide_unpack _). vm_compute. exact I.
  - rewrite Hk. cbn. apply elem_of_dom in Hdom as [name Hname]. eauto.
Qed.

Lemma filter_key_stays_valid_witness :
  valid_filter_key
    (fst (set_filter (__init__ Samples.default_camera_config) "no such filter")).
Proof.
  refine (proj1 (filter_key_stays_valid Samples.camera_present
                   (__init__ Samples.default_camera_config) "no such filter" [] _)).
  exists "None". split; [reflexivity|].
  apply (bool_decide_unpack _). vm_compute. exact I.
Defined.

End CameraFacts.

(** ** More on set-up and shut-down *)

Section SupervisorFacts.

Import Resolver MainWindow.

Lemma stop_workers_graceful tenv workers :
  (forall n, isRunning tenv n = true -> wait tenv n 2500 = true) ->
  count_if is_terminate (stop_workers tenv workers) = 0
  /\ count_if (is_wait 1000) (stop_workers tenv workers) = 0
  /\ wait_budget (stop_workers tenv workers) <= Z.of_nat (length workers) * 2500.
Proof.
  intros Hgrace. induction workers as [|[name h] workers IH]; [simpl; lia|].
  cbn [stop_workers]. rewrite !count_if_app, !wait_budget_app.
  destruct (request_stop_no_wait name h) as (_ & -> & -> & ->).
  rewrite length_cons, Nat2Z.inj_succ. unfold stop_thread.
  destruct (thread h) as [t|]; [|simpl; lia].
  destruct (isRunning tenv (objectName t)) eqn:Erun; [|simpl; lia].
  rewrite (Hgrace _ Erun). simpl. lia.
Qed.

(** X15. A thread that finishes within the first wait is never
    terminated: if every running thread answers [wait(2500)] in
    time, [closeEvent] calls neither [terminate] nor the second
    wait; it waits once on every running thread and is blocked for
    at most 2500 ms per worker. *)
Theorem closeEvent_graceful (tenv : ThreadEnv) (self : obj) :
  (forall n, isRunning tenv n = true -> wait tenv n 2500 = true) ->
  count_if is_terminate (fst (closeEvent tenv self)) = 0
  /\ count_if (is_wait 1000) (fst (closeEvent tenv self)) = 0
  /\ count_if (is_wait 2500) (fst (closeEvent tenv self))
     = count_if (fun nh => thread_running tenv (snd nh)) (workers self)
  /\ wait_budget (fst (closeEvent tenv self))
     <= Z.of_nat (length (workers self)) * 2500.
Proof.
  intros Hgrace.
  destruct (closeEvent_counts tenv self) as (Hw & -> & ->).
  rewrite !Hw.
  destruct (stop_workers_graceful tenv (workers self) Hgrace) as (H1 & H2 & H3).
  destruct (stop_workers_counts tenv (workers self)) as (C1 & _).
  done.
Qed.

Lemma closeEvent_graceful_witness :
  count_if is_terminate
    (fst (closeEvent Samples.graceful_threads Samples.window_with_two_workers)) = 0
  /\ count_if (is_wait 2500)
       (fst (closeEvent Samples.graceful_threads Samples.window_with_two_workers)) = 2
  /\ fst (closeEvent Samples.graceful_threads Samples.window_with_two_workers)
     = [ invokeMethod "tts" "shutdown";
         thread_quit "ttsThread"; thread_wait "ttsThread" 2500;
         invokeMethod "camera" "shutdown";
         thread_quit "cameraThread"; thread_wait "cameraThread" 2500;
         save_settings; event_accept ].
Proof.
  split; [|split; reflexivity].
  apply (closeEvent_graceful Samples.graceful_threads Samples.window_with_two_workers).
  intros n _. reflexivity.
Defined.

(** X16. The probing of the constructor's arity (lines 2584-2592) stops
    at the largest number of arguments, from [n] down, for which the
    call does not raise [TypeError], and gives what that call gives:
    its instance, or its exception.  An exception other than
    [TypeError] at that arity ends the probing even if a smaller
    arity would have been accepted. *)
Theorem instantiate_by_arity_first_accepted (env : Env) (cls : PyClass)
    (n k : nat) (r : result Instance) :
  (1 <= k <= n)%nat ->
  construct env cls (mkCall k []) = r ->
  r <> Raise TypeError ->
  (forall j, (k < j <= n)%nat -> construct env cls (mkCall j []) = Raise TypeError) ->
  instantiate_by_arity env cls n
  = match r with
    | Ok inst => Ok (Some inst)
    | Raise e => Raise e
    end.
Proof.
  intros Hk Hr Hnot Habove. induction n as [|n IH]; [lia|].
  cbn [instantiate_by_arity].
  destruct (decide (k = S n)) as [->|Hne].
  - rewrite Hr. destruct r as [inst|e]; [done|]. simpl. unfold on_TypeError.
    destruct e; done.
  - rewrite (Habove (S n)) by lia. simpl. apply IH; [lia|].
    intros j Hj. apply Habove. lia.
Qed.

Lemma instantiate_by_arity_first_accepted_witness :
  instantiate_by_arity Samples.two_argument_env VoiceListenerWorker_Dummy 6
  = Ok (Some (Samples.qobject_worker VoiceListenerWorker_Dummy)).
Proof.
  apply (instantiate_by_arity_first_accepted Samples.two_argument_env
           VoiceListenerWorker_Dummy 6 2
           (Ok (Samples.qobject_worker VoiceListenerWorker_Dummy))).
  - lia.
  - reflexivity.
  - discriminate.
  - intros j Hj. unfold Samples.two_argument_env. cbn [construct n_positional].
    rewrite bool_decide_eq_false_2; [reflexivity|lia].
Defined.

(** When no arity from [n] down to 1 is accepted the probing gives
    [None], and the caller falls back to the call without
    arguments. *)
Lemma instantiate_by_arity_none env cls n :
  (forall j, (1 <= j <= n)%nat -> construct env cls (mkCall j []) = Raise TypeError) ->
  instantiate_by_arity env cls n = Ok None.
Proof.
  induction n as [|n IH]; intros H; [done|].
  cbn [instantiate_by_arity]. rewrite H by lia. simpl. apply IH.
  intros j Hj. apply H. lia.
Qed.

Lemma dict_set_keys {V} (k : string) (v : V) d :
  map fst (dict_set k v d)
  = if bool_decide (k ∈ map fst d) then map fst d else map fst d ++ [k].
Proof.
  induction d as [|[k' v'] d IH]; [done|]. cbn [dict_set map fst].
  destruct (decide (k = k')) as [->|Hne].
  - rewrite (bool_decide_eq_true_2 (k' = k')) by done.
    by rewrite (bool_decide_eq_true_2 (k' ∈ k' :: map fst d)) by apply list_elem_of_here.
  - rewrite (bool_decide_eq_false_2 (k = k')) by done. cbn [map fst]. rewrite IH.
    rewrite (bool_decide_ext (k ∈ k' :: map fst d) (k ∈ map fst d)).
    + by destruct (bool_decide (k ∈ map fst d)).
    + rewrite elem_of_cons. split; [|by right]. intros [?|?]; done.
Qed.

Lemma setup_loop_keys env classes setups : forall ws g,
  NoDup (map fst ws ++ map fst setups) ->
  map fst (default [] (match fst (setup_loop env classes setups ws g) with
                       | Ok ws' => Some ws'
                       | Raise _ => None
                       end))
  = map fst ws ++ map fst setups.
Proof.
  induction setups as [|[name cls] setups IH]; intros ws g Hnd.
  - simpl. by rewrite app_nil_r.
  - rewrite setup_loop_cons. rewrite IH.
    + rewrite dict_set_keys. rewrite bool_decide_eq_false_2.
      * by rewrite <- app_assoc.
      * apply NoDup_app in Hnd as (_ & Hdisj & _). intros Hin.
        apply (Hdisj name Hin). apply list_elem_of_here.
    + rewrite dict_set_keys. rewrite bool_decide_eq_false_2.
      * by rewrite <- app_assoc.
      * apply NoDup_app in Hnd as (_ & Hdisj & _). intros Hin.
        apply (Hdisj name Hin). apply list_elem_of_here.
Qed.

(** X17. The set-up loop (lines 2544-2681) ends without raising
    whatever the constructors and the wiring inside it do, and
    leaves in [workers] exactly the six capabilities, in the order of
    [worker_setups]; closing a window that holds these workers
    therefore terminates at most six threads and is blocked for at
    most 21000 ms. *)
Theorem setup_then_close (env : Env) (classes : Classes) (g : Globals)
    (tenv : ThreadEnv) :
  exists ws g',
    setup_loop env classes (worker_setups classes) [] g = (Ok ws, g')
    /\ map fst ws = worker_names
    /\ forall self, workers self = ws ->
         count_if is_terminate (fst (closeEvent tenv self)) <= 6
         /\ wait_budget (fst (closeEvent tenv self)) <= 21000.
Proof.
  assert (Hnd : NoDup (map fst (worker_setups classes))).
  { rewrite worker_setups_names. apply (bool_decide_unpack _). vm_compute. exact I. }
  pose proof (setup_loop_keys env classes (worker_setups classes) [] g Hnd) as Hkeys.
  destruct (setup_loop_spec env classes (worker_setups classes) Hnd [] g)
    as (ws' & extra & Heq & _).
  rewrite Heq in Hkeys. cbn [fst default from_option id app] in Hkeys.
  rewrite worker_setups_names in Hkeys.
  eexists _, _. split; [exact Heq|].
  split; [exact Hkeys|]. intros self Hws.
  destruct (closeEvent_counts tenv self) as (_ & -> & ->). rewrite Hws.
  pose proof (stop_workers_bounded tenv ws') as H. cbn zeta in H.
  assert (Hlen : length ws' = 6%nat).
  { rewrite <- (List.length_map fst ws'), Hkeys. reflexivity. }
  rewrite Hlen in H. lia.
Qed.

End SupervisorFacts.

(** ** Saving images *)

Section ImageSaveFacts.

Import ImageSaveWorker.

(** X18. Every call of [save_image] ends in exactly one of two ways for
    the listeners: the pair [image_saved], [status_update], or one
    [error] carrying the worker's name; never both and never
    nothing.  With neither Pillow nor OpenCV the call is refused
    before anything is written, whatever the frame is. *)
Theorem save_image_one_outcome (env : Env) (self : Worker.obj)
    (frame : frame_object) (filename : string) :
  let tr := save_image env self frame filename in
  (signals_of tr
     = [image_saved filename; status_update ("Saved: " +:+ basename filename) 3000]
   \/ exists message, signals_of tr = [error (Worker.worker_name self) message])
  /\ (PIL_AVAILABLE env || CV2_AVAILABLE env = true
      \/ tr = [Emit (error (Worker.worker_name self)
                       "Neither Pillow (PIL) nor OpenCV is available for saving images.")]).
Proof.
  cbv zeta. split.
  - unfold save_image, save_body.
    repeat case_match; simplify_eq; cbn; eauto.
  - unfold save_image.
    destruct (PIL_AVAILABLE env), (CV2_AVAILABLE env); cbn; auto.
Qed.

End ImageSaveFacts.

Section ImageSaveResult.

Import ImageSaveWorker.

(** X19. [save_image] does not look at what the write call returns:
    [QPixmap.save], [QImage.save] and [cv2.imwrite] report a file
    that could not be written by returning [False], and the worker
    then still emits [image_saved] and "Saved: ...", and no
    [error]. *)
Theorem save_image_reports_unwritten_file (env : Env) (self : Worker.obj)
    (frame : frame_object) (filename : string) :
  PIL_AVAILABLE env || CV2_AVAILABLE env = true ->
  ((frame = QPixmap \/ frame = QImage) /\ qt_save env = Ok false)
  \/ ((exists shape, frame = ndarray shape)
      /\ NUMPY_AVAILABLE env = true /\ CV2_AVAILABLE env = true
      /\ imwrite env = Ok false) ->
  signals_of (save_image env self frame filename)
  = [image_saved filename; status_update ("Saved: " +:+ basename filename) 3000].
Proof.
  intros Hlib Hcase. unfold save_image.
  assert (Hguard : negb (PIL_AVAILABLE env) && negb (CV2_AVAILABLE env) = false).
  { destruct (PIL_AVAILABLE env), (CV2_AVAILABLE env); done. }
  rewrite Hguard.
  destruct Hcase as [[[-> | ->] Hqt] | ([shape ->] & Hnp & Hcv & Hw)].
  - cbn. rewrite Hqt. reflexivity.
  - cbn. rewrite Hqt. reflexivity.
  - cbn. rewrite Hnp, Hcv, Hw. reflexivity.
Qed.

Lemma save_image_reports_unwritten_file_witness :
  signals_of (save_image
                {| PIL_AVAILABLE := false; CV2_AVAILABLE := true;
                   NUMPY_AVAILABLE := true;
                   qt_save := Ok true; imwrite := Ok false;
                   fromarray_first := Ok tt; fromarray_again := Ok tt;
                   pil_save := Ok tt; describe := fun _ => "error" |}
                __init__ (ndarray [480; 640; 3]) "/no/such/dir/capture.png")
  = [image_saved "/no/such/dir/capture.png"; status_update "Saved: capture.png" 3000].
Proof.
  refine (save_image_reports_unwritten_file _ __init__ (ndarray [480; 640; 3])
            "/no/such/dir/capture.png" _ _).
  - reflexivity.
  - right. split; [by eexists|]. repeat split; reflexivity.
Defined.

End ImageSaveResult.

(** ** The slots of the window *)

Section SlotFacts.

Import Resolver MainWindow Slots.

Lemma lower_char_space c :
  Ascii.eqb (PyText.lower_char c) (Ascii.ascii_of_N 32)
  = Ascii.eqb c (Ascii.ascii_of_N 32).
Proof.
  destruct c as [[] [] [] [] [] [] [] []]; vm_compute; reflexivity.
Qed.

(** Lower-casing moves no space, so it commutes with the split at
    the first space. *)
Lemma split_space_once_lower s :
  PyText.split_space_once (PyText.lower s)
  = (PyText.lower (fst (PyText.split_space_once s)),
     PyText.lower <$> snd (PyText.split_space_once s)).
Proof.
  induction s as [|c s IH]; [done|].
  cbn [PyText.lower PyText.split_space_once].
  rewrite lower_char_space.
  destruct (Ascii.eqb c (Ascii.ascii_of_N 32)); [done|].
  rewrite IH. by destruct (PyText.split_space_once s) as [h t].
Qed.

Lemma slash_args_lowered command_text :
  let args_str := default "" (snd (PyText.split_space_once (PyText.lower command_text))) in
  PyText.lower args_str = args_str.
Proof.
  cbv zeta. rewrite split_space_once_lower. cbn [snd].
  destruct (snd (PyText.split_space_once command_text)) as [t|]; [|done].
  cbn. apply lower_idempotent.
Qed.

Lemma THEMES_CSS_keys_capitalised :
  Forall (fun k => PyText.lower k <> k) THEMES_CSS_keys.
Proof.
  apply (bool_decide_unpack _). vm_compute. exact I.
Qed.

Lemma slash_command_no_request keys command_text :
  filter is_nlp_request (_handle_slash_command keys command_text) = [].
Proof.
  unfold _handle_slash_command, clear_chat_slot.
  repeat case_match; reflexivity.
Qed.

(** X20. A theme is applied by [/theme] only if its name is a key of the
    combo box that equals its own lower-case form, because the
    whole command line is lower-cased before the name is looked up.
    Every key of [THEMES_CSS] has a capital letter, so [/theme]
    applies no theme at all, and answers the example of its own help
    text with "Unknown theme". *)
Theorem slash_theme_never_applies (keys : list string) (command_text : string) :
  Forall (fun a => match a with
                   | apply_theme k => k ∈ keys /\ PyText.lower k = k
                   | _ => True
                   end) (_handle_slash_command keys command_text)
  /\ filter is_apply_theme (_handle_slash_command THEMES_CSS_keys command_text) = []
  /\ _handle_slash_command THEMES_CSS_keys "/theme Cyberpunk Neon"
     = [add_chat_message "System"
          [("error", "Unknown theme: cyberpunk neon. Available: "
                     +:+ PyText.join ", " THEMES_CSS_keys)]].
Proof.
  assert (Hgen : forall ks,
    Forall (fun a => match a with
                     | apply_theme k => k ∈ ks /\ PyText.lower k = k
                     | _ => True
                     end) (_handle_slash_command ks command_text)).
  { intros ks. unfold _handle_slash_command, clear_chat_slot.
    pose proof (slash_args_lowered command_text) as Hlow. cbv zeta in Hlow.
    repeat case_match; repeat constructor.
    - match goal with H : _ && _ = true |- _ =>
        apply andb_prop in H as [_ H]; by apply bool_decide_eq_true in H end.
    - exact Hlow. }
  split; [apply Hgen|]. split; [|vm_compute; reflexivity].
  specialize (Hgen THEMES_CSS_keys).
  induction Hgen as [|a l Ha _ IH]; [done|].
  destruct a; try exact IH.
  destruct Ha as [Hin Hlow]. exfalso.
  pose proof THEMES_CSS_keys_capitalised as Hcap.
  rewrite Forall_forall in Hcap. by apply (Hcap _ Hin).
Qed.

Lemma lstrip_head s :
  PyText.lstrip s = ""
  \/ exists c r, PyText.lstrip s = String c r /\ PyStr.isspace c = false.
Proof.
  induction s as [|c s IH]; [by left|].
  cbn [PyText.lstrip]. destruct (PyStr.isspace c) eqn:E; [exact IH|].
  right. by exists c, s.
Qed.

Lemma rstrip_head c r :
  PyStr.isspace c = false -> PyText.rstrip (String c r) = String c (PyText.rstrip r).
Proof.
  intros E. cbn [PyText.rstrip]. rewrite E. by destruct (PyText.rstrip r).
Qed.

Lemma rstrip_idempotent s : PyText.rstrip (PyText.rstrip s) = PyText.rstrip s.
Proof.
  induction s as [|c s IH]; [done|].
  cbn [PyText.rstrip].
  destruct (PyText.rstrip s) as [|d r] eqn:E.
  - destruct (PyStr.isspace c) eqn:Ec; [done|].
    cbn [PyText.rstrip]. by rewrite Ec.
  - change (PyText.rstrip (String c (String d r))) with
      (match PyText.rstrip (String d r) with
       | EmptyString => if PyStr.isspace c then EmptyString else String c EmptyString
       | rest' => String c rest'
       end).
    by rewrite IH.
Qed.

(** [strip] leaves nothing to strip. *)
Lemma strip_idempotent s : PyText.strip (PyText.strip s) = PyText.strip s.
Proof.
  unfold PyText.strip.
  destruct (lstrip_head s) as [->|(c & r & -> & E)]; [done|].
  rewrite (rstrip_head _ _ E). cbn [PyText.lstrip]. rewrite E.
  by rewrite (rstrip_head _ _ E), rstrip_idempotent.
Qed.

(** X21. What [send_input_slot] passes to the language and emotion
    workers: nothing for a field that holds only white space and
    nothing for a line that starts with a slash; otherwise the text
    without the surrounding white space, once to each.  Except for
    the blank field, the input field is cleared last. *)
Theorem send_input_routes (keys : list string) (field_text : string) :
  let user_text := PyText.strip field_text in
  filter is_nlp_request (send_input_slot keys field_text)
  = (if PyText.truthy user_text && negb (PyText.startswith "/" user_text)
     then [emit_start_nlp_processing user_text;
           emit_request_emotion_analysis user_text]
     else [])
  /\ PyText.strip user_text = user_text
  /\ (if PyText.truthy user_text
      then last (send_input_slot keys field_text) = Some clear_input
      else send_input_slot keys field_text = []).
Proof.
  cbv zeta. unfold send_input_slot.
  split; [|split; [apply strip_idempotent|]].
  - destruct (PyText.truthy (PyText.strip field_text)); [|done].
    cbn [negb andb app]. rewrite filter_cons. cbn [is_nlp_request].
    case_decide; [done|].
    destruct (PyText.startswith "/" (PyText.strip field_text)); cbn [negb].
    + rewrite filter_app, slash_command_no_request. reflexivity.
    + reflexivity.
  - destruct (PyText.truthy (PyText.strip field_text)); [|done].
    cbn [negb]. rewrite app_assoc. apply last_snoc.
Qed.

Lemma run_error_names env self turns n m :
  Qt.error n m ∈ signals_of (fst (fst (CameraWorker.run env self turns))) ->
  n = CameraWorker.worker_name self.
Proof.
  unfold CameraWorker.run.
  destruct (CameraWorker.CV2_AVAILABLE env); cbn [negb].
  2:{ cbn. intros H. apply elem_of_cons in H as [[= -> _]|H]; [done|].
      apply elem_of_cons in H as [[=]|H]. by apply elem_of_nil in H. }
  destruct (CameraWorker.open_succeeds env); cbn [negb].
  2:{ cbn. intros H. apply elem_of_cons in H as [[= -> _]|H]; [done|].
      apply elem_of_cons in H as [[=]|H]. by apply elem_of_nil in H. }
  set (self2 := CameraWorker.set_base _ _).
  destruct (capture_loop_frames env turns self2) as (frames & Hsig & _).
  destruct (CameraWorker.capture_loop env self2 turns) as [[tr self3] exited].
  cbn [fst snd] in Hsig.
  assert (Hframes : Qt.error n m ∉ signals_of tr).
  { rewrite Hsig. intros H. apply list_elem_of_fmap in H as (f & [=] & _). }
  destruct exited.
  - destruct (CameraWorker.cap self3); cbn [fst];
      rewrite !signals_of_app; intros H;
      repeat (apply elem_of_app in H as [H|H]); try done; cbn in H;
      repeat (apply elem_of_cons in H as [[=]|H]); by apply elem_of_nil in H.
  - cbn [fst]. rewrite !signals_of_app. intros H.
    repeat (apply elem_of_app in H as [H|H]); try done; cbn in H;
      repeat (apply elem_of_cons in H as [[=]|H]); by apply elem_of_nil in H.
Qed.

(** X22. An error of the camera worker does not switch the camera off in
    the window.  [handle_worker_error] clears [camera_on] for the
    worker name "camera" (in any case of letters), but the worker
    reports itself under its class name "CameraWorker": every
    [error] that [run] emits carries that name, and the slot leaves
    [camera_on], and the other attributes, as they were. *)
Theorem camera_error_keeps_camera_on (env : CameraWorker.Env)
    (self : CameraWorker.obj) (turns : list CameraWorker.Iteration)
    (u : ui) (n m : string) :
  CameraWorker.worker_name self = "CameraWorker" ->
  Qt.error n m ∈ signals_of (fst (fst (CameraWorker.run env self turns))) ->
  n = "CameraWorker" /\ fst (handle_worker_error u n m) = u.
Proof.
  intros Hname Hin. apply run_error_names in Hin. rewrite Hname in Hin. subst n.
  split; [done|]. reflexivity.
Qed.

Lemma camera_error_keeps_camera_on_witness :
  camera_on (fst (handle_worker_error
                    {| camera_on := true; voice_input_on := false;
                       voice_output_enabled := true;
                       current_camera_filter_key := "None" |}
                    "CameraWorker" "Cannot open camera at index 0."))
  = true.
Proof.
  refine (f_equal camera_on
            (proj2 (camera_error_keeps_camera_on Samples.camera_absent
                      (CameraWorker.__init__ Samples.default_camera_config) []
                      {| camera_on := true; voice_input_on := false;
                         voice_output_enabled := true;
                         current_camera_filter_key := "None" |}
                      "CameraWorker" "Cannot open camera at index 0." eq_refl _))).
  vm_compute. apply list_elem_of_here.
Defined.

Lemma startup_workers_empty early env classes g self' g' :
  _perform_full_initialization early env classes __init__ g = (Ok self', g') ->
  workers self' = [].
Proof.
  unfold _perform_full_initialization.
  destruct early as [e|e|e widget rate volume|widget].
  - intros [= <- _]. reflexivity.
  - intros [= <- _]. reflexivity.
  - intros [= <- _]. reflexivity.
  - assert (Hget : getattr_method "_setup_workers_and_threads" = Raise AttributeError).
    { vm_compute. reflexivity. }
    unfold try_except, bind, lift. rewrite Hget. unfold ret.
    intros [= <- _]. reflexivity.
Qed.

(** X23. After [_perform_full_initialization] the slots reach no worker:
    [workers] is empty, so switching the camera or the voice input
    on puts the flag back to off and starts nothing, and a reply of
    the language worker is shown but never spoken. *)
Theorem slots_unreachable_after_startup (early : early_outcome) (env : Env)
    (classes : Classes) (g g' : Globals) (self' : obj) (tenv : ThreadEnv) (u : ui)
    (checked : bool) (response_dict : NLPWorker_Dummy.response) :
  _perform_full_initialization early env classes __init__ g = (Ok self', g') ->
  toggle_camera_slot tenv (workers self') u checked
  = (set_camera_on u false, [set_capture_enabled false])
  /\ toggle_voice_input_slot (workers self') u checked = (set_voice_input_on u false, [])
  /\ filter is_invoke (handle_nlp_result (workers self') u response_dict) = [].
Proof.
  intros Hinit. rewrite (startup_workers_empty _ _ _ _ _ _ Hinit).
  split; [reflexivity|]. split; [reflexivity|].
  unfold handle_nlp_result. cbn [dict_get mbind option_bind app filter].
  rewrite filter_cons. cbn [is_invoke]. case_decide; [done|]. by case_match.
Qed.

Lemma slots_unreachable_after_startup_witness :
  toggle_camera_slot Samples.graceful_threads
    (workers (show_init_error (with_sliders (with_settings __init__ None) true true)))
    {| camera_on := false; voice_input_on := false; voice_output_enabled := true;
       current_camera_filter_key := "None" |} true
  = (set_camera_on
       {| camera_on := false; voice_input_on := false; voice_output_enabled := true;
          current_camera_filter_key := "None" |} false,
     [set_capture_enabled false]).
Proof.
  refine (proj1 (slots_unreachable_after_startup (EarlyOk None) Samples.emotion_broken
                   Samples.dummy_classes initial_globals initial_globals
                   (show_init_error (with_sliders (with_settings __init__ None) true true))
                   Samples.graceful_threads _ true
                   {| NLPWorker_Dummy.type := "fallback_info";
                      NLPWorker_Dummy.text_to_speak := "reply";
                      NLPWorker_Dummy.display_details := [("normal", "reply")];
                      NLPWorker_Dummy.original_input := "hello";
                      NLPWorker_Dummy.timestamp := "now" |} _)).
  vm_compute. reflexivity.
Defined.

(** X24. Had set-up run, the camera switch would work as follows while
    the camera thread is idle, as set-up leaves it: if the camera
    worker was set up, switching on selects the current filter on
    the worker and then starts the thread "cameraThread"; if its
    set-up failed, the switch falls back to off and starts
    nothing. *)
Theorem setup_then_toggle_camera (env : Env) (classes : Classes) (self : obj)
    (g : Globals) (tenv : ThreadEnv) (u : ui) :
  isRunning tenv "cameraThread" = false ->
  exists self' g',
    _setup_workers_and_threads env classes self g = (Ok self', g')
    /\ toggle_camera_slot tenv (workers self') u true
       = if is_ok (setup_body env classes "camera" class_CameraWorker)
         then (set_camera_on u true,
               [call_set_filter (current_camera_filter_key u);
                thread_start "cameraThread"; set_capture_enabled true])
         else (set_camera_on u false, [set_capture_enabled false]).
Proof.
  intros Hidle. unfold _setup_workers_and_threads.
  assert (Hnd : NoDup (map fst (worker_setups classes))).
  { rewrite worker_setups_names. apply (bool_decide_unpack _). vm_compute. exact I. }
  destruct (setup_loop_spec env classes (worker_setups classes) Hnd [] g)
    as (ws' & extra & Heq & Hin & _).
  unfold bind. rewrite Heq. unfold ret. eexists _, _. split; [reflexivity|].
  cbn [workers].
  assert (Hcam : dict_get "camera" ws'
                 = Some (handle_of (setup_body env classes "camera" class_CameraWorker))).
  { apply Hin. unfold worker_setups. repeat constructor. }
  unfold toggle_camera_slot. rewrite Hcam.
  destruct (setup_body env classes "camera" class_CameraWorker) as [h|e] eqn:Hbody.
  - destruct (setup_body_ok _ _ _ _ _ Hbody) as (inst & t & Hw & Ht & Hn & _).
    change ("camera" +:+ "Thread") with "cameraThread" in Hn.
    destruct h as [w th]. cbn [worker thread handle_of] in *. subst w th.
    cbn [set_camera_on camera_on is_ok]. rewrite Hn, Hidle. reflexivity.
  - reflexivity.
Qed.

Lemma setup_then_toggle_camera_witness :
  exists self' g',
    _setup_workers_and_threads Samples.emotion_broken Samples.dummy_classes
      __init__ initial_globals = (Ok self', g')
    /\ fst (toggle_camera_slot
              {| isRunning := fun _ => false; wait := fun _ _ => true |}
              (workers self')
              {| camera_on := false; voice_input_on := false;
                 voice_output_enabled := true;
                 current_camera_filter_key := "Sepia" |} true)
       = {| camera_on := true; voice_input_on := false;
            voice_output_enabled := true;
            current_camera_filter_key := "Sepia" |}.
Proof.
  destruct (setup_then_toggle_camera Samples.emotion_broken Samples.dummy_classes
              __init__ initial_globals
              {| isRunning := fun _ => false; wait := fun _ _ => true |}
              {| camera_on := false; voice_input_on := false;
                 voice_output_enabled := true;
                 current_camera_filter_key := "Sepia" |} eq_refl)
    as (self' & g' & Hsetup & Htoggle).
  exists self', g'. split; [exact Hsetup|]. rewrite Htoggle. reflexivity.
Defined.

Lemma process_user_input_spoken now text :
  exists r,
    NLPWorker_Dummy.process_user_input now text = [r]
    /\ NLPWorker_Dummy.display_details r = [("normal", NLPWorker_Dummy.text_to_speak r)]
    /\ NLPWorker_Dummy.text_to_speak r <> "".
Proof.
  unfold NLPWorker_Dummy.process_user_input.
  destruct (get_information_some text) as (answer & -> & Hnonempty).
  eexists. split; [reflexivity|].
  cbn [NLPWorker_Dummy.display_details NLPWorker_Dummy.text_to_speak].
  split; [reflexivity|].
  case_match; [discriminate|exact Hnonempty].
Qed.

(** X25. With the voice output on and a [tts] worker that has [speak],
    every input the dummy language worker processes is answered
    once: its one reply is shown under the robot's name and the
    same, non-empty text is sent to [speak]. *)
Theorem dummy_reply_is_spoken (now text : string)
    (workers : list (string * Handle)) (u : ui) (h : Handle) (inst : Instance) :
  voice_output_enabled u = true ->
  dict_get "tts" workers = Some h ->
  worker h = Some inst ->
  hasattr inst "speak" = true ->
  exists r,
    NLPWorker_Dummy.process_user_input now text = [r]
    /\ NLPWorker_Dummy.text_to_speak r <> ""
    /\ handle_nlp_result workers u r
       = [add_chat_message RobotInfoModule_Dummy.APP_NAME_CONST
            [("normal", NLPWorker_Dummy.text_to_speak r)];
          invoke "tts" "speak" (Some (NLPWorker_Dummy.text_to_speak r))].
Proof.
  intros Hvoice Htts Hworker Hspeak.
  destruct (process_user_input_spoken now text) as (r & Hr & Hshown & Hnonempty).
  exists r. split; [exact Hr|]. split; [exact Hnonempty|].
  unfold handle_nlp_result. rewrite Hshown, Hvoice, Htts.
  cbn [mbind option_bind]. rewrite Hworker, Hspeak.
  unfold PyText.truthy. rewrite bool_decide_eq_false_2 by done. reflexivity.
Qed.

Lemma dummy_reply_is_spoken_witness :
  exists r,
    NLPWorker_Dummy.process_user_input "2025-01-01T00:00:00" "who are you" = [r]
    /\ NLPWorker_Dummy.text_to_speak r <> ""
    /\ handle_nlp_result
         [("tts", {| worker := Some Samples.tts_dummy_worker;
                     thread := None |})]
         {| camera_on := false; voice_input_on := false;
            voice_output_enabled := true; current_camera_filter_key := "None" |} r
       = [add_chat_message RobotInfoModule_Dummy.APP_NAME_CONST
            [("normal", NLPWorker_Dummy.text_to_speak r)];
          invoke "tts" "speak" (Some (NLPWorker_Dummy.text_to_speak r))].
Proof.
  apply (dummy_reply_is_spoken "2025-01-01T00:00:00" "who are you"
           [("tts", {| worker := Some Samples.tts_dummy_worker;
                       thread := None |})]
           {| camera_on := false; voice_input_on := false;
              voice_output_enabled := true; current_camera_filter_key := "None" |}
           {| worker := Some Samples.tts_dummy_worker; thread := None |}
           Samples.tts_dummy_worker); reflexivity.
Defined.

End SlotFacts.
